(** * ViperMonkey: execution context and argument resolution

    A shallow embedding of [vipermonkey/core/vba_context.py] (the [Context]
    symbol table) and [vipermonkey/core/vba_object.py] ([eval_arg],
    [coerce_args], [limits_exceeded], the Excel cell read), followed by the
    properties of the specification that concern them.

    Conventions of the embedding.
    - Python [str] is [string]; the characters are ASCII code points, so
      [lower], [strip] and [isalpha] are the ASCII restrictions of the
      Python methods.
    - The interpreter is Python 3 (relative imports, [functools.reduce],
      [list(d.values())]): [base64.b64decode] yields [bytes], which is a
      type of its own.
    - [dict]s are [gmap string _].  The [globals] dictionary is shared by
      reference between contexts, so it lives in a heap of dictionaries and
      a context holds its location.
    - Exceptions are an explicit [result]; recursion that Python bounds by
      its stack is bounded by fuel, [None] meaning that the fuel ran out. *)

From Stdlib Require Import ZArith QArith Ascii DecimalString.
From Stdlib Require DecimalZ.
From stdpp Require Import gmap strings list.

#[local] Open Scope Z_scope.

(* ===================================================================== *)
(** * Python string primitives *)
(* ===================================================================== *)

Module PyStr.

Definition ord (c : ascii) : Z := Z.of_N (N_of_ascii c).

Definition chr (z : Z) : ascii := ascii_of_N (Z.to_N z).

Definition is_upper (c : ascii) : bool := (65 <=? ord c) && (ord c <=? 90).

Definition is_lower (c : ascii) : bool := (97 <=? ord c) && (ord c <=? 122).

Definition is_digit (c : ascii) : bool := (48 <=? ord c) && (ord c <=? 57).

(** [c.isalpha()] *)
Definition isalpha (c : ascii) : bool := is_upper c || is_lower c.

(** [c.isspace()]: TAB, LF, VT, FF, CR, FS, GS, RS, US and the space. *)
Definition isspace (c : ascii) : bool :=
  ((9 <=? ord c) && (ord c <=? 13)) || ((28 <=? ord c) && (ord c <=? 32)).

Definition lower_char (c : ascii) : ascii :=
  if is_upper c then chr (ord c + 32) else c.

(** [s.lower()] *)
Fixpoint lower (s : string) : string :=
  match s with
  | EmptyString => EmptyString
  | String c s' => String (lower_char c) (lower s')
  end.

(** [s.startswith(p)] *)
Fixpoint startswith (s p : string) : bool :=
  match p, s with
  | EmptyString, _ => true
  | String _ _, EmptyString => false
  | String a p', String b s' => if Ascii.eqb a b then startswith s' p' else false
  end.

(** [s.endswith(suf)] *)
Fixpoint endswith (s suf : string) : bool :=
  if String.eqb s suf then true
  else match s with
       | EmptyString => false
       | String _ s' => endswith s' suf
       end.

(** [sub in s] *)
Fixpoint contains (s sub : string) : bool :=
  if startswith s sub then true
  else match s with
       | EmptyString => false
       | String _ s' => contains s' sub
       end.

(** [s.index(sub)]; [None] is Python's [ValueError]. *)
Fixpoint index (s sub : string) : option nat :=
  if startswith s sub then Some 0%nat
  else match s with
       | EmptyString => None
       | String _ s' => S <$> index s' sub
       end.

(** [s.rindex(sub)]; [None] is Python's [ValueError]. *)
Fixpoint rindex (s sub : string) : option nat :=
  match s with
  | EmptyString => if startswith s sub then Some 0%nat else None
  | String _ s' =>
      match rindex s' sub with
      | Some i => Some (S i)
      | None => if startswith s sub then Some 0%nat else None
      end
  end.

(** [s[n:]] *)
Fixpoint drop (n : nat) (s : string) : string :=
  match n, s with
  | O, _ => s
  | S _, EmptyString => EmptyString
  | S n', String _ s' => drop n' s'
  end.

(** [s[:n]] *)
Fixpoint take (n : nat) (s : string) : string :=
  match n, s with
  | O, _ => EmptyString
  | S _, EmptyString => EmptyString
  | S n', String c s' => String c (take n' s')
  end.

(** [s[a:b]] for [0 <= a]. *)
Definition slice (a b : nat) (s : string) : string := take (b - a) (drop a s).

(** [new.join(s) + new], the part of [s.replace("", new)] after the first
    [new]. *)
Fixpoint interleave (new s : string) : string :=
  match s with
  | EmptyString => EmptyString
  | String c s' => String c (new +:+ interleave new s')
  end.

(** The scan of [s.replace(old, new)] for a non-empty [old]: left to right,
    occurrences do not overlap.  The fuel is the length of [s]. *)
Fixpoint replace_go (fuel : nat) (old new s : string) : string :=
  match fuel with
  | O => s
  | S fuel' =>
      match s with
      | EmptyString => EmptyString
      | String c s' =>
          if startswith s old
          then new +:+ replace_go fuel' old new (drop (String.length old) s)
          else String c (replace_go fuel' old new s')
      end
  end.

(** [s.replace(old, new)] *)
Definition replace (s old new : string) : string :=
  match old with
  | EmptyString => new +:+ interleave new s
  | String _ _ => replace_go (String.length s) old new s
  end.

(** [s.lstrip()] *)
Fixpoint lstrip (s : string) : string :=
  match s with
  | EmptyString => EmptyString
  | String c s' => if isspace c then lstrip s' else s
  end.

(** [s.rstrip()] *)
Fixpoint rstrip (s : string) : string :=
  match s with
  | EmptyString => EmptyString
  | String c s' =>
      match rstrip s' with
      | EmptyString => if isspace c then EmptyString else String c EmptyString
      | r => String c r
      end
  end.

(** [s.strip()] *)
Definition strip (s : string) : string := rstrip (lstrip s).

(** [str(z)] for an [int]. *)
Definition of_Z (z : Z) : string := NilZero.string_of_int (Z.to_int z).

(** The digits of [int(s)]: decimal digits, single underscores allowed
    between two digits.  [acc] is the value read so far, [prev] tells whether
    the previous character was a digit. *)
Fixpoint digits_go (acc : Z) (prev : bool) (s : string) : option Z :=
  match s with
  | EmptyString => if prev then Some acc else None
  | String c s' =>
      if is_digit c then digits_go (acc * 10 + (ord c - 48)) true s'
      else if Ascii.eqb c "_" then (if prev then digits_go acc false s' else None)
      else None
  end.

(** The whitespace that [int] skips around a number in an ASCII text: the
    space, TAB, LF, VT, FF and CR.  The separators FS, GS, RS and US, which
    [str.strip] removes, are not skipped. *)
Definition is_int_space (c : ascii) : bool :=
  ((9 <=? ord c) && (ord c <=? 13)) || (ord c =? 32).

Fixpoint int_lstrip (s : string) : string :=
  match s with
  | EmptyString => EmptyString
  | String c s' => if is_int_space c then int_lstrip s' else s
  end.

Fixpoint int_rstrip (s : string) : string :=
  match s with
  | EmptyString => EmptyString
  | String c s' =>
      match int_rstrip s' with
      | EmptyString => if is_int_space c then EmptyString else String c EmptyString
      | r => String c r
      end
  end.

(** [int(s)] for a [str]: the whitespace of [is_int_space] around it, an
    optional sign, digits.  [None] is Python's [ValueError]. *)
Definition to_Z (s : string) : option Z :=
  match int_rstrip (int_lstrip s) with
  | String "-" d => Z.opp <$> digits_go 0 false d
  | String "+" d => digits_go 0 false d
  | d => digits_go 0 false d
  end.

Definition hex_digit (n : Z) : ascii :=
  if n <? 10 then chr (48 + n) else chr (87 + n).

(** One byte of [repr(b)] for [bytes], [q] being the quote in use. *)
Definition repr_byte (q : ascii) (c : ascii) : string :=
  if Ascii.eqb c q || Ascii.eqb c "\" then String "\" (String c EmptyString)
  else if Ascii.eqb c "009" then "\t"
  else if Ascii.eqb c "010" then "\n"
  else if Ascii.eqb c "013" then "\r"
  else if (ord c <? 32) || (127 <=? ord c)
       then String "\" (String "x" (String (hex_digit (ord c / 16))
                                      (String (hex_digit (ord c mod 16)) EmptyString)))
       else String c EmptyString.

Fixpoint repr_bytes_go (q : ascii) (s : string) : string :=
  match s with
  | EmptyString => EmptyString
  | String c s' => repr_byte q c +:+ repr_bytes_go q s'
  end.

Definition squote : ascii := "'".
Definition dquote : ascii := ascii_of_nat 34.

(** [str(b)] for [bytes] (which is [repr(b)]). *)
Definition repr_bytes (b : string) : string :=
  let q := if contains b (String squote EmptyString)
              && negb (contains b (String dquote EmptyString))
           then dquote else squote in
  String "b" (String q (repr_bytes_go q b +:+ String q EmptyString)).

End PyStr.

(* ===================================================================== *)
(** * Values, exceptions *)
(* ===================================================================== *)

(** A Python object that is neither [None], a [bool], an [int], a [str] nor
    [bytes]: a float, a [datetime], an AST node ([VBA_Object]), a library
    function ([VbaLibraryFunc]).  The embedding keeps what the modelled code
    observes of it. *)
Record pyobject := {
  obj_id : nat;                (* identity *)
  obj_class : string;          (* name of its class *)
  obj_str : string;            (* [str(o)] *)
  obj_int : option Z;          (* [int(o)], [None] when it raises *)
  obj_statements : bool;       (* [hasattr(o, 'statements')] *)
  obj_evaluable : bool;        (* instance of [VBA_Object] or [VbaLibraryFunc] *)
  obj_member_access : bool     (* instance of [MemberAccessExpression] *)
}.

Inductive value :=
| VNone
| VBool (b : bool)
| VInt (z : Z)
| VStr (s : string)
| VBytes (b : string)
| VObj (o : pyobject).

#[global] Instance pyobject_eq_dec : EqDecision pyobject.
Proof. solve_decision. Defined.

#[global] Instance value_eq_dec : EqDecision value.
Proof. solve_decision. Defined.

#[global] Instance value_inhabited : Inhabited value := populate VNone.

Inductive exn :=
| KeyError
| ValueError
| TypeError
| AttributeError
| RecursionError
| OverflowError
| RuntimeError (msg : string).

Inductive result (A : Type) :=
| Ok (a : A)
| Raise (e : exn).

Arguments Ok {A} a.
Arguments Raise {A} e.

(** [str(v)] *)
Definition py_str (v : value) : string :=
  match v with
  | VNone => "None"
  | VBool true => "True"
  | VBool false => "False"
  | VInt z => PyStr.of_Z z
  | VStr s => s
  | VBytes b => PyStr.repr_bytes b
  | VObj o => obj_str o
  end.

(** [a == b]: a [bool] is the [int] 0 or 1, other types compare within
    themselves. *)
Definition py_eq (a b : value) : bool :=
  match a, b with
  | VBool x, VInt z | VInt z, VBool x => Z.eqb (Z.b2z x) z
  | _, _ => bool_decide (a = b)
  end.

(** The VBA [NULL], which the emulator writes as the string ["NULL"]. *)
Definition NULL : value := VStr "NULL".

(* ===================================================================== *)
(** * vba_context.py *)
(* ===================================================================== *)

(** [is_procedure(vba_object)] *)
Definition is_procedure (vba_object : value) : bool :=
  match vba_object with
  | VObj o => if obj_statements o then true else false
  | _ => false
  end.

Abbreviation dict := (gmap string value).

(** Locations of the dictionaries that contexts share by reference. *)
Abbreviation loc := positive.
Abbreviation heap := (gmap positive (gmap string value)).

(** [open_files[fname]]: [{"name": ..., "contents": [...]}] *)
Record file := {
  file_name : string;
  file_contents : list Z
}.

(** [engine.report_action(action, params, description)] appends to the
    engine's report. *)
Record action := {
  action_name : string;
  action_params : string;
  action_description : string
}.

(** The [xlrd] workbook: [sheet_by_name] and [cell_value], [None] when the
    call raises. *)
Definition sheet : Type := Z → Z → option value.
Definition workbook : Type := string → option sheet.

Record Context := {
  dll_func_true_names : gmap string string;
  tagged_blocks : gmap string value;
  loaded_excel : option workbook;
  open_files : gmap string file;
  closed_files : gmap string (list Z);
  globals : loc;
  locals : gmap string value;
  engine : option (list action);
  doc_vars : gmap string value;
  loop_stack : list bool;
  exit_func : bool;
  types : gmap string value;
  with_prefix : string
}.

Definition with_locals (c : Context) (l : gmap string value) : Context :=
  {| dll_func_true_names := dll_func_true_names c;
     tagged_blocks := tagged_blocks c;
     loaded_excel := loaded_excel c;
     open_files := open_files c;
     closed_files := closed_files c;
     globals := globals c;
     locals := l;
     engine := engine c;
     doc_vars := doc_vars c;
     loop_stack := loop_stack c;
     exit_func := exit_func c;
     types := types c;
     with_prefix := with_prefix c |}.

Definition with_types (c : Context) (t : gmap string value) : Context :=
  {| dll_func_true_names := dll_func_true_names c;
     tagged_blocks := tagged_blocks c;
     loaded_excel := loaded_excel c;
     open_files := open_files c;
     closed_files := closed_files c;
     globals := globals c;
     locals := locals c;
     engine := engine c;
     doc_vars := doc_vars c;
     loop_stack := loop_stack c;
     exit_func := exit_func c;
     types := t;
     with_prefix := with_prefix c |}.

Definition with_files (c : Context) (o : gmap string file)
    (cl : gmap string (list Z)) (e : option (list action)) : Context :=
  {| dll_func_true_names := dll_func_true_names c;
     tagged_blocks := tagged_blocks c;
     loaded_excel := loaded_excel c;
     open_files := o;
     closed_files := cl;
     globals := globals c;
     locals := locals c;
     engine := e;
     doc_vars := doc_vars c;
     loop_stack := loop_stack c;
     exit_func := exit_func c;
     types := types c;
     with_prefix := with_prefix c |}.

Definition with_with_prefix (c : Context) (p : string) : Context :=
  {| dll_func_true_names := dll_func_true_names c;
     tagged_blocks := tagged_blocks c;
     loaded_excel := loaded_excel c;
     open_files := open_files c;
     closed_files := closed_files c;
     globals := globals c;
     locals := locals c;
     engine := engine c;
     doc_vars := doc_vars c;
     loop_stack := loop_stack c;
     exit_func := exit_func c;
     types := types c;
     with_prefix := p |}.

(** The dictionary a context's [globals] refers to. *)
Definition globals_of (h : heap) (c : Context) : gmap string value :=
  h !!! globals c.


(** The float literal [2.0]. *)
Definition float_2_0 : value :=
  VObj {| obj_id := 0; obj_class := "float"; obj_str := "2.0";
          obj_int := Some 2; obj_statements := false;
          obj_evaluable := false; obj_member_access := false |}.

(** The assignments [self.globals["Name".lower()] = value] of
    [Context.__init__], in the order of the source; [now] is the value of
    [datetime.now()].  Hexadecimal literals are written in decimal. *)
Definition BUILTIN_GLOBALS (now : value) : list (string * value) := [
  ("Now", now);
  ("Application.UserName", VStr "--");
  ("vbDirectory", VStr "vbDirectory");
  ("VBA.vbDirectory", VStr "vbDirectory");
  ("VBA.KeyCodeConstants.vbDirectory", VStr "vbDirectory");
  ("vbKeyLButton", VInt 1);
  ("VBA.vbKeyLButton", VInt 1);
  ("VBA.KeyCodeConstants.vbKeyLButton", VInt 1);
  ("vbKeyRButton", VInt 2);
  ("VBA.vbKeyRButton", VInt 2);
  ("VBA.KeyCodeConstants.vbKeyRButton", VInt 2);
  ("vbKeyCancel", VInt 3);
  ("VBA.vbKeyCancel", VInt 3);
  ("VBA.KeyCodeConstants.vbKeyCancel", VInt 3);
  ("vbKeyMButton", VInt 4);
  ("VBA.vbKeyMButton", VInt 4);
  ("VBA.KeyCodeConstants.vbKeyMButton", VInt 4);
  ("vbKeyBack", VInt 8);
  ("VBA.vbKeyBack", VInt 8);
  ("VBA.KeyCodeConstants.vbKeyBack", VInt 8);
  ("vbKeyTab", VInt 9);
  ("VBA.vbKeyTab", VInt 9);
  ("VBA.KeyCodeConstants.vbKeyTab", VInt 9);
  ("vbKeyClear", VInt 12);
  ("VBA.vbKeyClear", VInt 12);
  ("VBA.KeyCodeConstants.vbKeyClear", VInt 12);
  ("vbKeyReturn", VInt 13);
  ("VBA.vbKeyReturn", VInt 13);
  ("VBA.KeyCodeConstants.vbKeyReturn", VInt 13);
  ("vbKeyShift", VInt 16);
  ("VBA.vbKeyShift", VInt 16);
  ("VBA.KeyCodeConstants.vbKeyShift", VInt 16);
  ("vbKeyControl", VInt 17);
  ("VBA.vbKeyControl", VInt 17);
  ("VBA.KeyCodeConstants.vbKeyControl", VInt 17);
  ("vbKeyMenu", VInt 18);
  ("VBA.vbKeyMenu", VInt 18);
  ("VBA.KeyCodeConstants.vbKeyMenu", VInt 18);
  ("vbKeyPause", VInt 19);
  ("VBA.vbKeyPause", VInt 19);
  ("VBA.KeyCodeConstants.vbKeyPause", VInt 19);
  ("vbKeyCapital", VInt 20);
  ("VBA.vbKeyCapital", VInt 20);
  ("VBA.KeyCodeConstants.vbKeyCapital", VInt 20);
  ("vbKeyEscape", VInt 27);
  ("VBA.vbKeyEscape", VInt 27);
  ("VBA.KeyCodeConstants.vbKeyEscape", VInt 27);
  ("vbKeySpace", VInt 32);
  ("VBA.vbKeySpace", VInt 32);
  ("VBA.KeyCodeConstants.vbKeySpace", VInt 32);
  ("vbKeyPageUp", VInt 33);
  ("VBA.vbKeyPageUp", VInt 33);
  ("VBA.KeyCodeConstants.vbKeyPageUp", VInt 33);
  ("vbKeyPageDown", VInt 34);
  ("VBA.vbKeyPageDown", VInt 34);
  ("VBA.KeyCodeConstants.vbKeyPageDown", VInt 34);
  ("vbKeyEnd", VInt 35);
  ("VBA.vbKeyEnd", VInt 35);
  ("VBA.KeyCodeConstants.vbKeyEnd", VInt 35);
  ("vbKeyHome", VInt 36);
  ("VBA.vbKeyHome", VInt 36);
  ("VBA.KeyCodeConstants.vbKeyHome", VInt 36);
  ("vbKeyLeft", VInt 37);
  ("VBA.vbKeyLeft", VInt 37);
  ("VBA.KeyCodeConstants.vbKeyLeft", VInt 37);
  ("vbKeyUp", VInt 38);
  ("VBA.vbKeyUp", VInt 38);
  ("VBA.KeyCodeConstants.vbKeyUp", VInt 38);
  ("vbKeyRight", VInt 39);
  ("VBA.vbKeyRight", VInt 39);
  ("VBA.KeyCodeConstants.vbKeyRight", VInt 39);
  ("vbKeyDown", VInt 40);
  ("VBA.vbKeyDown", VInt 40);
  ("VBA.KeyCodeConstants.vbKeyDown", VInt 40);
  ("vbKeySelect", VInt 41);
  ("VBA.vbKeySelect", VInt 41);
  ("VBA.KeyCodeConstants.vbKeySelect", VInt 41);
  ("vbKeyPrint", VInt 42);
  ("VBA.vbKeyPrint", VInt 42);
  ("VBA.KeyCodeConstants.vbKeyPrint", VInt 42);
  ("vbKeyExecute", VInt 43);
  ("VBA.vbKeyExecute", VInt 43);
  ("VBA.KeyCodeConstants.vbKeyExecute", VInt 43);
  ("vbKeySnapshot", VInt 44);
  ("VBA.vbKeySnapshot", VInt 44);
  ("VBA.KeyCodeConstants.vbKeySnapshot", VInt 44);
  ("vbKeyInsert", VInt 45);
  ("VBA.vbKeyInsert", VInt 45);
  ("VBA.KeyCodeConstants.vbKeyInsert", VInt 45);
  ("vbKeyDelete", VInt 46);
  ("VBA.vbKeyDelete", VInt 46);
  ("VBA.KeyCodeConstants.vbKeyDelete", VInt 46);
  ("vbKeyHelp", VInt 47);
  ("VBA.vbKeyHelp", VInt 47);
  ("VBA.KeyCodeConstants.vbKeyHelp", VInt 47);
  ("vbKeyNumlock", VInt 144);
  ("VBA.vbKeyNumlock", VInt 144);
  ("VBA.KeyCodeConstants.vbKeyNumlock", VInt 144);
  ("vbKeyA", VInt 65);
  ("VBA.vbKeyA", VInt 65);
  ("VBA.KeyCodeConstants.vbKeyA", VInt 65);
  ("vbKeyB", VInt 66);
  ("VBA.vbKeyB", VInt 66);
  ("VBA.KeyCodeConstants.vbKeyB", VInt 66);
  ("vbKeyC", VInt 67);
  ("VBA.vbKeyC", VInt 67);
  ("VBA.KeyCodeConstants.vbKeyC", VInt 67);
  ("vbKeyD", VInt 68);
  ("VBA.vbKeyD", VInt 68);
  ("VBA.KeyCodeConstants.vbKeyD", VInt 68);
  ("vbKeyE", VInt 69);
  ("VBA.vbKeyE", VInt 69);
  ("VBA.KeyCodeConstants.vbKeyE", VInt 69);
  ("vbKeyF", VInt 70);
  ("VBA.vbKeyF", VInt 70);
  ("VBA.KeyCodeConstants.vbKeyF", VInt 70);
  ("vbKeyG", VInt 71);
  ("VBA.vbKeyG", VInt 71);
  ("VBA.KeyCodeConstants.vbKeyG", VInt 71);
  ("vbKeyH", VInt 72);
  ("VBA.vbKeyH", VInt 72);
  ("VBA.KeyCodeConstants.vbKeyH", VInt 72);
  ("vbKeyI", VInt 73);
  ("VBA.vbKeyI", VInt 73);
  ("VBA.KeyCodeConstants.vbKeyI", VInt 73);
  ("vbKeyJ", VInt 74);
  ("VBA.vbKeyJ", VInt 74);
  ("VBA.KeyCodeConstants.vbKeyJ", VInt 74);
  ("vbKeyK", VInt 75);
  ("VBA.vbKeyK", VInt 75);
  ("VBA.KeyCodeConstants.vbKeyK", VInt 75);
  ("vbKeyL", VInt 76);
  ("VBA.vbKeyL", VInt 76);
  ("VBA.KeyCodeConstants.vbKeyL", VInt 76);
  ("vbKeyM", VInt 77);
  ("VBA.vbKeyM", VInt 77);
  ("VBA.KeyCodeConstants.vbKeyM", VInt 77);
  ("vbKeyN", VInt 78);
  ("VBA.vbKeyN", VInt 78);
  ("VBA.KeyCodeConstants.vbKeyN", VInt 78);
  ("vbKeyO", VInt 79);
  ("VBA.vbKeyO", VInt 79);
  ("VBA.KeyCodeConstants.vbKeyO", VInt 79);
  ("vbKeyP", VInt 80);
  ("VBA.vbKeyP", VInt 80);
  ("VBA.KeyCodeConstants.vbKeyP", VInt 80);
  ("vbKeyQ", VInt 81);
  ("VBA.vbKeyQ", VInt 81);
  ("VBA.KeyCodeConstants.vbKeyQ", VInt 81);
  ("vbKeyR", VInt 82);
  ("VBA.vbKeyR", VInt 82);
  ("VBA.KeyCodeConstants.vbKeyR", VInt 82);
  ("vbKeyS", VInt 83);
  ("VBA.vbKeyS", VInt 83);
  ("VBA.KeyCodeConstants.vbKeyS", VInt 83);
  ("vbKeyT", VInt 84);
  ("VBA.vbKeyT", VInt 84);
  ("VBA.KeyCodeConstants.vbKeyT", VInt 84);
  ("vbKeyU", VInt 85);
  ("VBA.vbKeyU", VInt 85);
  ("VBA.KeyCodeConstants.vbKeyU", VInt 85);
  ("vbKeyV", VInt 86);
  ("VBA.vbKeyV", VInt 86);
  ("VBA.KeyCodeConstants.vbKeyV", VInt 86);
  ("vbKeyW", VInt 87);
  ("VBA.vbKeyW", VInt 87);
  ("VBA.KeyCodeConstants.vbKeyW", VInt 87);
  ("vbKeyX", VInt 88);
  ("VBA.vbKeyX", VInt 88);
  ("VBA.KeyCodeConstants.vbKeyX", VInt 88);
  ("vbKeyY", VInt 89);
  ("VBA.vbKeyY", VInt 89);
  ("VBA.KeyCodeConstants.vbKeyY", VInt 89);
  ("vbKeyZ", VInt 90);
  ("VBA.vbKeyZ", VInt 90);
  ("VBA.KeyCodeConstants.vbKeyZ", VInt 90);
  ("vbKey0", VInt 48);
  ("VBA.vbKey0", VInt 48);
  ("VBA.KeyCodeConstants.vbKey0", VInt 48);
  ("vbKey1", VInt 49);
  ("VBA.vbKey1", VInt 49);
  ("VBA.KeyCodeConstants.vbKey1", VInt 49);
  ("vbKey2", VInt 50);
  ("VBA.vbKey2", VInt 50);
  ("VBA.KeyCodeConstants.vbKey2", VInt 50);
  ("vbKey3", VInt 51);
  ("VBA.vbKey3", VInt 51);
  ("VBA.KeyCodeConstants.vbKey3", VInt 51);
  ("vbKey4", VInt 52);
  ("VBA.vbKey4", VInt 52);
  ("VBA.KeyCodeConstants.vbKey4", VInt 52);
  ("vbKey5", VInt 53);
  ("VBA.vbKey5", VInt 53);
  ("VBA.KeyCodeConstants.vbKey5", VInt 53);
  ("vbKey6", VInt 54);
  ("VBA.vbKey6", VInt 54);
  ("VBA.KeyCodeConstants.vbKey6", VInt 54);
  ("vbKey7", VInt 55);
  ("VBA.vbKey7", VInt 55);
  ("VBA.KeyCodeConstants.vbKey7", VInt 55);
  ("vbKey8", VInt 56);
  ("VBA.vbKey8", VInt 56);
  ("VBA.KeyCodeConstants.vbKey8", VInt 56);
  ("vbKey9", VInt 57);
  ("VBA.vbKey9", VInt 57);
  ("VBA.KeyCodeConstants.vbKey9", VInt 57);
  ("vbKeyNumpad0", VInt 96);
  ("VBA.vbKeyNumpad0", VInt 96);
  ("VBA.KeyCodeConstants.vbKeyNumpad0", VInt 96);
  ("vbKeyNumpad1", VInt 97);
  ("VBA.vbKeyNumpad1", VInt 97);
  ("VBA.KeyCodeConstants.vbKeyNumpad1", VInt 97);
  ("vbKeyNumpad2", VInt 98);
  ("VBA.vbKeyNumpad2", VInt 98);
  ("VBA.KeyCodeConstants.vbKeyNumpad2", VInt 98);
  ("vbKeyNumpad3", VInt 99);
  ("VBA.vbKeyNumpad3", VInt 99);
  ("VBA.KeyCodeConstants.vbKeyNumpad3", VInt 99);
  ("vbKeyNumpad4", VInt 100);
  ("VBA.vbKeyNumpad4", VInt 100);
  ("VBA.KeyCodeConstants.vbKeyNumpad4", VInt 100);
  ("vbKeyNumpad5", VInt 101);
  ("VBA.vbKeyNumpad5", VInt 101);
  ("VBA.KeyCodeConstants.vbKeyNumpad5", VInt 101);
  ("vbKeyNumpad6", VInt 102);
  ("VBA.vbKeyNumpad6", VInt 102);
  ("VBA.KeyCodeConstants.vbKeyNumpad6", VInt 102);
  ("vbKeyNumpad7", VInt 103);
  ("VBA.vbKeyNumpad7", VInt 103);
  ("VBA.KeyCodeConstants.vbKeyNumpad7", VInt 103);
  ("vbKeyNumpad8", VInt 104);
  ("VBA.vbKeyNumpad8", VInt 104);
  ("VBA.KeyCodeConstants.vbKeyNumpad8", VInt 104);
  ("vbKeyNumpad9", VInt 105);
  ("VBA.vbKeyNumpad9", VInt 105);
  ("VBA.KeyCodeConstants.vbKeyNumpad9", VInt 105);
  ("vbKeyMultiply", VInt 106);
  ("VBA.vbKeyMultiply", VInt 106);
  ("VBA.KeyCodeConstants.vbKeyMultiply", VInt 106);
  ("vbKeyAdd", VInt 107);
  ("VBA.vbKeyAdd", VInt 107);
  ("VBA.KeyCodeConstants.vbKeyAdd", VInt 107);
  ("vbKeySeparator", VInt 108);
  ("VBA.vbKeySeparator", VInt 108);
  ("VBA.KeyCodeConstants.vbKeySeparator", VInt 108);
  ("vbKeySubtract", VInt 109);
  ("VBA.vbKeySubtract", VInt 109);
  ("VBA.KeyCodeConstants.vbKeySubtract", VInt 109);
  ("vbKeyDecimal", VInt 110);
  ("VBA.vbKeyDecimal", VInt 110);
  ("VBA.KeyCodeConstants.vbKeyDecimal", VInt 110);
  ("vbKeyDivide", VInt 111);
  ("VBA.vbKeyDivide", VInt 111);
  ("VBA.KeyCodeConstants.vbKeyDivide", VInt 111);
  ("vbKeyF1", VInt 112);
  ("VBA.vbKeyF1", VInt 112);
  ("VBA.KeyCodeConstants.vbKeyF1", VInt 112);
  ("vbKeyF2", VInt 113);
  ("VBA.vbKeyF2", VInt 113);
  ("VBA.KeyCodeConstants.vbKeyF2", VInt 113);
  ("vbKeyF3", VInt 114);
  ("VBA.vbKeyF3", VInt 114);
  ("VBA.KeyCodeConstants.vbKeyF3", VInt 114);
  ("vbKeyF4", VInt 115);
  ("VBA.vbKeyF4", VInt 115);
  ("VBA.KeyCodeConstants.vbKeyF4", VInt 115);
  ("vbKeyF5", VInt 116);
  ("VBA.vbKeyF5", VInt 116);
  ("VBA.KeyCodeConstants.vbKeyF5", VInt 116);
  ("vbKeyF6", VInt 117);
  ("VBA.vbKeyF6", VInt 117);
  ("VBA.KeyCodeConstants.vbKeyF6", VInt 117);
  ("vbKeyF7", VInt 118);
  ("VBA.vbKeyF7", VInt 118);
  ("VBA.KeyCodeConstants.vbKeyF7", VInt 118);
  ("vbKeyF8", VInt 119);
  ("VBA.vbKeyF8", VInt 119);
  ("VBA.KeyCodeConstants.vbKeyF8", VInt 119);
  ("vbKeyF9", VInt 120);
  ("VBA.vbKeyF9", VInt 120);
  ("VBA.KeyCodeConstants.vbKeyF9", VInt 120);
  ("vbKeyF10", VInt 121);
  ("VBA.vbKeyF10", VInt 121);
  ("VBA.KeyCodeConstants.vbKeyF10", VInt 121);
  ("vbKeyF11", VInt 122);
  ("VBA.vbKeyF11", VInt 122);
  ("VBA.KeyCodeConstants.vbKeyF11", VInt 122);
  ("vbKeyF12", VInt 123);
  ("VBA.vbKeyF12", VInt 123);
  ("VBA.KeyCodeConstants.vbKeyF12", VInt 123);
  ("vbKeyF13", VInt 124);
  ("VBA.vbKeyF13", VInt 124);
  ("VBA.KeyCodeConstants.vbKeyF13", VInt 124);
  ("vbKeyF14", VInt 125);
  ("VBA.vbKeyF14", VInt 125);
  ("VBA.KeyCodeConstants.vbKeyF14", VInt 125);
  ("vbKeyF15", VInt 126);
  ("VBA.vbKeyF15", VInt 126);
  ("VBA.KeyCodeConstants.vbKeyF15", VInt 126);
  ("vbKeyF16", VInt 127);
  ("VBA.vbKeyF16", VInt 127);
  ("VBA.KeyCodeConstants.vbKeyF16", VInt 127);
  ("vbNullString", VStr EmptyString);
  ("VBA.vbNullString", VStr EmptyString);
  ("VBA.KeyCodeConstants.vbNullString", VStr EmptyString);
  ("vbNullChar", VStr (String "000"%char EmptyString));
  ("VBA.vbNullChar", VStr (String "000"%char EmptyString));
  ("VBA.KeyCodeConstants.vbNullChar", VStr (String "000"%char EmptyString));
  ("vbUpperCase", VInt 1);
  ("VBA.vbUpperCase", VInt 1);
  ("VBA.KeyCodeConstants.vbUpperCase", VInt 1);
  ("vbLowerCase", VInt 2);
  ("VBA.vbLowerCase", VInt 2);
  ("VBA.KeyCodeConstants.vbLowerCase", VInt 2);
  ("vbProperCase", VInt 3);
  ("VBA.vbProperCase", VInt 3);
  ("VBA.KeyCodeConstants.vbProperCase", VInt 3);
  ("vbWide", VInt 4);
  ("VBA.vbWide", VInt 4);
  ("VBA.KeyCodeConstants.vbWide", VInt 4);
  ("vbNarrow", VInt 8);
  ("VBA.vbNarrow", VInt 8);
  ("VBA.KeyCodeConstants.vbNarrow", VInt 8);
  ("vbKatakana", VInt 16);
  ("VBA.vbKatakana", VInt 16);
  ("VBA.KeyCodeConstants.vbKatakana", VInt 16);
  ("vbHiragana", VInt 32);
  ("VBA.vbHiragana", VInt 32);
  ("VBA.KeyCodeConstants.vbHiragana", VInt 32);
  ("vbUnicode", VInt 64);
  ("VBA.vbUnicode", VInt 64);
  ("VBA.KeyCodeConstants.vbUnicode", VInt 64);
  ("vbFromUnicode", VInt 128);
  ("VBA.vbFromUnicode", VInt 128);
  ("VBA.KeyCodeConstants.vbFromUnicode", VInt 128);
  ("xlOuterCenterPoint", float_2_0);
  ("xlPivotLineBlank", VInt 2);
  ("rgbMaroon", VInt 128);
  ("vbKeyLButton", VInt 1);
  ("vbKeyRButton", VInt 2);
  ("vbKeyCancel", VInt 3);
  ("vbKeyMButton", VInt 4);
  ("vbKeyBack", VInt 8);
  ("vbKeyTab", VInt 9);
  ("vbKeyClear", VInt 12);
  ("vbKeyReturn", VInt 13);
  ("vbKeyShift", VInt 16);
  ("vbKeyControl", VInt 17);
  ("vbKeyMenu", VInt 18);
  ("vbKeyPause", VInt 19);
  ("vbKeyCapital", VInt 20);
  ("vbKeyEscape", VInt 27);
  ("vbKeySpace", VInt 32);
  ("vbKeyPageUp", VInt 33);
  ("vbKeyPageDown", VInt 34);
  ("vbKeyEnd", VInt 35);
  ("vbKeyHome", VInt 36);
  ("vbKeyLeft", VInt 37);
  ("vbKeyUp", VInt 38);
  ("vbKeyRight", VInt 39);
  ("vbKeyDown", VInt 40);
  ("vbKeySelect", VInt 41);
  ("vbKeyPrint", VInt 42);
  ("vbKeyExecute", VInt 43);
  ("vbKeySnapshot", VInt 44);
  ("vbKeyInsert", VInt 45);
  ("vbKeyDelete", VInt 46);
  ("vbKeyHelp", VInt 47);
  ("vbKeyNumlock", VInt 144);
  ("vbKeyA", VInt 65);
  ("vbKeyB", VInt 66);
  ("vbKeyC", VInt 67);
  ("vbKeyD", VInt 68);
  ("vbKeyE", VInt 69);
  ("vbKeyF", VInt 70);
  ("vbKeyG", VInt 71);
  ("vbKeyH", VInt 72);
  ("vbKeyI", VInt 73);
  ("vbKeyJ", VInt 74);
  ("vbKeyK", VInt 75);
  ("vbKeyL", VInt 76);
  ("vbKeyM", VInt 77);
  ("vbKeyN", VInt 78);
  ("vbKeyO", VInt 79);
  ("vbKeyP", VInt 80);
  ("vbKeyQ", VInt 81);
  ("vbKeyR", VInt 82);
  ("vbKeyS", VInt 83);
  ("vbKeyT", VInt 84);
  ("vbKeyU", VInt 85);
  ("vbKeyV", VInt 86);
  ("vbKeyW", VInt 87);
  ("vbKeyX", VInt 88);
  ("vbKeyY", VInt 89);
  ("vbKeyZ", VInt 90);
  ("vbKey0", VInt 48);
  ("vbKey1", VInt 49);
  ("vbKey2", VInt 50);
  ("vbKey3", VInt 51);
  ("vbKey4", VInt 52);
  ("vbKey5", VInt 53);
  ("vbKey6", VInt 54);
  ("vbKey7", VInt 55);
  ("vbKey8", VInt 56);
  ("vbKey9", VInt 57);
  ("vbKeyNumpad0", VInt 96);
  ("vbKeyNumpad1", VInt 97);
  ("vbKeyNumpad2", VInt 98);
  ("vbKeyNumpad3", VInt 99);
  ("vbKeyNumpad4", VInt 100);
  ("vbKeyNumpad5", VInt 101);
  ("vbKeyNumpad6", VInt 102);
  ("vbKeyNumpad7", VInt 103);
  ("vbKeyNumpad8", VInt 104);
  ("vbKeyNumpad9", VInt 105);
  ("vbKeyMultiply", VInt 106);
  ("vbKeyAdd", VInt 107);
  ("vbKeySeparator", VInt 108);
  ("vbKeySubtract", VInt 109);
  ("vbKeyDecimal", VInt 110);
  ("vbKeyDivide", VInt 111);
  ("vbKeyF1", VInt 112);
  ("vbKeyF2", VInt 113);
  ("vbKeyF3", VInt 114);
  ("vbKeyF4", VInt 115);
  ("vbKeyF5", VInt 116);
  ("vbKeyF6", VInt 117);
  ("vbKeyF7", VInt 118);
  ("vbKeyF8", VInt 119);
  ("vbKeyF9", VInt 120);
  ("vbKeyF10", VInt 121);
  ("vbKeyF11", VInt 122);
  ("vbKeyF12", VInt 123);
  ("vbKeyF13", VInt 124);
  ("vbKeyF14", VInt 125);
  ("vbKeyF15", VInt 126);
  ("vbKeyF16", VInt 127);
  ("VBA.vbKeyLButton", VInt 1);
  ("VBA.vbKeyRButton", VInt 2);
  ("VBA.vbKeyCancel", VInt 3);
  ("VBA.vbKeyMButton", VInt 4);
  ("VBA.vbKeyBack", VInt 8);
  ("VBA.vbKeyTab", VInt 9);
  ("VBA.vbKeyClear", VInt 12);
  ("VBA.vbKeyReturn", VInt 13);
  ("VBA.vbKeyShift", VInt 16);
  ("VBA.vbKeyControl", VInt 17);
  ("VBA.vbKeyMenu", VInt 18);
  ("VBA.vbKeyPause", VInt 19);
  ("VBA.vbKeyCapital", VInt 20);
  ("VBA.vbKeyEscape", VInt 27);
  ("VBA.vbKeySpace", VInt 32);
  ("VBA.vbKeyPageUp", VInt 33);
  ("VBA.vbKeyPageDown", VInt 34);
  ("VBA.vbKeyEnd", VInt 35);
  ("VBA.vbKeyHome", VInt 36);
  ("VBA.vbKeyLeft", VInt 37);
  ("VBA.vbKeyUp", VInt 38);
  ("VBA.vbKeyRight", VInt 39);
  ("VBA.vbKeyDown", VInt 40);
  ("VBA.vbKeySelect", VInt 41);
  ("VBA.vbKeyPrint", VInt 42);
  ("VBA.vbKeyExecute", VInt 43);
  ("VBA.vbKeySnapshot", VInt 44);
  ("VBA.vbKeyInsert", VInt 45);
  ("VBA.vbKeyDelete", VInt 46);
  ("VBA.vbKeyHelp", VInt 47);
  ("VBA.vbKeyNumlock", VInt 144);
  ("VBA.vbKeyA", VInt 65);
  ("VBA.vbKeyB", VInt 66);
  ("VBA.vbKeyC", VInt 67);
  ("VBA.vbKeyD", VInt 68);
  ("VBA.vbKeyE", VInt 69);
  ("VBA.vbKeyF", VInt 70);
  ("VBA.vbKeyG", VInt 71);
  ("VBA.vbKeyH", VInt 72);
  ("VBA.vbKeyI", VInt 73);
  ("VBA.vbKeyJ", VInt 74);
  ("VBA.vbKeyK", VInt 75);
  ("VBA.vbKeyL", VInt 76);
  ("VBA.vbKeyM", VInt 77);
  ("VBA.vbKeyN", VInt 78);
  ("VBA.vbKeyO", VInt 79);
  ("VBA.vbKeyP", VInt 80);
  ("VBA.vbKeyQ", VInt 81);
  ("VBA.vbKeyR", VInt 82);
  ("VBA.vbKeyS", VInt 83);
  ("VBA.vbKeyT", VInt 84);
  ("VBA.vbKeyU", VInt 85);
  ("VBA.vbKeyV", VInt 86);
  ("VBA.vbKeyW", VInt 87);
  ("VBA.vbKeyX", VInt 88);
  ("VBA.vbKeyY", VInt 89);
  ("VBA.vbKeyZ", VInt 90);
  ("VBA.vbKey0", VInt 48);
  ("VBA.vbKey1", VInt 49);
  ("VBA.vbKey2", VInt 50);
  ("VBA.vbKey3", VInt 51);
  ("VBA.vbKey4", VInt 52);
  ("VBA.vbKey5", VInt 53);
  ("VBA.vbKey6", VInt 54);
  ("VBA.vbKey7", VInt 55);
  ("VBA.vbKey8", VInt 56);
  ("VBA.vbKey9", VInt 57);
  ("VBA.vbKeyNumpad0", VInt 96);
  ("VBA.vbKeyNumpad1", VInt 97);
  ("VBA.vbKeyNumpad2", VInt 98);
  ("VBA.vbKeyNumpad3", VInt 99);
  ("VBA.vbKeyNumpad4", VInt 100);
  ("VBA.vbKeyNumpad5", VInt 101);
  ("VBA.vbKeyNumpad6", VInt 102);
  ("VBA.vbKeyNumpad7", VInt 103);
  ("VBA.vbKeyNumpad8", VInt 104);
  ("VBA.vbKeyNumpad9", VInt 105);
  ("VBA.vbKeyMultiply", VInt 106);
  ("VBA.vbKeyAdd", VInt 107);
  ("VBA.vbKeySeparator", VInt 108);
  ("VBA.vbKeySubtract", VInt 109);
  ("VBA.vbKeyDecimal", VInt 110);
  ("VBA.vbKeyDivide", VInt 111);
  ("VBA.vbKeyF1", VInt 112);
  ("VBA.vbKeyF2", VInt 113);
  ("VBA.vbKeyF3", VInt 114);
  ("VBA.vbKeyF4", VInt 115);
  ("VBA.vbKeyF5", VInt 116);
  ("VBA.vbKeyF6", VInt 117);
  ("VBA.vbKeyF7", VInt 118);
  ("VBA.vbKeyF8", VInt 119);
  ("VBA.vbKeyF9", VInt 120);
  ("VBA.vbKeyF10", VInt 121);
  ("VBA.vbKeyF11", VInt 122);
  ("VBA.vbKeyF12", VInt 123);
  ("VBA.vbKeyF13", VInt 124);
  ("VBA.vbKeyF14", VInt 125);
  ("VBA.vbKeyF15", VInt 126);
  ("VBA.vbKeyF16", VInt 127);
  ("xlErrDiv0", VInt 2007);
  ("xlErrNA", VInt 2042);
  ("xlErrName", VInt 2029);
  ("xlErrNull", VInt 2000);
  ("xlErrNum", VInt 2036);
  ("xlErrRef", VInt 2023);
  ("xlErrValue", VInt 2015);
  ("System.OperatingSystem", VStr "Windows NT");
  ("vbGet", VInt 2);
  ("vbLet", VInt 4);
  ("vbMethod", VInt 1);
  ("vbSet", VInt 8);
  ("xlTickMarkCross", VInt 4);
  ("xlTickMarkInside", VInt 2);
  ("xlTickMarkNone", VInt (-4142));
  ("xlTickMarkOutside", VInt 3);
  ("xlXmlExportSuccess", VInt 0);
  ("xlXmlExportValidationFailed", VInt 1);
  ("xlCellValue", VInt 1);
  ("xlExpression", VInt 2);
  ("xlColorScale", VInt 3);
  ("xlDatabar", VInt 4);
  ("xlTop10", VInt 5);
  ("xlIconSet", VInt 6);
  ("xlUniqueValues", VInt 8);
  ("xlTextString", VInt 9);
  ("xlBlanksCondition", VInt 10);
  ("xlTimePeriod", VInt 11);
  ("xlAboveAverageCondition", VInt 12);
  ("xlNoBlanksCondition", VInt 13);
  ("xlErrorsCondition", VInt 16);
  ("xlNoErrorsCondition", VInt 17);
  ("xlBetween", VInt 1);
  ("xlNotBetween", VInt 2);
  ("xlEqual", VInt 3);
  ("xlNotEqual", VInt 4);
  ("xlGreater", VInt 5);
  ("xlLess", VInt 6);
  ("xlGreaterEqual", VInt 7);
  ("xlLessEqual", VInt 8);
  ("xl3DArea", VInt (-4098));
  ("xl3DAreaStacked", VInt 78);
  ("xl3DAreaStacked100", VInt 79);
  ("xl3DBarClustered", VInt 60);
  ("xl3DBarStacked", VInt 61);
  ("xl3DBarStacked100", VInt 62);
  ("xl3DColumn", VInt (-4100));
  ("xl3DColumnClustered", VInt 54);
  ("xl3DColumnStacked", VInt 55);
  ("xl3DColumnStacked100", VInt 56);
  ("xl3DLine", VInt (-4101));
  ("xl3DPie", VInt (-4102));
  ("xl3DPieExploded", VInt 70);
  ("xlArea", VInt 1);
  ("xlAreaStacked", VInt 76);
  ("xlAreaStacked100", VInt 77);
  ("xlBarClustered", VInt 57);
  ("xlBarOfPie", VInt 71);
  ("xlBarStacked", VInt 58);
  ("xlBarStacked100", VInt 59);
  ("xlBubble", VInt 15);
  ("xlBubble3DEffect", VInt 87);
  ("xlColumnClustered", VInt 51);
  ("xlColumnStacked", VInt 52);
  ("xlColumnStacked100", VInt 53);
  ("xlConeBarClustered", VInt 102);
  ("xlConeBarStacked", VInt 103);
  ("xlConeBarStacked100", VInt 104);
  ("xlConeCol", VInt 105);
  ("xlConeColClustered", VInt 99);
  ("xlConeColStacked", VInt 100);
  ("xlConeColStacked100", VInt 101);
  ("xlCylinderBarClustered", VInt 95);
  ("xlCylinderBarStacked", VInt 96);
  ("xlCylinderBarStacked100", VInt 97);
  ("xlCylinderCol", VInt 98);
  ("xlCylinderColClustered", VInt 92);
  ("xlCylinderColStacked", VInt 93);
  ("xlCylinderColStacked100", VInt 94);
  ("xlDoughnut", VInt (-4120));
  ("xlDoughnutExploded", VInt 80);
  ("xlLine", VInt 4);
  ("xlLineMarkers", VInt 65);
  ("xlLineMarkersStacked", VInt 66);
  ("xlLineMarkersStacked100", VInt 67);
  ("xlLineStacked", VInt 63);
  ("xlLineStacked100", VInt 64);
  ("xlPie", VInt 5);
  ("xlPieExploded", VInt 69);
  ("xlPieOfPie", VInt 68);
  ("xlPyramidBarClustered", VInt 109);
  ("xlPyramidBarStacked", VInt 110);
  ("xlPyramidBarStacked100", VInt 111);
  ("xlPyramidCol", VInt 112);
  ("xlPyramidColClustered", VInt 106);
  ("xlPyramidColStacked", VInt 107);
  ("xlPyramidColStacked100", VInt 108);
  ("xlRadar", VInt (-4151));
  ("xlRadarFilled", VInt 82);
  ("xlRadarMarkers", VInt 81);
  ("xlStockHLC", VInt 88);
  ("xlStockOHLC", VInt 89);
  ("xlStockVHLC", VInt 90);
  ("xlStockVOHLC", VInt 91);
  ("xlSurface", VInt 83);
  ("xlSurfaceTopView", VInt 85);
  ("xlSurfaceTopViewWireframe", VInt 86);
  ("xlSurfaceWireframe", VInt 84);
  ("xlXYScatter", VInt (-4169));
  ("xlXYScatterLines", VInt 74);
  ("xlXYScatterLinesNoMarkers", VInt 75);
  ("xlXYScatterSmooth", VInt 72);
  ("xlXYScatterSmoothNoMarkers", VInt 73);
  ("xl3DBar", VInt (-4099));
  ("xl3DEffects1", VInt 13);
  ("xl3DEffects2", VInt 14);
  ("xl3DSurface", VInt (-4103));
  ("xlAbove", VInt 0);
  ("xlAccounting1", VInt 4);
  ("xlAccounting2", VInt 5);
  ("xlAccounting4", VInt 17);
  ("xlAdd", VInt 2);
  ("xlAll", VInt (-4104));
  ("xlAccounting3", VInt 6);
  ("xlAllExceptBorders", VInt 7);
  ("xlAutomatic", VInt (-4105));
  ("xlBar", VInt 2);
  ("xlBelow", VInt 1);
  ("xlBidi", VInt (-5000));
  ("xlBidiCalendar", VInt 3);
  ("xlBoth", VInt 1);
  ("xlBottom", VInt (-4107));
  ("xlCascade", VInt 7);
  ("xlCenter", VInt (-4108));
  ("xlCenterAcrossSelection", VInt 7);
  ("xlChart4", VInt 2);
  ("xlChartSeries", VInt 17);
  ("xlChartShort", VInt 6);
  ("xlChartTitles", VInt 18);
  ("xlChecker", VInt 9);
  ("xlCircle", VInt 8);
  ("xlClassic1", VInt 1);
  ("xlClassic2", VInt 2);
  ("xlClassic3", VInt 3);
  ("xlClosed", VInt 3);
  ("xlColor1", VInt 7);
  ("xlColor2", VInt 8);
  ("xlColor3", VInt 9);
  ("xlColumn", VInt 3);
  ("xlCombination", VInt (-4111));
  ("xlComplete", VInt 4);
  ("xlConstants", VInt 2);
  ("xlContents", VInt 2);
  ("xlContext", VInt (-5002));
  ("xlCorner", VInt 2);
  ("xlCrissCross", VInt 16);
  ("xlCross", VInt 4);
  ("xlCustom", VInt (-4114));
  ("xlDebugCodePane", VInt 13);
  ("xlDefaultAutoFormat", VInt (-1));
  ("xlDesktop", VInt 9);
  ("xlDiamond", VInt 2);
  ("xlDirect", VInt 1);
  ("xlDistributed", VInt (-4117));
  ("xlDivide", VInt 5);
  ("xlDoubleAccounting", VInt 5);
  ("xlDoubleClosed", VInt 5);
  ("xlDoubleOpen", VInt 4);
  ("xlDoubleQuote", VInt 1);
  ("xlDrawingObject", VInt 14);
  ("xlEntireChart", VInt 20);
  ("xlExcelMenus", VInt 1);
  ("xlExtended", VInt 3);
  ("xlFill", VInt 5);
  ("xlFirst", VInt 0);
  ("xlFixedValue", VInt 1);
  ("xlFloating", VInt 5);
  ("xlFormats", VInt (-4122));
  ("xlFormula", VInt 5);
  ("xlFullScript", VInt 1);
  ("xlGeneral", VInt 1);
  ("xlGray16", VInt 17);
  ("xlGray25", VInt (-4124));
  ("xlGray50", VInt (-4125));
  ("xlGray75", VInt (-4126));
  ("xlGray8", VInt 18);
  ("xlGregorian", VInt 2);
  ("xlGrid", VInt 15);
  ("xlGridline", VInt 22);
  ("xlHigh", VInt (-4127));
  ("xlHindiNumerals", VInt 3);
  ("xlIcons", VInt 1);
  ("xlImmediatePane", VInt 12);
  ("xlInside", VInt 2);
  ("xlInteger", VInt 2);
  ("xlJustify", VInt (-4130));
  ("xlLast", VInt 1);
  ("xlLastCell", VInt 11);
  ("xlLatin", VInt (-5001));
  ("xlLeft", VInt (-4131));
  ("xlLeftToRight", VInt 2);
  ("xlLightDown", VInt 13);
  ("xlLightHorizontal", VInt 11);
  ("xlLightUp", VInt 14);
  ("xlLightVertical", VInt 12);
  ("xlList1", VInt 10);
  ("xlList2", VInt 11);
  ("xlList3", VInt 12);
  ("xlLocalFormat1", VInt 15);
  ("xlLocalFormat2", VInt 16);
  ("xlLogicalCursor", VInt 1);
  ("xlLong", VInt 3);
  ("xlLotusHelp", VInt 2);
  ("xlLow", VInt (-4134));
  ("xlLTR", VInt (-5003));
  ("xlMacrosheetCell", VInt 7);
  ("xlManual", VInt (-4135));
  ("xlMaximum", VInt 2);
  ("xlMinimum", VInt 4);
  ("xlMinusValues", VInt 3);
  ("xlMixed", VInt 2);
  ("xlMixedAuthorizedScript", VInt 4);
  ("xlMixedScript", VInt 3);
  ("xlModule", VInt (-4141));
  ("xlMultiply", VInt 4);
  ("xlNarrow", VInt 1);
  ("xlNextToAxis", VInt 4);
  ("xlNoDocuments", VInt 3);
  ("xlNone", VInt (-4142));
  ("xlNotes", VInt (-4144));
  ("xlOff", VInt (-4146));
  ("xlOn", VInt 1);
  ("xlOpaque", VInt 3);
  ("xlOpen", VInt 2);
  ("xlOutside", VInt 3);
  ("xlPartial", VInt 3);
  ("xlPartialScript", VInt 2);
  ("xlPercent", VInt 2);
  ("xlPlus", VInt 9);
  ("xlPlusValues", VInt 2);
  ("xlReference", VInt 4);
  ("xlRight", VInt (-4152));
  ("xlRTL", VInt (-5004));
  ("xlScale", VInt 3);
  ("xlSemiautomatic", VInt 2);
  ("xlSemiGray75", VInt 10);
  ("xlShort", VInt 1);
  ("xlShowLabel", VInt 4);
  ("xlShowLabelAndPercent", VInt 5);
  ("xlShowPercent", VInt 3);
  ("xlShowValue", VInt 2);
  ("xlSimple", VInt (-4154));
  ("xlSingle", VInt 2);
  ("xlSingleAccounting", VInt 4);
  ("xlSingleQuote", VInt 2);
  ("xlSolid", VInt 1);
  ("xlSquare", VInt 1);
  ("xlStar", VInt 5);
  ("xlStError", VInt 4);
  ("xlStrict", VInt 2);
  ("xlSubtract", VInt 3);
  ("xlSystem", VInt 1);
  ("xlTextBox", VInt 16);
  ("xlTiled", VInt 1);
  ("xlTitleBar", VInt 8);
  ("xlToolbar", VInt 1);
  ("xlToolbarButton", VInt 2);
  ("xlTop", VInt (-4160));
  ("xlTopToBottom", VInt 1);
  ("xlTransparent", VInt 2);
  ("xlTriangle", VInt 3);
  ("xlVeryHidden", VInt 2);
  ("xlVisible", VInt 12);
  ("xlVisualCursor", VInt 2);
  ("xlWatchPane", VInt 11);
  ("xlWide", VInt 3);
  ("xlWorkbookTab", VInt 6);
  ("xlWorksheet4", VInt 1);
  ("xlWorksheetCell", VInt 3);
  ("xlWorksheetShort", VInt 5);
  ("xlBinsTypeAutomatic", VInt 0);
  ("xlBinsTypeCategorical", VInt 1);
  ("xlBinsTypeManual", VInt 2);
  ("xlBinsTypeBinSize", VInt 3);
  ("xlBinsTypeBinCount", VInt 4);
  ("xlCountryCode", VInt 1);
  ("xlCountrySetting", VInt 2);
  ("xl3DBar", VInt (-4099));
  ("xlAboveAverage", VInt 0);
  ("xlActionTypeDrillthrough", VInt 256);
  ("xlAutomaticAllocation", VInt 2);
  ("xlEqualAllocation", VInt 1);
  ("xlAllocateIncrement", VInt 2);
  ("xl24HourClock", VInt 33);
  ("xlColumnThenRow", VInt 2);
  ("xlArabicBothStrict", VInt 3);
  ("xlArrangeStyleCascade", VInt 7);
  ("xlArrowHeadLengthLong", VInt 3);
  ("xlArrowHeadStyleClosed", VInt 3);
  ("xlArrowHeadWidthMedium", VInt (-4138));
  ("xlFillCopy", VInt 1);
  ("xlAnd", VInt 1);
  ("xlAxisCrossesAutomatic", VInt (-4105));
  ("xlPrimary", VInt 1);
  ("xlCategory", VInt 1);
  ("xlBackgroundAutomatic", VInt (-4105));
  ("xlBox", VInt 0);
  ("xlBinsTypeAutomatic", VInt 0);
  ("xlHairline", VInt 1);
  ("xlDiagonalDown", VInt 5);
  ("xlDialogActivate", VInt 103);
  ("xlErrDiv0", VInt 2007);
  ("xlAllValues", VInt 0);
  ("xlCalculatedMeasure", VInt 2);
  ("xlCalculationAutomatic", VInt (-4105));
  ("xlAnyKey", VInt 2);
  ("xlCalculating", VInt 1);
  ("xlAutomaticScale", VInt (-4105));
  ("xlCellChangeApplied", VInt 3);
  ("xlInsertDeleteCells", VInt 1);
  ("xlCellTypeAllFormatConditions", VInt (-4172));
  ("xlChartElementPositionAutomatic", VInt (-4105));
  ("xlAnyGallery", VInt 23);
  ("xlAxis", VInt 21);
  ("xlLocationAsNewSheet", VInt 1);
  ("xlAllFaces", VInt 7);
  ("xlStack", VInt 2);
  ("xlSplitByCustomSplit", VInt 4);
  ("xl3DArea", VInt (-4098));
  ("xlCheckInMajorVersion", VInt 1);
  ("xlClipboardFormatBIFF", VInt 8);
  ("xlCmdCube", VInt 1);
  ("xlColorIndexAutomatic", VInt (-4105));
  ("xlDMYFormat", VInt 4);
  ("xlCommandUnderlinesAutomatic", VInt (-4105));
  ("xlCommentAndIndicator", VInt 1);
  ("xlConditionValueAutomaticMax", VInt 7);
  ("xlConnectionTypeDATAFEED", VInt 6);
  ("xlAverage", VInt (-4106));
  ("xlBeginsWith", VInt 2);
  ("xlBitmap", VInt 2);
  ("xlExtractData", VInt 2);
  ("xlCreatorCode", VInt 1480803660);
  ("CredentialsMethodIntegrated", VInt 0);
  ("xlCubeAttribute", VInt 4);
  ("xlHierarchy", VInt 1);
  ("xlCopy", VInt 1);
  ("xlValidAlertInformation", VInt 3);
  ("xlValidateCustom", VInt 7);
  ("xlDataBarAxisAutomatic", VInt 0);
  ("xlDataBarBorderNone", VInt 0);
  ("xlDataBarFillGradient", VInt 1);
  ("xlDataBarColor", VInt 0);
  ("xlLabelPositionAbove", VInt 0);
  ("xlDataLabelSeparatorDefault", VInt 1);
  ("xlDataLabelsShowBubbleSizes", VInt 6);
  ("xlDay", VInt 1);
  ("xlAutoFill", VInt 4);
  ("xlShiftToLeft", VInt (-4159));
  ("xlDown", VInt (-4121));
  ("xlInterpolated", VInt 3);
  ("xlDisplayShapes", VInt (-4104));
  ("xlHundredMillions", VInt (-8));
  ("xlDuplicate", VInt 1);
  ("xlFilterAboveAverage", VInt 33);
  ("xlBIFF", VInt 2);
  ("xlAutomaticUpdate", VInt 4);
  ("xlPublisher", VInt 1);
  ("xlDisabled", VInt 0);
  ("xlNoRestrictions", VInt 0);
  ("xlCap", VInt 1);
  ("xlX", VInt (-4168));
  ("xlErrorBarIncludeBoth", VInt 1);
  ("xlErrorBarTypeCustom", VInt (-4114));
  ("xlEmptyCellReferences", VInt 7);
  ("xlReadOnly", VInt 3);
  ("xlAddIn", VInt 18);
  ("xlFileValidationPivotDefault", VInt 0);
  ("xlFillWithAll", VInt (-4104));
  ("xlFilterCopy", VInt 2);
  ("xlFilterAllDatesInPeriodDay", VInt 2);
  ("xlFilterStatusOK", VInt 0);
  ("xlComments", VInt (-4144));
  ("xlQualityMinimum", VInt 1);
  ("xlTypePDF", VInt 0);
  ("xlButtonControl", VInt 0);
  ("xlBetween", VInt 1);
  ("xlAboveAverageCondition", VInt 12);
  ("FilterBottom", VInt 0);
  ("xlColumnLabels", VInt 2);
  ("xlA1TableRefs", VInt 0);
  ("GradientFillLinear", VInt 0);
  ("xlHAlignCenter", VInt (-4108));
  ("xlHebrewFullScript", VInt 0);
  ("xlAllChanges", VInt 2);
  ("xlHtmlCalc", VInt 1);
  ("xlIMEModeAlpha", VInt 8);
  ("xlIcon0Bars", VInt 37);
  ("xl3Arrows", VInt 1);
  ("xlPivotTableReport", VInt 1);
  ("xlFormatFromLeftOrAbove", VInt 0);
  ("xlShiftDown", VInt (-4121));
  ("xlOutline", VInt 1);
  ("xlCompactRow", VInt 0);
  ("xlLegendPositionBottom", VInt (-4107));
  ("xlContinuous", VInt 1);
  ("xlExcelLinks", VInt 1);
  ("xlEditionDate", VInt 2);
  ("xlLinkInfoOLELinks", VInt 2);
  ("xlLinkStatusCopiedValues", VInt 10);
  ("xlLinkTypeExcelLinks", VInt 1);
  ("xlListConflictDialog", VInt 0);
  ("xlListDataTypeCheckbox", VInt 9);
  ("xlSrcExternal", VInt 0);
  ("xlColumnHeader", VInt (-4110));
  ("xlPart", VInt 2);
  ("LookForBlanks", VInt 0);
  ("xlMicrosoftAccess", VInt 4);
  ("xlMAPI", VInt 1);
  ("xlMarkerStyleAutomatic", VInt (-4105));
  ("xlCentimeters", VInt 1);
  ("xlChangeByExcel", VInt 0);
  ("xlNoButton", VInt 0);
  ("xlDefault", VInt (-4143));
  ("xlOLEControl", VInt 2);
  ("xlVerbOpen", VInt 2);
  ("xlOartHorizontalOverflowClip", VInt 1);
  ("xlOartVerticalOverflowClip", VInt 1);
  ("xlFitToPage", VInt 2);
  ("xlDownThenOver", VInt 1);
  ("xlDownward", VInt (-4170));
  ("xlBlanks", VInt 4);
  ("xlPageBreakAutomatic", VInt (-4105));
  ("xlPageBreakFull", VInt 1);
  ("xlLandscape", VInt 2);
  ("xlPaper10x14", VInt 16);
  ("xlParamTypeBigInt", VInt (-5));
  ("xlConstant", VInt 1);
  ("xlPasteSpecialOperationAdd", VInt 2);
  ("xlPasteAll", VInt (-4104));
  ("xlPatternAutomatic", VInt (-4105));
  ("xlPhoneticAlignCenter", VInt 2);
  ("xlHiragana", VInt 2);
  ("xlPrinter", VInt 2);
  ("xlBMP", VInt 1);
  ("xlCenterPoint", VInt 5);
  ("xlHorizontalCoordinate", VInt 1);
  ("xlPivotCellBlankCell", VInt 9);
  ("xlDataFieldScope", VInt 2);
  ("xlDifferenceFrom", VInt 2);
  ("xlDate", VInt 2);
  ("xlColumnField", VInt 2);
  ("xlDoNotRepeatLabels", VInt 1);
  ("xlBefore", VInt 31);
  ("xlPTClassic", VInt 20);
  ("xlPivotLineBlank", VInt 3);
  ("xlMissingItemsDefault", VInt (-1));
  ("xlConsolidation", VInt 3);
  ("xlPivotTableVersion2000", VInt 0);
  ("xlFreeFloating", VInt 3);
  ("xlMacintosh", VInt 1);
  ("xlPortugueseBoth", VInt 3);
  ("xlPrintErrorsBlank", VInt 1);
  ("xlPrintInPlace", VInt 16);
  ("xlPriorityHigh", VInt (-4127));
  ("xlDisplayPropertyInPivotTable", VInt 1);
  ("xlProtectedViewCloseEdit", VInt 1);
  ("xlProtectedViewWindowMaximized", VInt 2);
  ("xlADORecordset", VInt 7);
  ("xlLensOnly", VInt 0);
  ("xlRangeAutoFormat3DEffects1", VInt 13);
  ("xlRangeValueDefault", VInt 10);
  ("xlA1", VInt 1);
  ("xlAbsolute", VInt 1);
  ("xlRDIAll", VInt 99);
  ("rgbAliceBlue", VInt 16775408);
  ("xlAlways", VInt 1);
  ("xlColumns", VInt 2);
  ("xlAutoActivate", VInt 3);
  ("xlDoNotSaveChanges", VInt 2);
  ("xlExclusive", VInt 3);
  ("xlLocalSessionChanges", VInt 2);
  ("xlScaleLinear", VInt (-4132));
  ("xlNext", VInt 1);
  ("xlByColumns", VInt 2);
  ("xlWithinSheet", VInt 1);
  ("xlChart", VInt (-4109));
  ("xlSheetHidden", VInt 0);
  ("xlSizeIsArea", VInt 1);
  ("xlSlicer", VInt 1);
  ("xlSlicerCrossFilterHideButtonsWithNoData", VInt 4);
  ("xlSlicerSortAscending", VInt 2);
  ("xlSortNormal", VInt 0);
  ("xlPinYin", VInt 1);
  ("xlCodePage", VInt 2);
  ("SortOnCellColor", VInt 1);
  ("xlAscending", VInt 1);
  ("xlSortColumns", VInt 1);
  ("xlSortLabels", VInt 2);
  ("xlSourceAutoFilter", VInt 3);
  ("xlSpanishTuteoAndVoseo", VInt 1);
  ("xlSparkScaleCustom", VInt 3);
  ("xlSparkColumn", VInt 2);
  ("SparklineColumnsSquare", VInt 2);
  ("xlSpeakByColumns", VInt 1);
  ("xlErrors", VInt 16);
  ("ColorScaleBlackWhite", VInt 3);
  ("xlSubscribeToPicture", VInt (-4147));
  ("xlAtBottom", VInt 2);
  ("xlSummaryOnLeft", VInt (-4131));
  ("xlStandardSummary", VInt 1);
  ("xlSummaryAbove", VInt 0);
  ("xlTabPositionFirst", VInt 0);
  ("xlBlankRow", VInt 19);
  ("xlDelimited", VInt 1);
  ("xlTextQualifierDoubleQuote", VInt 1);
  ("xlTextVisualLTR", VInt 1);
  ("xlThemeColorAccent1", VInt 5);
  ("xlThemeFontMajor", VInt 2);
  ("xlThreadModeAutomatic", VInt 0);
  ("xlTickLabelOrientationAutomatic", VInt (-4105));
  ("xlTickLabelPositionHigh", VInt (-4127));
  ("xlTickMarkCross", VInt 4);
  ("xlLast7Days", VInt 2);
  ("xlDays", VInt 0);
  ("xlTimelineLevelYears", VInt 0);
  ("xlNoButtonChanges", VInt 1);
  ("xlTop10Bottom", VInt 0);
  ("xlTotalsCalculationAverage", VInt 2);
  ("xlExponential", VInt 5);
  ("xlUnderlineStyleDouble", VInt (-4119));
  ("xlUpdateLinksAlways", VInt 3);
  ("xlVAlignBottom", VInt (-4107));
  ("xlWBATChart", VInt (-4109));
  ("xlWebFormattingAll", VInt 1);
  ("xlAllTables", VInt 2);
  ("xlMaximized", VInt (-4137));
  ("xlChartAsWindow", VInt 5);
  ("xlNormalView", VInt 1);
  ("xlCommand", VInt 2);
  ("xlXmlExportSuccess", VInt 0);
  ("xlXmlImportElementsTruncated", VInt 1);
  ("xlXmlLoadImportToList", VInt 2);
  ("xlGuess", VInt 0);
  ("xlNumberFormatTypeDefault", VInt 0);
  ("xlNumberFormatTypeNumber", VInt 1);
  ("xlNumberFormatTypePercent", VInt 2);
  ("xlCategoryLabelLevelAll", VInt (-1));
  ("xlCategoryLabelLevelCustom", VInt (-2));
  ("xlCategoryLabelLevelNone", VInt (-3));
  ("xlCategoryLabelLevelAll", VInt (-1));
  ("xlCategoryLabelLevelCustom", VInt (-2));
  ("xlCategoryLabelLevelNone", VInt (-3));
  ("xlChartElementPositionAutomatic", VInt (-4105));
  ("xlChartElementPositionCustom", VInt (-4114));
  ("xlColorIndexAutomatic", VInt (-4105));
  ("xlColorIndexNone", VInt (-4142));
  ("xlShiftToLeft", VInt (-4159));
  ("xlShiftUp", VInt (-4162));
  ("xlDown", VInt (-4121));
  ("xlToLeft", VInt (-4159));
  ("xlToRight", VInt (-4161));
  ("xlUp", VInt (-4162));
  ("xlForecastAggregationAverage", VInt 1);
  ("xlForecastAggregationCount", VInt 2);
  ("xlForecastAggregationCountA", VInt 3);
  ("xlForecastAggregationMax", VInt 4);
  ("xlForecastAggregationMedian", VInt 5);
  ("xlForecastAggregationMin", VInt 6);
  ("xlForecastAggregationSum", VInt 7);
  ("xlForecastDataCompletionInterpolate", VInt 1);
  ("xlForecastDataCompletionZeros", VInt 0);
  ("xlParentDataLabelOptionsBanner", VInt 1);
  ("xlParentDataLabelOptionsNone", VInt 0);
  ("xlParentDataLabelOptionsOverlapping", VInt 2);
  ("xlSeriesNameLevelAll", VInt (-1));
  ("xlSeriesNameLevelCustom", VInt (-2));
  ("xlSeriesNameLevelNone", VInt (-3));
  ("msoAnimAccumulateAlways", VInt 2);
  ("msoAnimAdditiveAddBase", VInt 1);
  ("msoAnimAfterEffectDim", VInt 1);
  ("msoAnimateChartAllAtOnce", VInt 7);
  ("msoAnimCommandTypeCall", VInt 1);
  ("msoAnimDirectionAcross", VInt 18);
  ("msoAnimEffectAppear", VInt 1);
  ("msoAnimEffectAfterFreeze", VInt 1);
  ("msoAnimEffectRestartAlways", VInt 1);
  ("msoAnimFilterEffectSubtypeAcross", VInt 9);
  ("msoAnimFilterEffectTypeBarn", VInt 1);
  ("msoAnimColor", VInt 7);
  ("msoAnimTextUnitEffectByCharacter", VInt 1);
  ("msoAnimTriggerAfterPrevious", VInt 3);
  ("msoAnimTypeColor", VInt 2);
  ("msoClickStateAfterAllAnimations", VInt (-2));
  ("ppActionEndShow", VInt 6);
  ("ppAdvanceModeMixed", VInt (-2));
  ("ppAfterEffectDim", VInt 2);
  ("ppAlertsAll", VInt 2);
  ("ppArrangeCascade", VInt 2);
  ("ppAutoSizeMixed", VInt (-2));
  ("ppBaselineAlignBaseline", VInt 1);
  ("ppBorderBottom", VInt 3);
  ("ppBulletMixed", VInt (-2));
  ("ppCaseLower", VInt 2);
  ("ppAnimateByCategory", VInt 2);
  ("ppCheckInMajorVersion", VInt 1);
  ("ppAccent1", VInt 6);
  ("ppDateTimeddddMMMMddyyyy", VInt 2);
  ("ppDirectionLeftToRight", VInt 1);
  ("ppEffectAppear", VInt 3844);
  ("ppFarEastLineBreakLevelCustom", VInt 3);
  ("ppFixedFormatIntentPrint", VInt 2);
  ("ppFixedFormatTypePDF", VInt 2);
  ("ppFollowColorsMixed", VInt (-2));
  ("ppFrameColorsBlackTextOnWhite", VInt 5);
  ("ppHorizontalGuide", VInt 1);
  ("ppHTMLAutodetect", VInt 4);
  ("ppIndentControlMixed", VInt (-2));
  ("ppMediaTaskStatusNone", VInt 0);
  ("ppMediaTypeMixed", VInt (-2));
  ("ppMouseClick", VInt 1);
  ("ppBulletAlphaLCParenBoth", VInt 8);
  ("ppAlignCenter", VInt 2);
  ("ppPasteBitmap", VInt 1);
  ("ppPlaceholderBitmap", VInt 9);
  ("ppPlaying", VInt 0);
  ("ppPrintBlackAndWhite", VInt 2);
  ("ppPrintHandoutHorizontalFirst", VInt 2);
  ("ppPrintOutputBuildSlides", VInt 7);
  ("ppPrintAll", VInt 1);
  ("ppProtectedViewCloseNormal", VInt 0);
  ("ppPublishAll", VInt 1);
  ("ppRDIAll", VInt 99);
  ("ppResampleMediaProfileCustom", VInt 1);
  ("ppRevisionInfoBaseline", VInt 1);
  ("ppSaveAsAddIn", VInt 8);
  ("ppSelectionNone", VInt 0);
  ("ppLayoutBlank", VInt 12);
  ("ppSlideShowManualAdvance", VInt 1);
  ("ppSlideShowPointerAlwaysHidden", VInt 3);
  ("ppShowAll", VInt 1);
  ("ppSlideShowBlackScreen", VInt 3);
  ("ppShowTypeKiosk", VInt 3);
  ("ppSlideSize35MM", VInt 4);
  ("ppSoundEffectsMixed", VInt (-2));
  ("ppSoundFormatCDAudio", VInt 3);
  ("ppTabStopCenter", VInt 2);
  ("ppAnimateByAllLevels", VInt 16);
  ("ppBodyStyle", VInt 3);
  ("ppAnimateByCharacter", VInt 2);
  ("ppTransitionSpeedFast", VInt 3);
  ("ppUpdateOptionAutomatic", VInt 2);
  ("ppViewHandoutMaster", VInt 4);
  ("ppWindowMaximized", VInt 3);
  ("xlAxisCrossesAutomatic", VInt (-4105));
  ("xlPrimary", VInt 1);
  ("xlCategory", VInt 1);
  ("xlBackgroundAutomatic", VInt (-4105));
  ("xlBox", VInt 0);
  ("xlBinsTypeAutomatic", VInt 0);
  ("xlHairline", VInt 1);
  ("xlCategoryLabelLevelAll", VInt (-1));
  ("xlAutomaticScale", VInt (-4105));
  ("xlChartElementPositionAutomatic", VInt (-4105));
  ("xlAnyGallery", VInt 23);
  ("xlAxis", VInt 21);
  ("xlAllFaces", VInt 7);
  ("xlStack", VInt 2);
  ("xlSplitByCustomSplit", VInt 4);
  ("xlColorIndexAutomatic", VInt (-4105));
  ("xl3DBar", VInt (-4099));
  ("xlBitmap", VInt 2);
  ("xlLabelPositionAbove", VInt 0);
  ("xlDataLabelSeparatorDefault", VInt 1);
  ("xlDataLabelsShowBubbleSizes", VInt 6);
  ("xlInterpolated", VInt 3);
  ("xlHundredMillions", VInt (-8));
  ("xlCap", VInt 1);
  ("xlChartX", VInt (-4168));
  ("xlErrorBarIncludeBoth", VInt 1);
  ("xlErrorBarTypeCustom", VInt (-4114));
  ("xlHAlignCenter", VInt (-4108));
  ("xlLegendPositionBottom", VInt (-4107));
  ("xlContinuous", VInt 1);
  ("xlMarkerStyleAutomatic", VInt (-4105));
  ("xlDownward", VInt (-4170));
  ("xlParentDataLabelOptionsNone", VInt 0);
  ("xlPatternAutomatic", VInt (-4105));
  ("xlPrinter", VInt 2);
  ("xlCenterPoint", VInt 5);
  ("xlCenterPoint", VInt 5);
  ("xlColumnField", VInt 2);
  ("xlContext", VInt (-5002));
  ("xlAliceBlue", VInt 16775408);
  ("xlColumns", VInt 2);
  ("xlScaleLinear", VInt (-4132));
  ("xlSeriesNameLevelAll", VInt (-1));
  ("xlSizeIsArea", VInt 1);
  ("xlTickLabelOrientationAutomatic", VInt (-4105));
  ("xlTickLabelPositionHigh", VInt (-4127));
  ("xlTickMarkCross", VInt 4);
  ("xlDays", VInt 0);
  ("xlExponential", VInt 5);
  ("xlUnderlineStyleDouble", VInt (-4119));
  ("xlVAlignBottom", VInt (-4107))
].

(** One assignment [self.globals["Name".lower()] = value]. *)
Definition assign (g : gmap string value) (kv : string * value) : gmap string value :=
  <[PyStr.lower kv.1 := kv.2]> g.

(** The constants written into [globals] by [Context.__init__]: each
    assignment overwrites what the dictionary held under the lowercased
    name. *)
Definition seed_globals (now : value) (g : gmap string value) : gmap string value :=
  foldl assign g (BUILTIN_GLOBALS now).

(** [Context.__init__].  [_globals] is a reference to a dictionary;
    [_locals] is copied; [context] is the parent, whose [globals] the new
    context refers to; a context built from neither gets a new dictionary.
    [now] is the value of [datetime.now()]. *)
Definition Context_init (h : heap) (_globals : option loc)
    (_locals : option (gmap string value)) (context : option Context)
    (engine_arg : option (list action)) (doc_vars_arg : option (gmap string value))
    (loaded_excel_arg : option workbook) (now : value) : heap * Context :=
  let '(h, g) :=
    match _globals, context with
    | Some g, _ => (h, g)
    | None, Some p => (h, globals p)
    | None, None => let g := fresh (dom h) in (<[g := ∅]> h, g)
    end in
  let inherit := match _globals, context with
                 | None, Some p => Some p
                 | _, _ => None
                 end in
  let c :=
    {| dll_func_true_names := from_option dll_func_true_names ∅ inherit;
       tagged_blocks := ∅;
       loaded_excel := from_option loaded_excel loaded_excel_arg inherit;
       open_files := from_option open_files ∅ inherit;
       closed_files := from_option closed_files ∅ inherit;
       globals := g;
       locals := default ∅ _locals;
       engine := match engine_arg, context with
                 | Some e, _ => Some e
                 | None, Some p => engine p
                 | None, None => None
                 end;
       doc_vars := match doc_vars_arg, context with
                   | Some d, _ => d
                   | None, Some p => doc_vars p
                   | None, None => ∅
                   end;
       loop_stack := [];
       exit_func := false;
       types := ∅;
       with_prefix := "" |} in
  (<[g := seed_globals now (h !!! g)]> h, c).

Section Context.

(** [VBA_LIBRARY], the process-wide dictionary of the VBA library; it is
    filled by the library modules. *)
Variable VBA_LIBRARY : gmap string value.

(** [base64.b64decode] on a [str]; [None] when it raises. *)
Variable b64decode : string → option string.

(** [hashlib.sha256(data).hexdigest()] *)
Variable sha256_hexdigest : list Z → string.

(** [Context._get] *)
Definition _get (h : heap) (c : Context) (name : string) : result value :=
  let name := PyStr.lower name in
  match locals c !! name with
  | Some v => Ok v
  | None =>
      match globals_of h c !! name with
      | Some v => Ok v
      | None =>
          match VBA_LIBRARY !! name with
          | Some v => Ok v
          | None => Raise KeyError
          end
      end
  end.

(** [Context.get] *)
Definition get (h : heap) (c : Context) (name : string) : result value :=
  let tmp_name := with_prefix c +:+ name in
  match _get h c tmp_name with
  | Ok v => Ok v
  | Raise KeyError =>
      match _get h c name with
      | Ok v => Ok v
      | Raise KeyError => _get h c (name +:+ "$")
      | Raise e => Raise e
      end
  | Raise e => Raise e
  end.

(** [Context.contains] *)
Definition contains (h : heap) (c : Context) (name : string) (local : bool) : bool :=
  if local then bool_decide (is_Some (locals c !! PyStr.lower name))
  else match get h c name with
       | Ok _ => true
       | Raise _ => false
       end.

(** [Context.get_type] *)
Definition get_type (c : Context) (var : string) : option value :=
  types c !! PyStr.lower var.

(** [Context.get_doc_var].  The method calls itself on the value of a
    variable; [stack] is the room left on the Python stack. *)
Fixpoint get_doc_var (stack : nat) (h : heap) (c : Context) (var : value)
  : result value :=
  match var with
  | VStr var =>
      let var := PyStr.lower var in
      match doc_vars c !! var with
      | Some r => Ok r
      | None =>
          let wildcard :=
            match doc_vars c !! "*" with
            | Some r => Ok r
            | None => Ok VNone
            end in
          match get h c var with
          | Ok VNone => wildcard
          | Ok var_value =>
              match stack with
              | O => Raise RecursionError
              | S stack' => get_doc_var stack' h c var_value
              end
          | Raise KeyError => wildcard
          | Raise e => Raise e
          end
      end
  | _ => Ok VNone
  end.

(** The first statement of [Context.set]: where the value is stored. *)
Definition store_var (h : heap) (c : Context) (name : string) (v : value)
  : heap * Context :=
  match locals c !! name with
  | Some _ => (h, with_locals c (<[name := v]> (locals c)))
  | None =>
      match globals_of h c !! name with
      | Some old =>
          if negb (is_procedure old)
          then (<[globals c := <[name := v]> (globals_of h c)]> h, c)
          else (h, with_locals c (<[name := v]> (locals c)))
      | None => (h, with_locals c (<[name := v]> (locals c)))
      end
  end.

(** [Context.set] for a name that is a [str] (for another name the method
    returns at once).  The method calls itself for the [With] prefix and for
    the decoded [.nodetypedvalue]; [None] when the fuel runs out. *)
Fixpoint set_ (fuel : nat) (h : heap) (c : Context) (name : string) (v : value)
    (var_type : option value) (do_with_prefix : bool) : option (heap * Context) :=
  match fuel with
  | O => None
  | S fuel' =>
      let name := PyStr.lower name in
      let '(h1, c1) := store_var h c name v in
      let c2 := match var_type with
                | Some t => with_types c1 (<[name := t]> (types c1))
                | None => c1
                end in
      let prefixed :=
        if do_with_prefix && (0 <? String.length (with_prefix c2))%nat
        then set_ fuel' h1 c2 (with_prefix c2 +:+ name) v var_type false
        else Some (h1, c2) in
      match prefixed with
      | None => None
      | Some (h3, c3) =>
          if PyStr.endswith name ".text" then
            let node_type := PyStr.replace name ".text" ".datatype" in
            match get h3 c3 node_type with
            | Ok node =>
                let val := PyStr.strip (py_str node) in
                if String.eqb val "bin.base64" then
                  match b64decode (PyStr.strip (py_str v)) with
                  | Some conv_val =>
                      let val_name := PyStr.replace name ".text" ".nodetypedvalue" in
                      set_ fuel' h3 c3 val_name (VBytes conv_val) None true
                  | None => Some (h3, c3)
                  end
                else Some (h3, c3)
            | Raise _ => Some (h3, c3)
            end
          else Some (h3, c3)
      end
  end.

(** A call of [set] nests at most four deep (see [set_total]). *)
Definition set (h : heap) (c : Context) (name : string) (v : value)
    (var_type : option value) (do_with_prefix : bool) : option (heap * Context) :=
  set_ 4 h c name v var_type do_with_prefix.

(** [Context.open_file] *)
Definition open_file (c : Context) (fname : string) : Context :=
  with_files c
    (<[fname := {| file_name := fname; file_contents := [] |}]> (open_files c))
    (closed_files c) (engine c).

(** [array.array('B', data)]: every item must be an unsigned byte. *)
Definition array_B (data : list Z) : option (list Z) :=
  if forallb (λ x, (0 <=? x) && (x <=? 255)) data then Some data else None.

(** [Context.report_action] with [strip_null_bytes=False]: the call is made
    on [self.engine], which may be [None]. *)
Definition report_action (c : Context) (a : action) : Context * result unit :=
  match engine c with
  | Some log => (with_files c (open_files c) (closed_files c) (Some (log ++ [a])), Ok tt)
  | None => (c, Raise AttributeError)
  end.

(** [Context.dump_file] with the module's [out_dir = None], so that nothing
    is written to disk.  The context comes back as the method left it, also
    when it raises. *)
Definition dump_file (c : Context) (file_id : string) : Context * result unit :=
  match open_files c !! file_id with
  | None => (c, Ok tt)
  | Some f =>
      let name := PyStr.replace (file_name f) "#" "" in
      let data := file_contents f in
      let c1 := with_files c (delete file_id (open_files c))
                  (<[name := data]> (closed_files c)) (engine c) in
      match array_B data with
      | None => (c1, Raise OverflowError)
      | Some raw_data =>
          let file_hash := sha256_hexdigest raw_data in
          report_action c1 {| action_name := "Dropped File Hash";
                              action_params := file_hash;
                              action_description := "File Name: " +:+ name |}
      end
  end.

(* ===================================================================== *)
(** * vba_object.py *)
(* ===================================================================== *)

(** [reduce(f, x, init)] over the characters of a [str]. *)
Fixpoint reduce {A : Type} (f : A → ascii → A) (x : string) (init : A) : A :=
  match x with
  | EmptyString => init
  | String a x' => reduce f x' (f init a)
  end.

(** [excel_col_letter_to_index] *)
Definition excel_col_letter_to_index (x : string) : Z :=
  reduce (λ s a, s * 26 + PyStr.ord a - PyStr.ord "A" + 1) x 0 - 1.

(** What [limits_exceeded] reads from its environment: the number of frames
    on the stack, [sys.getrecursionlimit()], [datetime.now()] and the module's
    [max_emulation_time]. *)
Record limits := {
  level : Z;
  recursionlimit : Z;
  clock : Z;
  max_emulation_time : option Z
}.

(** [recursion_exceeded] of [limits_exceeded].  The product
    [sys.getrecursionlimit() * .75] is a float which is exact for every
    recursion limit below 2^51, so the comparison is the one of the
    rationals. *)
Definition recursion_exceeded (e : limits) : bool :=
  negb (Qle_bool (inject_Z (level e)) (inject_Z (recursionlimit e) * (75 # 100))).

(** [time_exceeded] of [limits_exceeded]. *)
Definition time_exceeded (e : limits) : bool :=
  match max_emulation_time e with
  | Some t => clock e >? t
  | None => false
  end.

(** [limits_exceeded] *)
Definition limits_exceeded (e : limits) (throw_error : bool) : result bool :=
  if recursion_exceeded e && throw_error
  then Raise (RuntimeError "The ViperMonkey recursion depth will be exceeded. Aborting.")
  else if time_exceeded e && throw_error
  then Raise (RuntimeError "The ViperMonkey emulation time limit was exceeded. Aborting.")
  else Ok (recursion_exceeded e || time_exceeded e).

(** The environment of a call made from the current frame. *)
Definition deeper (e : limits) : limits :=
  {| level := level e + 1; recursionlimit := recursionlimit e;
     clock := clock e; max_emulation_time := max_emulation_time e |}.

(** The text between [opener] and the next [")"] of [arg_str], found on
    the lowercased text; [str.index] raises [ValueError] when there is
    none. *)
Definition between (arg_str opener : string) : result string :=
  let tmp_arg_str := PyStr.lower arg_str in
  match PyStr.index tmp_arg_str opener with
  | None => Raise ValueError
  | Some i =>
      let start := (i + String.length opener)%nat in
      match PyStr.index (PyStr.drop start tmp_arg_str) ")" with
      | None => Raise ValueError
      | Some j =>
          let end_ := (start + j)%nat in
          Ok (PyStr.replace
                (PyStr.replace (PyStr.strip (PyStr.slice start end_ arg_str))
                   (String PyStr.dquote EmptyString) "")
                "'" "")
      end
  end.

(** The loop of [_read_from_excel] that splits a cell index: letters go to
    the column, everything else to the row. *)
Fixpoint split_cell (cell_index col row : string) : string * string :=
  match cell_index with
  | EmptyString => (col, row)
  | String c rest =>
      if PyStr.isalpha c
      then split_cell rest (col +:+ String c EmptyString) row
      else split_cell rest col (row +:+ String c EmptyString)
  end.

(** The [try] block of [_read_from_excel]; [None] when it raises, which the
    function catches. *)
Definition read_cell (c : Context) (sheet_name cell_index : string) : option string :=
  match loaded_excel c with
  | None => None
  | Some wb =>
      match wb sheet_name with
      | None => None
      | Some sh =>
          let '(col, row) := split_cell cell_index "" "" in
          match PyStr.to_Z row with
          | None => None
          | Some r =>
              let row := r - 1 in
              let col := excel_col_letter_to_index col in
              match sh row col with
              | None => None
              | Some v => Some (py_str v)
              end
          end
      end
  end.

(** [_read_from_excel]; [Ok None] is Python's [None]. *)
Definition _read_from_excel (arg : value) (c : Context) : result (option string) :=
  let arg_str := py_str arg in
  if PyStr.contains (PyStr.lower arg_str) "thisworkbook."
     && PyStr.contains (PyStr.lower arg_str) "sheets("
     && PyStr.contains (PyStr.lower arg_str) "range("
  then
    match between arg_str "sheets(" with
    | Raise e => Raise e
    | Ok sheet_name =>
        match between arg_str "range(" with
        | Raise e => Raise e
        | Ok cell_index => Ok (read_cell c sheet_name cell_index)
        end
    end
  else Ok None.

(** [module-level meta]: the metadata of the document, by attribute. *)
Variable meta : option (gmap string value).

(** [arg.eval(context=context)] for an AST node or a library function; the
    classes of the nodes are in other modules. *)
Variable object_eval : pyobject → heap → Context → result value.

(** The body of [_read_from_object_text] for a [MemberAccessExpression],
    which reads the [lhs] and [rhs] of that class. *)
Variable member_access_text : pyobject → heap → Context → result value.

(** [_read_from_object_text]: the guard needs an instance of
    [MemberAccessExpression]; for every other argument the function
    returns [None]. *)
Definition _read_from_object_text (arg : value) (h : heap) (c : Context) : result value :=
  let arg_str := py_str arg in
  if PyStr.endswith arg_str ".TextFrame.TextRange.Text"
     || PyStr.endswith arg_str ".AlternativeText"
     || PyStr.endswith arg_str ".TextFrame.ContainingRange"
  then match arg with
       | VObj o => if obj_member_access o then member_access_text o h c else Ok VNone
       | _ => Ok VNone
       end
  else Ok VNone.

(** [re.match(r"[a-zA-Z_][\w\d]*", s)]: the match is anchored at the start
    of [s] only; the result is the matched text. *)
Definition is_word (c : ascii) : bool :=
  PyStr.isalpha c || PyStr.is_digit c || Ascii.eqb c "_".

Fixpoint take_word (s : string) : string :=
  match s with
  | EmptyString => EmptyString
  | String c s' => if is_word c then String c (take_word s') else EmptyString
  end.

Definition re_match_var_name (s : string) : option string :=
  match s with
  | String c s' =>
      if PyStr.isalpha c || Ascii.eqb c "_" then Some (String c (take_word s')) else None
  | EmptyString => None
  end.

(** The loop that peels the leading segments of a dotted name, trying what
    is left as a variable; [fuel] is at least the length of the name. *)
Fixpoint peel (fuel : nat) (h : heap) (c : Context) (arg_peeled : string) : option value :=
  match fuel with
  | O => None
  | S fuel' =>
      if PyStr.contains arg_peeled "." then
        match get h c (PyStr.lower arg_peeled) with
        | Ok val => Some val
        | Raise _ =>
            match PyStr.index arg_peeled "." with
            | Some i => peel fuel' h c (PyStr.drop (i + 1) arg_peeled)
            | None => None
            end
        end
      else None
  end.

(** The last loop of [eval_arg]: [wild_name + str(i)] for the [i] of
    [indices]. *)
Fixpoint wildcard (h : heap) (c : Context) (wild_name : string) (indices : list Z)
  : option value :=
  match indices with
  | [] => None
  | i :: rest =>
      match get h c (wild_name +:+ PyStr.of_Z i) with
      | Ok val => Some val
      | Raise _ => wildcard h c wild_name rest
      end
  end.

(** The name between the parentheses of [ActiveDocument.Variables("X").Value]
    and of [ActiveDocument.CustomDocumentProperties("X").Value]. *)
Definition doc_var_arg (tmp opener : string) : string :=
  PyStr.strip
    (PyStr.replace
       (PyStr.replace
          (PyStr.replace
             (PyStr.replace
                (PyStr.replace (PyStr.replace tmp opener "") ")" "")
                "'" "")
             (String PyStr.dquote EmptyString) "")
          ".value" "")
       "(" "").

(** The end of [eval_arg], reached when nothing resolved the argument. *)
Definition unresolved (arg : value) (treat_as_var_name : bool) : result value :=
  if treat_as_var_name && bool_decide (is_Some (re_match_var_name (py_str arg)))
  then Ok NULL
  else Ok arg.

(** [eval_arg].  The function calls itself on the value of a function name;
    [None] when the fuel runs out.  [e] is what [limits_exceeded] reads in
    this call. *)
Fixpoint eval_arg (fuel : nat) (e : limits) (h : heap) (c : Context) (arg : value)
    (treat_as_var_name : bool) : option (result value) :=
  match fuel with
  | O => None
  | S fuel' =>
  match limits_exceeded e false with
  | Raise x => Some (Raise x)
  | Ok true => Some (Raise (RuntimeError
      "The ViperMonkey recursion depth will be exceeded or emulation time limit was exceeded. Aborting."))
  | Ok false =>
  match _read_from_excel arg c with
  | Raise x => Some (Raise x)
  | Ok (Some excel_val) => Some (Ok (VStr excel_val))
  | Ok None =>
  match _read_from_object_text arg h c with
  | Raise x => Some (Raise x)
  | Ok VNone =>
  match arg with
  | VStr s =>
      match get h c s with
      | Ok r => Some (Ok r)
      | Raise _ =>
      let low := PyStr.lower s in
      if PyStr.contains low ".nodetypedvalue" then
        match get h c (PyStr.replace low ".nodetypedvalue" ".text") with
        | Ok val =>
            (* the concatenation with [val] raises unless it is a [str];
               [b64decode] raises or yields [bytes], whose [replace] raises
               on the [str] arguments: each time [val] is returned *)
            match val with
            | VStr t => match b64decode t with
                        | Some _ => Some (Ok val)
                        | None => Some (Ok val)
                        end
            | _ => Some (Ok val)
            end
        | Raise _ => Some (unresolved arg treat_as_var_name)
        end
      else if PyStr.contains low ".selecteditem" then
        match get h c (PyStr.replace low ".selecteditem" ".rapt.value") with
        | Ok val => Some (Ok val)
        | Raise _ => Some (unresolved arg treat_as_var_name)
        end
      else if PyStr.contains low "." then
        let stack := Z.to_nat (recursionlimit e - level e) in
        match get_doc_var stack h c arg with
        | Raise x => Some (Raise x)
        | Ok doc_var_val =>
        if negb (bool_decide (doc_var_val = VNone)) then Some (Ok doc_var_val) else
        match peel (S (String.length s)) h c s with
        | Some val => Some (Ok val)
        | None =>
        let func_name :=
          match PyStr.rindex low "." with
          | Some i => PyStr.drop (i + 1) low
          | None => low
          end in
        let as_function :=
          match get h c func_name with
          | Ok func =>
              match eval_arg fuel' (deeper e) h c func true with
              | None => None
              | Some (Ok r) => Some (Some (if negb (py_eq r func) then r else arg))
              | Some (Raise _) => Some None
              end
          | Raise _ => Some None
          end in
        match as_function with
        | None => None
        | Some (Some r) => Some (Ok r)
        | Some None =>
        let tmp := PyStr.strip low in
        if PyStr.startswith tmp "activedocument.item(" then
          let prop := PyStr.strip (PyStr.replace (PyStr.replace
                        (PyStr.replace tmp "activedocument.item(" "") ")" "") "'" "") in
          match meta with
          | None => Some (Ok (VStr ""))
          | Some m =>
              match m !! PyStr.lower prop with
              | None => Some (Ok (VStr ""))
              | Some r => Some (Ok r)
              end
          end
        else
        let builtin :=
          if PyStr.startswith tmp "thisdocument.builtindocumentproperties(" then
            let var := PyStr.strip (PyStr.replace (PyStr.replace
                         (PyStr.replace tmp "thisdocument.builtindocumentproperties(" "")
                         ")" "") "'" "") in
            get_doc_var stack h c (VStr var)
          else Ok VNone in
        match builtin with
        | Raise x => Some (Raise x)
        | Ok val =>
        if negb (bool_decide (val = VNone)) then Some (Ok val) else
        let variables :=
          if PyStr.startswith tmp "activedocument.variables(" then
            get_doc_var stack h c (VStr (doc_var_arg tmp "activedocument.variables("))
          else Ok VNone in
        match variables with
        | Raise x => Some (Raise x)
        | Ok val =>
        if negb (bool_decide (val = VNone)) then Some (Ok val) else
        let custom :=
          if PyStr.startswith tmp "activedocument.customdocumentproperties(" then
            get_doc_var stack h c
              (VStr (doc_var_arg tmp "activedocument.customdocumentproperties("))
          else Ok VNone in
        match custom with
        | Raise x => Some (Raise x)
        | Ok val =>
        if negb (bool_decide (val = VNone)) then Some (Ok val) else
        match PyStr.index tmp "." with
        | None => Some (Raise ValueError)
        | Some i =>
            let wild_name := PyStr.take i tmp +:+ "*" in
            match wildcard h c wild_name [0; 1; 2; 3; 4; 5; 6; 7; 8; 9; 10] with
            | Some val => Some (Ok val)
            | None => Some (unresolved arg treat_as_var_name)
            end
        end
        end
        end
        end
        end
        end
        end
      else Some (unresolved arg treat_as_var_name)
      end
  | VObj o =>
      if obj_evaluable o then Some (object_eval o h c)
      else Some (unresolved arg treat_as_var_name)
  | _ => Some (unresolved arg treat_as_var_name)
  end
  | Ok obj_text_val => Some (Ok obj_text_val)
  end
  end
  end
  end.

(** [coerce_to_str] *)
Definition coerce_to_str (obj : value) : value :=
  if bool_decide (obj = VNone) || py_eq obj NULL then VStr "" else VStr (py_str obj).

(** [coerce_args_to_str] *)
Definition coerce_args_to_str (args : list value) : list value :=
  map coerce_to_str args.

(** [int(obj)] *)
Definition py_int (obj : value) : result Z :=
  match obj with
  | VNone => Raise TypeError
  | VBool b => Ok (Z.b2z b)
  | VInt z => Ok z
  | VStr s | VBytes s =>
      match PyStr.to_Z s with
      | Some z => Ok z
      | None => Raise ValueError
      end
  | VObj o =>
      match obj_int o with
      | Some z => Ok z
      | None => Raise TypeError
      end
  end.

(** [coerce_to_int] *)
Definition coerce_to_int (obj : value) : result value :=
  if bool_decide (obj = VNone) || py_eq obj NULL then Ok (VInt 0)
  else match py_int obj with
       | Ok z => Ok (VInt z)
       | Raise x => Raise x
       end.

(** [coerce_args_to_int]: the first element that fails ends the
    comprehension. *)
Fixpoint coerce_args_to_int (args : list value) : result (list value) :=
  match args with
  | [] => Ok []
  | arg :: rest =>
      match coerce_to_int arg with
      | Raise x => Raise x
      | Ok v =>
          match coerce_args_to_int rest with
          | Raise x => Raise x
          | Ok vs => Ok (v :: vs)
          end
      end
  end.

Inductive arg_type := type_str | type_int.

(** The first loop of [coerce_args]'s body: the type of the first typed
    element, whether an element of another type stopped the loop, and
    whether every element seen was [NULL]. *)
Fixpoint find_first_type (args : list value) (first_type : option arg_type)
    (all_null : bool) : option arg_type * bool * bool :=
  match args with
  | [] => (first_type, false, all_null)
  | arg :: rest =>
      if py_eq arg NULL then find_first_type rest first_type all_null
      else match arg with
           | VStr _ =>
               find_first_type rest (Some (default type_str first_type)) false
           | VInt _ | VBool _ =>
               find_first_type rest (Some (default type_int first_type)) false
           | _ => (first_type, true, false)
           end
  end.

(** [args == "NULL"] in the two last loops of [coerce_args] compares the
    list with a [str], which is never equal. *)
Definition list_eq_str (args : list value) (s : string) : bool := false.

(** [coerce_args] *)
Definition coerce_args (orig_args : list value) : result (list value) :=
  if (length orig_args =? 0)%nat then Ok orig_args else
  let args := map (λ arg, if bool_decide (arg = VNone) then NULL else arg) orig_args in
  let '(first_type, have_other_type, all_null) := find_first_type args None true in
  let first_type := if all_null then Some type_int else first_type in
  if have_other_type then Ok args else
  match first_type with
  | None => Ok args
  | Some type_str =>
      let new_args := map (λ arg, if list_eq_str args "NULL" then VStr "" else arg) args in
      Ok (coerce_args_to_str new_args)
  | Some type_int =>
      let new_args := map (λ arg, if list_eq_str args "NULL" then VInt 0 else arg) args in
      coerce_args_to_int new_args
  end.

(* ===================================================================== *)
(** * Further functions of the two modules *)
(* ===================================================================== *)

(** [Context.get_true_name] *)
Definition get_true_name (c : Context) (name : string) : option string :=
  dll_func_true_names c !! name.

(** [Context.contains_user_defined]: the name is looked up as it is given,
    without [lower()]. *)
Definition contains_user_defined (h : heap) (c : Context) (name : string) : bool :=
  bool_decide (is_Some (locals c !! name))
  || bool_decide (is_Some (globals_of h c !! name)).

(** What [_strip_null_bytes] and [report_action] are given: a value or a
    [list] of values. *)
Inductive item :=
| Item (v : value)
| ItemList (l : list value).

(** The character [\x00]. *)
Definition NUL : string := String "000" EmptyString.

(** [s.replace("\x00", "")] for a [str], any other value as it is. *)
Definition strip_null_bytes_value (v : value) : value :=
  match v with
  | VStr s => VStr (PyStr.replace s NUL "")
  | _ => v
  end.

(** [Context._strip_null_bytes] *)
Definition _strip_null_bytes (i : item) : item :=
  match i with
  | Item v => Item (strip_null_bytes_value v)
  | ItemList l => ItemList (map strip_null_bytes_value l)
  end.

(** [int_convert] *)
Definition int_convert (arg : value) : result Z :=
  if py_eq arg NULL then Ok 0
  else
    let arg_str := py_str arg in
    let arg_str :=
      if PyStr.contains arg_str "."
      then match PyStr.index arg_str "." with
           | Some i => PyStr.take i arg_str
           | None => arg_str
           end
      else arg_str in
    match PyStr.to_Z arg_str with
    | Some z => Ok z
    | None => Raise ValueError
    end.

(** [str_convert] *)
Definition str_convert (arg : value) : string :=
  if py_eq arg NULL then "" else py_str arg.

(* ===================================================================== *)
(** * Definitions used to state the properties *)
(* ===================================================================== *)

(** The lookups of one name in the three tiers, in the order of [_get]. *)
Definition tiers (h : heap) (c : Context) (name : string) : list (option value) :=
  let name := PyStr.lower name in
  [locals c !! name; globals_of h c !! name; VBA_LIBRARY !! name].

(** The three forms of a name, in the order of [get]. *)
Definition name_forms (c : Context) (name : string) : list string :=
  [with_prefix c +:+ name; name; name +:+ "$"].

(** The first hit among the nine lookups. *)
Fixpoint first_hit (lookups : list (option value)) : option value :=
  match lookups with
  | [] => None
  | Some v :: _ => Some v
  | None :: rest => first_hit rest
  end.

Definition get_spec (h : heap) (c : Context) (name : string) : option value :=
  first_hit (concat (map (tiers h c) (name_forms c name))).

(** What a name holds for the program: [locals], then [globals]. *)
Definition user_lookup (h : heap) (c : Context) (name : string) : option value :=
  match locals c !! name with
  | Some v => Some v
  | None => globals_of h c !! name
  end.

(** The context after [set] recorded the type of the variable. *)
Definition typed (c : Context) (n : string) (t : option value) : Context :=
  match t with
  | Some ty => with_types c (<[n := ty]> (types c))
  | None => c
  end.

(** [tail_endswith b a]: the text [b] without its first character ends
    with [a]. *)
Definition tail_endswith (b a : string) : bool :=
  match b with
  | EmptyString => false
  | String _ b' => PyStr.endswith b' a
  end.

(** The keys that a call of [set_] may write: the recursion of [set_]
    without its tests on the stored values. *)
Fixpoint keys_ (fuel : nat) (prefix name : string) (do_with_prefix : bool) : list string :=
  match fuel with
  | O => []
  | S fuel' =>
      let name := PyStr.lower name in
      name ::
      (if do_with_prefix && (0 <? String.length prefix)%nat
       then keys_ fuel' prefix (prefix +:+ name) false else [])
      ++ (if PyStr.endswith name ".text"
          then keys_ fuel' prefix (PyStr.replace name ".text" ".nodetypedvalue") true
          else [])
  end.

(** [Context.set] up to its last statement: the store, the type and the
    copy under the [With] prefix, without the base64 conversion. *)
Definition set_plain (h : heap) (c : Context) (name : string) (v : value)
    (var_type : option value) (do_with_prefix : bool) : option (heap * Context) :=
  let name := PyStr.lower name in
  let '(h1, c1) := store_var h c name v in
  let c2 := typed c1 name var_type in
  if do_with_prefix && (0 <? String.length (with_prefix c2))%nat
  then set_ 3 h1 c2 (with_prefix c2 +:+ name) v var_type false
  else Some (h1, c2).

(** The depth to which a call of [set_] can nest. *)
Definition set_rank (name : string) (do_with_prefix : bool) : nat :=
  if do_with_prefix
  then (if PyStr.endswith (PyStr.lower name) ".nodetypedvalue" then 1 else 3)%nat
  else (if PyStr.endswith (PyStr.lower name) ".text" then 2 else 0)%nat.

(** The number of a spreadsheet column, from the digits 0 to 25 of its
    letters: a letter counts for its digit plus one in a positional numeral
    in base 26, the last letter weighing 1 (['A'] is column 1, ['Z'] column
    26, ['AA'] column 27). *)
Fixpoint column_number (letters : list Z) : Z :=
  match letters with
  | [] => 0
  | d :: rest => (d + 1) * 26 ^ Z.of_nat (length rest) + column_number rest
  end.

(** The digit of a capital letter in base 26, ['A'] being 0 and ['Z'] 25;
    another character is no digit. *)
Definition capital_digit (a : ascii) : option Z :=
  if PyStr.is_upper a then Some (PyStr.ord a - PyStr.ord "A") else None.

(** The digits of a column written in capital letters; [None] when a
    character is no capital letter. *)
Fixpoint column_digits (x : string) : option (list Z) :=
  match x with
  | EmptyString => Some []
  | String a x' =>
      match capital_digit a, column_digits x' with
      | Some d, Some ds => Some (d :: ds)
      | _, _ => None
      end
  end.

(** [arg is None] mapped to ["NULL"], the first loop of [coerce_args]. *)
Definition none_to_null (arg : value) : value :=
  if bool_decide (arg = VNone) then NULL else arg.

(** The type that [coerce_args] reads off an element. *)
Definition type_of (arg : value) : arg_type :=
  match arg with
  | VStr _ => type_str
  | _ => type_int
  end.

(** The elements that [coerce_args] skips: [arg == "NULL"]. *)
Definition is_null (arg : value) : bool := py_eq arg NULL.

(** An element of a third type: not ["NULL"], not a [str], not an [int]. *)
Definition is_other (arg : value) : bool :=
  negb (is_null arg)
  && match arg with
     | VStr _ | VInt _ | VBool _ => false
     | _ => true
     end.

(** The two kinds of element that [coerce_args] produces. *)
Definition is_text (arg : value) : bool :=
  match arg with
  | VStr _ => true
  | _ => false
  end.

Definition is_integer (arg : value) : bool :=
  match arg with
  | VInt _ => true
  | _ => false
  end.

(** A text that is not ["NULL"]. *)
Definition is_plain_text (arg : value) : bool :=
  match arg with
  | VStr s => negb (String.eqb s "NULL")
  | _ => false
  end.

(** The values of an item. *)
Definition item_values (i : item) : list value :=
  match i with
  | Item v => [v]
  | ItemList l => l
  end.

(** The characters of a text that satisfy a test, in their order. *)
Fixpoint filter_str (p : ascii → bool) (s : string) : string :=
  match s with
  | EmptyString => EmptyString
  | String a s' => if p a then String a (filter_str p s') else filter_str p s'
  end.

(** Every character of a text satisfies a test. *)
Fixpoint all_chars (p : ascii → bool) (s : string) : bool :=
  match s with
  | EmptyString => true
  | String a s' => p a && all_chars p s'
  end.

End Context.

(* ===================================================================== *)
(** * Concrete instances for the examples *)
(* ===================================================================== *)

Module B64.

Definition digit (c : ascii) : option Z :=
  if PyStr.is_upper c then Some (PyStr.ord c - 65)
  else if PyStr.is_lower c then Some (PyStr.ord c - 71)
  else if PyStr.is_digit c then Some (PyStr.ord c + 4)
  else if Ascii.eqb c "+" then Some 62
  else if Ascii.eqb c "/" then Some 63
  else None.

Fixpoint next_is_pad (s : string) : bool :=
  match s with
  | EmptyString => false
  | String c s' =>
      if Ascii.eqb c "=" then true
      else match digit c with
           | Some _ => false
           | None => next_is_pad s'
           end
  end.

(** [binascii.a2b_base64] in its default mode: characters outside the
    alphabet are skipped, a pad that completes a quad ends the input, a
    quad left open is an error. *)
Fixpoint decode_go (s : string) (quad_pos : nat) (leftchar : Z) : option string :=
  match s with
  | EmptyString => if (quad_pos =? 0)%nat then Some EmptyString else None
  | String c s' =>
      if Ascii.eqb c "=" then
        if (quad_pos <? 2)%nat || ((quad_pos =? 2)%nat && negb (next_is_pad s'))
        then decode_go s' quad_pos leftchar
        else Some EmptyString
      else
        match digit c with
        | None => decode_go s' quad_pos leftchar
        | Some d =>
            match quad_pos with
            | 0%nat => decode_go s' 1%nat d
            | 1%nat => String (PyStr.chr (leftchar * 4 + d / 16)) <$> decode_go s' 2%nat (d mod 16)
            | 2%nat => String (PyStr.chr (leftchar * 16 + d / 4)) <$> decode_go s' 3%nat (d mod 4)
            | _ => String (PyStr.chr (leftchar * 64 + d)) <$> decode_go s' 0%nat 0
            end
        end
  end.

(** [base64.b64decode] on a [str]. *)
Definition b64decode (s : string) : option string := decode_go s 0 0.

End B64.

Module Examples.

(** A [datetime] for [datetime.now()]. *)
Definition now : value :=
  VObj {| obj_id := 0; obj_class := "datetime"; obj_str := "2019-01-01 00:00:00";
          obj_int := None; obj_statements := false;
          obj_evaluable := false; obj_member_access := false |}.

(** [Context()] on an empty heap. *)
Definition fresh : heap * Context :=
  Context_init ∅ None None None None None None now.

(** A [Sub]: an AST node with statements. *)
Definition a_sub : value :=
  VObj {| obj_id := 1; obj_class := "Sub"; obj_str := "Sub foo()";
          obj_int := None; obj_statements := true;
          obj_evaluable := true; obj_member_access := false |}.

(** The limits of a call 50 frames deep under a recursion limit of 100,
    without a deadline. *)
Definition calm : limits :=
  {| level := 50; recursionlimit := 100; clock := 0; max_emulation_time := None |}.

(** A heap in which the global [foo] of the fresh context is a [Sub]. *)
Definition heap_with_sub : heap :=
  <[globals fresh.2 := <["foo" := a_sub]> (globals_of fresh.1 fresh.2)]> fresh.1.

(** The fresh context inside [With foo]. *)
Definition in_with_foo : Context := with_with_prefix fresh.2 "foo.".

(** The fresh context with an engine, after [open_file("#1")] and the
    writing of the two bytes of ["hi"]. *)
Definition writing : Context :=
  with_files fresh.2
    {[ "#1" := {| file_name := "#1"; file_contents := [104; 105] |} ]}
    ∅ (Some []).

(** A workbook with one sheet, ["Sheet1"], whose cells hold the text of
    their own zero-based coordinates when these are not negative. *)
Definition one_sheet : workbook :=
  λ name,
    if String.eqb name "Sheet1"
    then Some (λ row col,
                 if (0 <=? row) && (0 <=? col)
                 then Some (VStr (PyStr.of_Z row +:+ "," +:+ PyStr.of_Z col))
                 else None)
    else None.

(** [Context(loaded_excel=one_sheet)] on an empty heap. *)
Definition with_sheet : Context :=
  (Context_init ∅ None None None None None (Some one_sheet) now).2.

(** The limits of a call 76 frames deep under a recursion limit of 100. *)
Definition deep : limits :=
  {| level := 76; recursionlimit := 100; clock := 0; max_emulation_time := None |}.

(** The state after [set("x.datatype", data_type)] in the fresh context,
    the VBA library being empty. *)
Definition after_datatype (data_type : string) : heap * Context :=
  default fresh
    (set ∅ B64.b64decode fresh.1 fresh.2 "x.datatype" (VStr data_type) None true).

(** The state after [set("x.text", "aGVsbG8=")] in that state;
    ["aGVsbG8="] is the base64 encoding of ["hello"]. *)
Definition after_text (data_type : string) : heap * Context :=
  default fresh
    (set ∅ B64.b64decode (after_datatype data_type).1 (after_datatype data_type).2
       "x.text" (VStr "aGVsbG8=") None true).

(** The fresh context without an engine, with a file open under ["#1"]
    that holds the two bytes of ["hi"]. *)
Definition unreported : Context :=
  with_files fresh.2
    {[ "#1" := {| file_name := "#1"; file_contents := [104; 105] |} ]}
    ∅ None.

(** The fresh context in which the variable [x] holds its own name. *)
Definition self_named : Context := with_locals fresh.2 {[ "x" := VStr "X" ]}.

(** The fresh context in which [x.text] holds the base64 text of ["hi"]. *)
Definition with_text : Context :=
  with_locals fresh.2 {[ "x.text" := VStr "aGk=" ]}.

End Examples.

(* ===================================================================== *)
(** * Facts about the string primitives *)
(* ===================================================================== *)

Module PyStrFacts.
Import PyStr.

Lemma app_cons (x : ascii) (a b : string) :
  String x a +:+ b = String x (a +:+ b).
Proof. reflexivity. Qed.

Lemma app_nil_l (b : string) : "" +:+ b = b.
Proof. reflexivity. Qed.

Lemma app_nil_r (a : string) : a +:+ "" = a.
Proof. induction a as [|x a IH]; [reflexivity|]. now rewrite app_cons, IH. Qed.

Lemma length_app (a b : string) :
  String.length (a +:+ b) = (String.length a + String.length b)%nat.
Proof.
  induction a as [|x a IH]; [reflexivity|].
  rewrite app_cons. cbn [String.length]. now rewrite IH.
Qed.

Lemma app_assoc (a b c : string) : (a +:+ b) +:+ c = a +:+ (b +:+ c).
Proof.
  induction a as [|x a IH]; [reflexivity|]. now rewrite !app_cons, IH.
Qed.

Lemma lower_length (s : string) : String.length (lower s) = String.length s.
Proof. induction s as [|x s IH]; simpl; [reflexivity | now rewrite IH]. Qed.

Lemma lower_app (a b : string) : lower (a +:+ b) = lower a +:+ lower b.
Proof.
  induction a as [|x a IH]; [reflexivity|].
  rewrite app_cons. cbn [lower]. now rewrite app_cons, IH.
Qed.

Lemma lower_char_idem (x : ascii) : lower_char (lower_char x) = lower_char x.
Proof.
  destruct x as [[] [] [] [] [] [] [] []]; reflexivity.
Qed.

Lemma lower_idem (s : string) : lower (lower s) = lower s.
Proof.
  induction s as [|x s IH]; simpl; [reflexivity|].
  now rewrite lower_char_idem, IH.
Qed.

Lemma startswith_refl (s : string) : startswith s s = true.
Proof.
  induction s as [|x s IH]; simpl; [reflexivity|].
  now rewrite Ascii.eqb_refl.
Qed.

Lemma endswith_nil (suf : string) : endswith "" suf = true → suf = "".
Proof.
  destruct suf; [reflexivity | discriminate].
Qed.

Lemma endswith_eq (x : ascii) (s suf : string) :
  endswith (String x s) suf
  = if String.eqb (String x s) suf then true else endswith s suf.
Proof. reflexivity. Qed.

Lemma endswith_cons (x : ascii) (s suf : string) :
  endswith s suf = true → endswith (String x s) suf = true.
Proof.
  intros H. rewrite endswith_eq.
  destruct (String.eqb (String x s) suf); [reflexivity | exact H].
Qed.

Lemma endswith_app (p s suf : string) :
  endswith s suf = true → endswith (p +:+ s) suf = true.
Proof.
  intros H. induction p as [|x p IH]; [exact H|].
  rewrite app_cons. now apply endswith_cons.
Qed.

Lemma endswith_refl (s : string) : endswith s s = true.
Proof.
  destruct s; [reflexivity|]. now rewrite endswith_eq, String.eqb_refl.
Qed.

Lemma endswith_unfold (s suf : string) :
  endswith s suf = true →
  s = suf ∨ ∃ x s', s = String x s' ∧ endswith s' suf = true.
Proof.
  destruct s as [|x s].
  - intros H. left. symmetry. now apply endswith_nil.
  - rewrite endswith_eq.
    destruct (String.eqb_spec (String x s) suf); [now left|].
    intros H. right. now exists x, s.
Qed.

Lemma endswith_lower (s suf : string) :
  endswith s suf = true → endswith (lower s) (lower suf) = true.
Proof.
  induction s as [|x s IH]; intros H.
  - apply endswith_nil in H. now subst.
  - apply endswith_unfold in H as [<-|(y & s' & [= <- <-] & H)].
    + apply endswith_refl.
    + simpl lower. apply endswith_cons. now apply IH.
Qed.

Lemma endswith_length (s suf : string) :
  endswith s suf = true → (String.length suf ≤ String.length s)%nat.
Proof.
  induction s as [|x s IH]; intros H.
  - apply endswith_nil in H. now subst.
  - apply endswith_unfold in H as [<-|(y & s' & [= <- <-] & H)]; [lia|].
    simpl. specialize (IH H). lia.
Qed.

(** The two suffixes that [Context.set] looks at exclude each other. *)
Lemma endswith_value_not_text (s : string) :
  endswith s ".nodetypedvalue" = true → endswith s ".text" = false.
Proof.
  induction s as [|x s IH]; intros H.
  - apply endswith_nil in H. discriminate.
  - apply endswith_unfold in H as [->|(y & s' & [= <- <-] & H)];
      [reflexivity|].
    rewrite endswith_eq, (IH H).
    destruct (String.eqb_spec (String x s) ".text") as [E|]; [|reflexivity].
    injection E as _ ->. discriminate.
Qed.

Lemma endswith_text_not_value (s : string) :
  endswith s ".text" = true → endswith s ".nodetypedvalue" = false.
Proof.
  intros H. destruct (endswith s ".nodetypedvalue") eqn:E; [|reflexivity].
  apply endswith_value_not_text in E. congruence.
Qed.

Lemma startswith_eq (a b : ascii) (s p : string) :
  startswith (String b s) (String a p)
  = if Ascii.eqb a b then startswith s p else false.
Proof. reflexivity. Qed.

Lemma startswith_app (s p : string) :
  startswith s p = true → ∃ rest, s = p +:+ rest.
Proof.
  revert s; induction p as [|a p IH]; intros s H.
  - now exists s.
  - destruct s as [|b s]; [discriminate|].
    rewrite startswith_eq in H.
    destruct (Ascii.eqb_spec a b) as [->|]; [|discriminate].
    destruct (IH _ H) as [rest ->]. now exists rest.
Qed.

Lemma startswith_length (s p : string) :
  startswith s p = true → (String.length p ≤ String.length s)%nat.
Proof.
  intros H. destruct (startswith_app _ _ H) as [rest ->].
  rewrite length_app. lia.
Qed.

Lemma length_drop (n : nat) (s : string) :
  String.length (drop n s) = (String.length s - n)%nat.
Proof.
  revert s; induction n as [|n IH]; intros [|x s]; simpl; auto with lia.
Qed.

Lemma replace_go_nil (fuel : nat) (old new : string) :
  replace_go fuel old new "" = "".
Proof. destruct fuel; reflexivity. Qed.

(** A replacement by a text that is not shorter does not shorten. *)
Lemma replace_go_length (fuel : nat) (old new s : string) :
  (String.length old ≤ String.length new)%nat →
  (String.length s ≤ String.length (replace_go fuel old new s))%nat.
Proof.
  intros Hle. revert s; induction fuel as [|fuel IH]; intros s; simpl; [lia|].
  destruct s as [|x s]; [simpl; lia|].
  destruct (startswith (String x s) old) eqn:E.
  - rewrite length_app. specialize (IH (drop (String.length old) (String x s))).
    rewrite length_drop in IH. apply startswith_length in E. lia.
  - simpl. specialize (IH s). lia.
Qed.

Lemma replace_length (s old new : string) :
  old ≠ "" → (String.length old ≤ String.length new)%nat →
  (String.length s ≤ String.length (replace s old new))%nat.
Proof.
  intros Hne Hle. unfold replace. destruct old; [congruence|].
  now apply replace_go_length.
Qed.

(** After [".text"] at the head of a text that ends with [".text"], the
    rest is empty or ends with [".text"] again: the suffix cannot overlap
    the head. *)
Lemma text_after_text (rest : string) :
  endswith (".text" +:+ rest) ".text" = true →
  rest = "" ∨ endswith rest ".text" = true.
Proof.
  rewrite !app_cons, app_nil_l. intros H.
  apply endswith_unfold in H as [E|(x & s' & [= <- <-] & H)].
  { left. injection E as E. exact E. }
  apply endswith_unfold in H as [E|(x & s' & [= <- <-] & H)]; [discriminate|].
  apply endswith_unfold in H as [E|(x & s' & [= <- <-] & H)]; [discriminate|].
  apply endswith_unfold in H as [E|(x & s' & [= <- <-] & H)]; [discriminate|].
  apply endswith_unfold in H as [E|(x & s' & [= <- <-] & H)]; [discriminate|].
  now right.
Qed.

Lemma startswith_text (s : string) :
  startswith s ".text" = true → ∃ rest, s = ".text" +:+ rest.
Proof. apply startswith_app. Qed.

(** Replacing [".text"] in a text that ends with it yields a text that ends
    with the replacement. *)
Lemma replace_go_text_endswith (fuel : nat) (new s : string) :
  (String.length s ≤ fuel)%nat →
  endswith s ".text" = true →
  endswith (replace_go fuel ".text" new s) new = true.
Proof.
  revert s; induction fuel as [|fuel IH]; intros s Hlen Hs.
  { destruct s; [discriminate | simpl in Hlen; lia]. }
  destruct s as [|x s]; [discriminate|].
  cbn [replace_go].
  destruct (startswith (String x s) ".text") eqn:E.
  - destruct (startswith_text _ E) as [rest Hrest].
    rewrite Hrest in Hs |- *.
    replace (drop (String.length ".text") (".text" +:+ rest)) with rest
      by reflexivity.
    destruct (text_after_text _ Hs) as [->|Hr].
    + rewrite replace_go_nil.
      rewrite app_nil_r. apply endswith_refl.
    + apply endswith_app, IH; [|exact Hr].
      rewrite Hrest in Hlen. rewrite length_app in Hlen. simpl in Hlen. lia.
  - apply endswith_cons, IH; [simpl in Hlen; lia|].
    apply endswith_unfold in Hs as [Hs|(y & s' & [= <- <-] & Hs)]; [|exact Hs].
    rewrite Hs in E. discriminate.
Qed.

Lemma replace_text_endswith (new s : string) :
  endswith s ".text" = true → endswith (replace s ".text" new) new = true.
Proof. intros H. unfold replace. now apply replace_go_text_endswith. Qed.

End PyStrFacts.

(* ===================================================================== *)
(** * Facts about the execution context *)
(* ===================================================================== *)

Import PyStrFacts.

Section ContextFacts.
Context (LIB : gmap string value) (b64decode : string → option string).

Lemma _get_lower h c n : _get LIB h c (PyStr.lower n) = _get LIB h c n.
Proof. unfold _get. now rewrite lower_idem. Qed.

Lemma _get_user h c n v :
  user_lookup h c (PyStr.lower n) = Some v → _get LIB h c n = Ok v.
Proof.
  unfold user_lookup, _get. destruct (locals c !! PyStr.lower n); [congruence|].
  now intros ->.
Qed.

Lemma _get_raises h c n e : _get LIB h c n = Raise e → e = KeyError.
Proof.
  unfold _get. repeat case_match; congruence.
Qed.

Lemma get_raises h c n e : get LIB h c n = Raise e → e = KeyError.
Proof.
  unfold get.
  destruct (_get LIB h c (with_prefix c +:+ n)) as [|e1] eqn:E1; [discriminate|].
  apply _get_raises in E1 as ->.
  destruct (_get LIB h c n) as [|e2] eqn:E2; [discriminate|].
  apply _get_raises in E2 as ->. apply _get_raises.
Qed.

Lemma store_var_fields h c n v h1 c1 :
  store_var h c n v = (h1, c1) →
  globals c1 = globals c ∧ with_prefix c1 = with_prefix c ∧ types c1 = types c
  ∧ doc_vars c1 = doc_vars c ∧ open_files c1 = open_files c
  ∧ closed_files c1 = closed_files c ∧ engine c1 = engine c.
Proof.
  unfold store_var. repeat case_match; intros [= <- <-]; done.
Qed.

Lemma store_var_lookup h c n v h1 c1 :
  store_var h c n v = (h1, c1) → user_lookup h1 c1 n = Some v.
Proof.
  unfold store_var, user_lookup, globals_of.
  repeat case_match; intros [= <- <-]; simplify_map_eq;
    rewrite ?lookup_total_insert_eq; simplify_map_eq; done.
Qed.

Lemma store_var_frame h c n v h1 c1 k :
  store_var h c n v = (h1, c1) → k ≠ n →
  locals c1 !! k = locals c !! k ∧ globals_of h1 c1 !! k = globals_of h c !! k.
Proof.
  unfold store_var, globals_of.
  repeat case_match; intros [= <- <-] ?; simplify_map_eq;
    rewrite ?lookup_total_insert_eq; simplify_map_eq; done.
Qed.

Lemma store_var_heap h c n v h1 c1 l :
  store_var h c n v = (h1, c1) → l ≠ globals c → h1 !! l = h !! l.
Proof.
  unfold store_var.
  repeat case_match; intros [= <- <-] ?; simplify_map_eq; done.
Qed.

Lemma typed_fields c n t :
  globals (typed c n t) = globals c ∧ with_prefix (typed c n t) = with_prefix c
  ∧ locals (typed c n t) = locals c.
Proof. destruct t; done. Qed.

(** The shape of a call of [set_]. *)
Lemma set_inv fuel h c name v t d h' c' :
  set_ LIB b64decode (S fuel) h c name v t d = Some (h', c') →
  ∃ h1 c1 h3 c3,
    store_var h c (PyStr.lower name) v = (h1, c1)
    ∧ (if d && (0 <? String.length (with_prefix c1))%nat
       then set_ LIB b64decode fuel h1 (typed c1 (PyStr.lower name) t)
              (with_prefix c1 +:+ PyStr.lower name) v t false
       else Some (h1, typed c1 (PyStr.lower name) t)) = Some (h3, c3)
    ∧ ((h', c') = (h3, c3)
       ∨ (PyStr.endswith (PyStr.lower name) ".text" = true
          ∧ ∃ conv, set_ LIB b64decode fuel h3 c3
                      (PyStr.replace (PyStr.lower name) ".text" ".nodetypedvalue")
                      (VBytes conv) None true = Some (h', c'))).
Proof.
  cbn [set_]. destruct (store_var h c (PyStr.lower name) v) as [h1 c1] eqn:Hs.
  fold (typed c1 (PyStr.lower name) t).
  destruct (typed_fields c1 (PyStr.lower name) t) as (_ & -> & _).
  intros H. exists h1, c1.
  match type of H with
  | match ?p with _ => _ end = _ => destruct p as [[h3 c3]|] eqn:Hp; [|discriminate]
  end.
  exists h3, c3. split; [reflexivity|]. split; [reflexivity|].
  clear Hp. revert H.
  repeat case_match; intros Hfin;
    first [left; congruence | right; split; [reflexivity | eauto]].
Qed.

Lemma set_fields fuel h c name v t d h' c' :
  set_ LIB b64decode fuel h c name v t d = Some (h', c') →
  globals c' = globals c ∧ with_prefix c' = with_prefix c.
Proof.
  revert h c name v t d h' c'.
  induction fuel as [|fuel IH]; intros h c name v t d h' c' H; [discriminate|].
  apply set_inv in H as (h1 & c1 & h3 & c3 & Hs & Hp & He).
  apply store_var_fields in Hs as (Hg & Hw & _).
  assert (globals c3 = globals c ∧ with_prefix c3 = with_prefix c) as [Hg3 Hw3].
  { destruct (typed_fields c1 (PyStr.lower name) t) as (Hg2 & Hw2 & _).
    destruct (d && _).
    - apply IH in Hp as [-> ->]. split; congruence.
    - injection Hp as <- <-. split; congruence. }
  destruct He as [[= -> ->]|(_ & conv & He)]; [done|].
  apply IH in He as [-> ->]. done.
Qed.

(** What [set_] leaves alone: every key outside [keys_], and every
    dictionary of the heap but the context's [globals]. *)
Lemma set_frame fuel h c name v t d h' c' k :
  set_ LIB b64decode fuel h c name v t d = Some (h', c') →
  k ∉ keys_ fuel (with_prefix c) name d →
  locals c' !! k = locals c !! k ∧ globals_of h' c' !! k = globals_of h c !! k.
Proof.
  revert h c name v t d h' c'.
  induction fuel as [|fuel IH]; intros h c name v t d h' c' H Hk; [discriminate|].
  apply set_inv in H as (h1 & c1 & h3 & c3 & Hs & Hp & He).
  cbn [keys_] in Hk.
  apply not_elem_of_cons in Hk as [Hk1 Hk]. apply not_elem_of_app in Hk as [Hk2 Hk3].
  destruct (store_var_frame _ _ _ _ _ _ k Hs Hk1) as [Hl1 Hg1].
  apply store_var_fields in Hs as (Hg & Hw & _).
  destruct (typed_fields c1 (PyStr.lower name) t) as (Hg2 & Hw2 & Hl2).
  assert (locals c3 !! k = locals c !! k
          ∧ globals_of h3 c3 !! k = globals_of h c !! k
          ∧ with_prefix c3 = with_prefix c) as (Hl3 & Hg3 & Hw3).
  { rewrite Hw in Hp. destruct (d && _).
    - pose proof (set_fields _ _ _ _ _ _ _ _ _ Hp) as [_ Hw3].
      apply IH in Hp as [-> ->]; [|now rewrite Hw2, Hw].
      unfold globals_of in *. rewrite Hl2, Hg2. split_and!; congruence.
    - injection Hp as <- <-. unfold globals_of in *. rewrite Hl2, Hg2.
      split_and!; congruence. }
  destruct He as [[= -> ->]|(Ht & conv & He)]; [done|].
  rewrite Ht in Hk3.
  apply IH in He as [-> ->]; [done|]. now rewrite Hw3.
Qed.

Lemma set_heap fuel h c name v t d h' c' l :
  set_ LIB b64decode fuel h c name v t d = Some (h', c') →
  l ≠ globals c → h' !! l = h !! l.
Proof.
  revert h c name v t d h' c'.
  induction fuel as [|fuel IH]; intros h c name v t d h' c' H Hl; [discriminate|].
  apply set_inv in H as (h1 & c1 & h3 & c3 & Hs & Hp & He).
  pose proof (store_var_heap _ _ _ _ _ _ l Hs Hl) as H1.
  apply store_var_fields in Hs as (Hg & Hw & _).
  destruct (typed_fields c1 (PyStr.lower name) t) as (Hg2 & Hw2 & Hl2).
  assert (h3 !! l = h !! l ∧ globals c3 = globals c) as [H3 Hg3].
  { destruct (d && _).
    - pose proof (set_fields _ _ _ _ _ _ _ _ _ Hp) as [Hg3 _].
      apply IH in Hp; [|congruence]. split; congruence.
    - injection Hp as <- <-. split; congruence. }
  destruct He as [[= -> ->]|(Ht & conv & He)]; [done|].
  apply IH in He; congruence.
Qed.

Lemma user_lookup_frame h c h' c' k :
  locals c' !! k = locals c !! k →
  globals_of h' c' !! k = globals_of h c !! k →
  user_lookup h' c' k = user_lookup h c k.
Proof. unfold user_lookup. now intros -> ->. Qed.

Lemma lower_value_suffix s :
  PyStr.endswith s ".nodetypedvalue" = true →
  PyStr.endswith (PyStr.lower s) ".nodetypedvalue" = true.
Proof. intros H. now apply endswith_lower in H. Qed.

Lemma lower_text_suffix s :
  PyStr.endswith s ".text" = true →
  PyStr.endswith (PyStr.lower s) ".text" = true.
Proof. intros H. now apply endswith_lower in H. Qed.

Lemma lower_prefixed p n :
  PyStr.lower (p +:+ PyStr.lower n) = PyStr.lower p +:+ PyStr.lower n.
Proof. now rewrite lower_app, lower_idem. Qed.

(** What the keys written by [set_] look like: none is shorter than the
    name, and the suffix of the name decides theirs. *)
Lemma keys_touch fuel p name d k :
  k ∈ keys_ fuel p name d →
  (String.length name ≤ String.length k)%nat
  ∧ (PyStr.endswith (PyStr.lower name) ".nodetypedvalue" = true →
     PyStr.endswith k ".nodetypedvalue" = true)
  ∧ (PyStr.endswith (PyStr.lower name) ".text" = true →
     PyStr.endswith k ".text" = true ∨ PyStr.endswith k ".nodetypedvalue" = true).
Proof.
  revert name d.
  induction fuel as [|fuel IH]; intros name d Hk; [now apply elem_of_nil in Hk|].
  cbn [keys_] in Hk.
  apply elem_of_cons in Hk as [->|Hk].
  { rewrite lower_length. auto. }
  apply elem_of_app in Hk as [Hk|Hk].
  - destruct (d && _); [|now apply elem_of_nil in Hk].
    apply IH in Hk as (Hlen & Hv & Ht).
    rewrite length_app, lower_length in Hlen.
    rewrite lower_prefixed in Hv, Ht.
    split; [lia|]. split; intros E.
    + apply Hv. now apply endswith_app.
    + apply Ht. now apply endswith_app.
  - destruct (PyStr.endswith (PyStr.lower name) ".text") eqn:E;
      [|now apply elem_of_nil in Hk].
    apply IH in Hk as (Hlen & Hv & _).
    pose proof (replace_length (PyStr.lower name) ".text" ".nodetypedvalue"
                  ltac:(discriminate) ltac:(cbn; lia)) as Hr.
    rewrite lower_length in Hr.
    assert (PyStr.endswith k ".nodetypedvalue" = true) as Hkv.
    { apply Hv, lower_value_suffix, replace_text_endswith, E. }
    split; [lia | now auto].
Qed.

(** The nested calls of [set_] leave the entry of the name itself as the
    first statement stored it. *)
Lemma set_after_store fuel h c name v t d h' c' h1 c1 :
  set_ LIB b64decode (S fuel) h c name v t d = Some (h', c') →
  store_var h c (PyStr.lower name) v = (h1, c1) →
  locals c' !! PyStr.lower name = locals c1 !! PyStr.lower name
  ∧ globals_of h' c' !! PyStr.lower name = globals_of h1 c1 !! PyStr.lower name.
Proof.
  intros H Hs1.
  apply set_inv in H as (h1' & c1' & h3 & c3 & Hs & Hp & He).
  rewrite Hs1 in Hs. injection Hs as <- <-.
  set (n := PyStr.lower name) in *.
  destruct (typed_fields c1 n t) as (Hg2 & Hw2 & Hl2).
  assert (locals c3 !! n = locals c1 !! n
          ∧ globals_of h3 c3 !! n = globals_of h1 c1 !! n) as [Hl3 Hg3].
  { destruct (d && _) eqn:Hd.
    - apply andb_prop in Hd as [_ Hd]. apply Nat.ltb_lt in Hd.
      apply set_frame with (k := n) in Hp as [-> ->].
      + unfold globals_of. now rewrite Hl2, Hg2.
      + intros Hk. apply keys_touch in Hk as (Hlen & _).
        rewrite length_app in Hlen. lia.
    - injection Hp as <- <-. unfold globals_of. now rewrite Hl2, Hg2. }
  destruct He as [[= -> ->]|(Ht & conv & He)]; [done|].
  apply set_frame with (k := n) in He as [-> ->]; [done|].
  intros Hk. apply keys_touch in Hk as (_ & Hv & _).
  pose proof (endswith_text_not_value _ Ht) as Hnv.
  rewrite Hv in Hnv; [discriminate|].
  apply lower_value_suffix, replace_text_endswith, Ht.
Qed.

(** After [set_], the name holds the value. *)
Lemma set_lookup fuel h c name v t d h' c' :
  set_ LIB b64decode fuel h c name v t d = Some (h', c') →
  user_lookup h' c' (PyStr.lower name) = Some v.
Proof.
  destruct fuel as [|fuel]; [discriminate|]. intros H.
  destruct (store_var h c (PyStr.lower name) v) as [h1 c1] eqn:Hs.
  destruct (set_after_store _ _ _ _ _ _ _ _ _ _ _ H Hs) as [Hl Hg].
  rewrite (user_lookup_frame _ _ _ _ _ Hl Hg).
  exact (store_var_lookup _ _ _ _ _ _ Hs).
Qed.

(** After [set_] with the prefix flag, the prefixed name holds the value
    too. *)
Lemma set_prefix_lookup fuel h c name v t h' c' :
  set_ LIB b64decode fuel h c name v t true = Some (h', c') →
  (0 < String.length (with_prefix c))%nat →
  user_lookup h' c' (PyStr.lower (with_prefix c +:+ name)) = Some v.
Proof.
  destruct fuel as [|fuel]; [discriminate|]. intros H Hp0.
  apply set_inv in H as (h1 & c1 & h3 & c3 & Hs & Hp & He).
  apply store_var_fields in Hs as (_ & Hw & _).
  rewrite Hw in Hp.
  apply Nat.ltb_lt in Hp0 as Hp1. rewrite Hp1 in Hp. cbn [andb] in Hp.
  pose proof (set_fields _ _ _ _ _ _ _ _ _ Hp) as [_ Hw3].
  destruct (typed_fields c1 (PyStr.lower name) t) as (_ & Hw2 & _).
  pose proof (set_lookup _ _ _ _ _ _ _ _ _ Hp) as Hl.
  rewrite lower_prefixed in Hl. rewrite lower_app.
  destruct He as [[= -> ->]|(Ht & conv & He)]; [exact Hl|].
  rewrite <- Hl. apply set_frame with (k := PyStr.lower (with_prefix c) +:+ PyStr.lower name) in He as [Hl' Hg'].
  { now apply user_lookup_frame. }
  intros Hk. apply keys_touch in Hk as (_ & Hv & _).
  assert (PyStr.endswith (PyStr.lower (with_prefix c) +:+ PyStr.lower name) ".text" = true)
    as Hkt by now apply endswith_app.
  apply endswith_text_not_value in Hkt.
  rewrite Hv in Hkt; [discriminate|].
  apply lower_value_suffix, replace_text_endswith, Ht.
Qed.

(** [set] then [get]: the name resolves to the value. *)
Lemma set_get fuel h c name v t h' c' :
  set_ LIB b64decode fuel h c name v t true = Some (h', c') →
  get LIB h' c' name = Ok v.
Proof.
  intros H. pose proof (set_fields _ _ _ _ _ _ _ _ _ H) as [_ Hw].
  unfold get. rewrite Hw.
  destruct (with_prefix c) as [|x p] eqn:Ep.
  - rewrite app_nil_l.
    now rewrite (_get_user _ _ _ _ (set_lookup _ _ _ _ _ _ _ _ _ H)).
  - rewrite <- Ep.
    erewrite _get_user; [reflexivity|].
    apply (set_prefix_lookup _ _ _ _ _ _ _ _ H). rewrite Ep. cbn. lia.
Qed.

(** Enough fuel: [set_] returns. *)
Lemma set_total fuel h c name v t d :
  (set_rank name d < fuel)%nat →
  is_Some (set_ LIB b64decode fuel h c name v t d).
Proof.
  revert h c name v t d.
  induction fuel as [|fuel IH]; intros h c name v t d Hr; [lia|].
  cbn [set_]. destruct (store_var h c (PyStr.lower name) v) as [h1 c1].
  fold (typed c1 (PyStr.lower name) t).
  set (c2 := typed c1 (PyStr.lower name) t).
  assert (is_Some (if d && (0 <? String.length (with_prefix c2))%nat
                   then set_ LIB b64decode fuel h1 c2
                          (with_prefix c2 +:+ PyStr.lower name) v t false
                   else Some (h1, c2))) as [[h3 c3] ->].
  { destruct d; cbn [andb]; [|eauto].
    destruct (0 <? _)%nat; [|eauto].
    apply IH. unfold set_rank in *. rewrite lower_prefixed.
    destruct (PyStr.endswith (PyStr.lower name) ".nodetypedvalue") eqn:E.
    - rewrite endswith_value_not_text; [lia|]. now apply endswith_app.
    - destruct (PyStr.endswith _ ".text"); lia. }
  destruct (PyStr.endswith (PyStr.lower name) ".text") eqn:Et; [|eauto].
  destruct (get LIB h3 c3 _); [|eauto].
  destruct (String.eqb _ _); [|eauto].
  destruct (b64decode _); [|eauto].
  apply IH. unfold set_rank in *.
  rewrite lower_value_suffix by now apply replace_text_endswith.
  rewrite Et in Hr. rewrite (endswith_text_not_value _ Et) in Hr.
  destruct d; lia.
Qed.

(** Two suffixes exclude each other when neither the one nor a proper
    suffix of it ends with the other. *)
Lemma endswith_excl (a b s : string) :
  PyStr.endswith a b = false → tail_endswith b a = false →
  PyStr.endswith s a = true → PyStr.endswith s b = false.
Proof.
  intros Hab Hba. induction s as [|x s IH]; intros H.
  - apply endswith_nil in H. now subst.
  - apply endswith_unfold in H as [->|(y & s' & [= <- <-] & H)]; [exact Hab|].
    rewrite endswith_eq, (IH H).
    destruct (String.eqb_spec (String x s) b) as [E|]; [|reflexivity].
    subst b. cbn in Hba. congruence.
Qed.

(** [_get] reads the two dictionaries at the lowercased name only. *)
Lemma _get_frame h c h' c' n :
  locals c' !! PyStr.lower n = locals c !! PyStr.lower n →
  globals_of h' c' !! PyStr.lower n = globals_of h c !! PyStr.lower n →
  _get LIB h' c' n = _get LIB h c n.
Proof. unfold _get. now intros -> ->. Qed.

Lemma set__get_frame fuel h c name v t d h' c' n :
  set_ LIB b64decode fuel h c name v t d = Some (h', c') →
  PyStr.lower n ∉ keys_ fuel (with_prefix c) name d →
  _get LIB h' c' n = _get LIB h c n.
Proof.
  intros H Hk. destruct (set_frame _ _ _ _ _ _ _ _ _ _ H Hk).
  now apply _get_frame.
Qed.

(** What the first statements of [set_] leave alone. *)
Lemma plain_frame fuel h c name v t d h1 c1 h3 c3 k :
  store_var h c (PyStr.lower name) v = (h1, c1) →
  (if d && (0 <? String.length (with_prefix c1))%nat
   then set_ LIB b64decode fuel h1 (typed c1 (PyStr.lower name) t)
          (with_prefix c1 +:+ PyStr.lower name) v t false
   else Some (h1, typed c1 (PyStr.lower name) t)) = Some (h3, c3) →
  k ∉ keys_ (S fuel) (with_prefix c) name d →
  locals c3 !! k = locals c !! k ∧ globals_of h3 c3 !! k = globals_of h c !! k
  ∧ with_prefix c3 = with_prefix c ∧ globals c3 = globals c.
Proof.
  intros Hs Hp Hk. cbn [keys_] in Hk.
  apply not_elem_of_cons in Hk as [Hk1 Hk]. apply not_elem_of_app in Hk as [Hk2 _].
  destruct (store_var_frame _ _ _ _ _ _ k Hs Hk1) as [Hl1 Hg1].
  apply store_var_fields in Hs as (Hg & Hw & _).
  destruct (typed_fields c1 (PyStr.lower name) t) as (Hg2 & Hw2 & Hl2).
  rewrite Hw in Hp. destruct (d && _).
  - pose proof (set_fields _ _ _ _ _ _ _ _ _ Hp) as [Hg3 Hw3].
    apply set_frame with (k := k) in Hp as [-> ->]; [|now rewrite Hw2, Hw].
    unfold globals_of in *. rewrite Hl2, Hg2. split_and!; congruence.
  - injection Hp as <- <-. unfold globals_of in *. rewrite Hl2, Hg2.
    split_and!; congruence.
Qed.

Lemma get_frame h c h' c' n :
  with_prefix c' = with_prefix c →
  (∀ k, k ∈ [PyStr.lower (with_prefix c +:+ n); PyStr.lower n;
             PyStr.lower (n +:+ "$")] →
        locals c' !! k = locals c !! k
        ∧ globals_of h' c' !! k = globals_of h c !! k) →
  get LIB h' c' n = get LIB h c n.
Proof.
  intros Hw Hk. unfold get. rewrite Hw.
  rewrite !(_get_frame h c h' c'); [reflexivity|..];
    apply Hk; repeat constructor.
Qed.

(** The keys under which [get] looks for the [.datatype] of a [.text] name
    are none of those that [set_] writes for the name. *)
Lemma datatype_keys_apart fuel p name d k :
  PyStr.endswith (PyStr.lower name) ".text" = true →
  k ∈ [PyStr.lower (p +:+ PyStr.replace (PyStr.lower name) ".text" ".datatype");
       PyStr.lower (PyStr.replace (PyStr.lower name) ".text" ".datatype");
       PyStr.lower (PyStr.replace (PyStr.lower name) ".text" ".datatype" +:+ "$")] →
  k ∉ keys_ fuel p name d.
Proof.
  intros Ht Hk Hin. apply keys_touch in Hin as (_ & _ & Hsuf).
  specialize (Hsuf Ht).
  pose proof (replace_text_endswith ".datatype" _ Ht) as Hd.
  apply endswith_lower in Hd. change (PyStr.lower ".datatype") with ".datatype" in Hd.
  assert (PyStr.endswith k ".datatype" = true ∨ PyStr.endswith k "$" = true) as [E|E].
  { apply elem_of_cons in Hk as [->|Hk]; [left|].
    { rewrite lower_app. now apply endswith_app. }
    apply elem_of_cons in Hk as [->|Hk]; [now left|].
    apply list_elem_of_singleton in Hk as ->. right.
    rewrite lower_app. apply endswith_app. reflexivity. }
  - destruct Hsuf as [Hs|Hs].
    + rewrite (endswith_excl ".datatype" ".text" k) in Hs; done.
    + rewrite (endswith_excl ".datatype" ".nodetypedvalue" k) in Hs; done.
  - destruct Hsuf as [Hs|Hs].
    + rewrite (endswith_excl "$" ".text" k) in Hs; done.
    + rewrite (endswith_excl "$" ".nodetypedvalue" k) in Hs; done.
Qed.

(** [set] returns. *)
Lemma set_returns h c name v t d :
  is_Some (set LIB b64decode h c name v t d).
Proof.
  apply set_total. unfold set_rank. repeat case_match; lia.
Qed.

(* ===================================================================== *)
(** * Properties of the execution context *)
(* ===================================================================== *)

Lemma first_hit_app (l1 l2 : list (option value)) :
  first_hit (l1 ++ l2)
  = match first_hit l1 with Some v => Some v | None => first_hit l2 end.
Proof.
  induction l1 as [|[v|] l1 IH]; cbn [app first_hit]; [reflexivity..|exact IH].
Qed.

Lemma first_hit_None (l : list (option value)) :
  first_hit l = None ↔ Forall (λ o, o = None) l.
Proof.
  induction l as [|[v|] l IH]; cbn [first_hit].
  - split; [constructor | reflexivity].
  - split; [discriminate | intros H%Forall_cons_1; destruct H; discriminate].
  - rewrite IH, Forall_cons. tauto.
Qed.

Lemma _get_first_hit (h : heap) (c : Context) (n : string) :
  _get LIB h c n = from_option Ok (Raise KeyError) (first_hit (tiers LIB h c n)).
Proof.
  unfold _get, tiers. cbn [first_hit].
  destruct (locals c !! PyStr.lower n); [reflexivity|].
  destruct (globals_of h c !! PyStr.lower n); [reflexivity|].
  destruct (LIB !! PyStr.lower n); reflexivity.
Qed.

Lemma get_get_spec (h : heap) (c : Context) (name : string) :
  get LIB h c name = from_option Ok (Raise KeyError) (get_spec LIB h c name).
Proof.
  unfold get, get_spec, name_forms. rewrite !_get_first_hit.
  cbn [map concat]. rewrite !first_hit_app. cbn [first_hit].
  destruct (first_hit (tiers LIB h c (with_prefix c +:+ name))); [reflexivity|].
  destruct (first_hit (tiers LIB h c name)); [reflexivity|].
  destruct (first_hit (tiers LIB h c (name +:+ "$"))); reflexivity.
Qed.

(** C1.  [get] tries the three forms of the name in the order
    [with_prefix + name], [name], [name + "$"], and each form in [locals],
    then [globals], then the VBA library (every form lowercased, as [_get]
    does): the result is the first hit of the nine lookups.  It raises, and
    then a [KeyError], only when the nine lookups all miss. *)
Theorem get_resolution_order (h : heap) (c : Context) (name : string) :
  get LIB h c name = from_option Ok (Raise KeyError) (get_spec LIB h c name)
  ∧ (get LIB h c name = Raise KeyError
     ↔ Forall (λ o, o = None) (concat (map (tiers LIB h c) (name_forms c name))))
  ∧ (∀ e, get LIB h c name = Raise e → e = KeyError).
Proof.
  split_and!; [apply get_get_spec | | apply get_raises].
  rewrite get_get_spec, <- first_hit_None. unfold get_spec.
  destruct (first_hit _); cbn [from_option]; split; congruence.
Qed.

(** C2.  When [globals] holds a procedure under the lowercased name, [set]
    with that name returns, leaves that entry of [globals] as it was and
    stores the value in [locals]. *)
Theorem set_keeps_procedure (h : heap) (c : Context) (name : string)
    (v : value) (t : option value) (d : bool) (p : value) :
  globals_of h c !! PyStr.lower name = Some p →
  is_procedure p = true →
  ∃ h' c', set LIB b64decode h c name v t d = Some (h', c')
    ∧ globals c' = globals c
    ∧ globals_of h' c' !! PyStr.lower name = Some p
    ∧ locals c' !! PyStr.lower name = Some v.
Proof.
  intros Hg Hp.
  destruct (set_returns h c name v t d) as [[h' c'] H].
  exists h', c'. split; [exact H|].
  unfold set in H.
  pose proof (set_fields _ _ _ _ _ _ _ _ _ H) as [Hgl _].
  split; [exact Hgl|].
  destruct (store_var h c (PyStr.lower name) v) as [h1 c1] eqn:Hs.
  destruct (set_after_store _ _ _ _ _ _ _ _ _ _ _ H Hs) as [-> ->].
  unfold store_var in Hs. rewrite Hg, Hp in Hs. cbn [negb] in Hs.
  destruct (locals c !! PyStr.lower name); injection Hs as <- <-;
    cbn [locals with_locals]; rewrite lookup_insert_eq; auto.
Qed.

(** The key of the doubled prefix is none of those that [set] writes. *)
Lemma keys_S (fuel : nat) (p name : string) (d : bool) :
  keys_ (S fuel) p name d
  = PyStr.lower name ::
    (if d && (0 <? String.length p)%nat
     then keys_ fuel p (p +:+ PyStr.lower name) false else [])
    ++ (if PyStr.endswith (PyStr.lower name) ".text"
        then keys_ fuel p (PyStr.replace (PyStr.lower name) ".text" ".nodetypedvalue") true
        else []).
Proof. reflexivity. Qed.

Lemma double_prefix_apart (p name : string) :
  (0 < String.length p)%nat →
  PyStr.lower (p +:+ p +:+ name) ∉ keys_ 4 p name true.
Proof.
  intros Hp.
  assert (∀ a b, a = b → String.length a = String.length b) as Hlen by congruence.
  pose proof (proj2 (Nat.ltb_lt _ _) Hp) as Hp'.
  pose proof (lower_length p) as Elp.
  rewrite keys_S, Hp'. cbn [andb]. rewrite keys_S. cbn [andb app].
  rewrite !lower_app, !lower_idem.
  generalize dependent (PyStr.lower p). intros lp Elp.
  generalize (PyStr.lower name). intros n.
  rewrite !not_elem_of_cons, !not_elem_of_app. split_and!.
  - intros E%Hlen. rewrite !length_app in E. lia.
  - intros E%Hlen. rewrite !length_app in E. lia.
  - destruct (PyStr.endswith (lp +:+ n) ".text") eqn:Et; [|apply not_elem_of_nil].
    intros Hk. apply keys_touch in Hk as (_ & Hv & _).
    rewrite (endswith_excl ".text" ".nodetypedvalue" (lp +:+ lp +:+ n)) in Hv;
      [| done | done | now apply endswith_app].
    discriminate Hv. apply lower_value_suffix, replace_text_endswith, Et.
  - destruct (PyStr.endswith n ".text") eqn:Et; [|apply not_elem_of_nil].
    intros Hk. apply keys_touch in Hk as (_ & Hv & _).
    rewrite (endswith_excl ".text" ".nodetypedvalue" (lp +:+ lp +:+ n)) in Hv;
      [| done | done | now apply endswith_app, endswith_app].
    discriminate Hv. apply lower_value_suffix, replace_text_endswith, Et.
Qed.

(** C6.  With a non-empty [with_prefix], [set] with the prefix flag returns
    and the value is then found under the name and under
    [with_prefix + name]; [get] of the name yields it.  The entry of the
    doubled prefix is not written, so that [get] of [with_prefix + name]
    yields the value as well when the doubled name was unbound, as it is for
    the prefix ["foo."] and the name ["bar"] in a new context. *)
Theorem set_with_prefix (h : heap) (c : Context) (name : string)
    (v : value) (t : option value) :
  (0 < String.length (with_prefix c))%nat →
  ∃ h' c', set LIB b64decode h c name v t true = Some (h', c')
    ∧ with_prefix c' = with_prefix c
    ∧ _get LIB h' c' name = Ok v
    ∧ _get LIB h' c' (with_prefix c +:+ name) = Ok v
    ∧ get LIB h' c' name = Ok v
    ∧ _get LIB h' c' (with_prefix c +:+ with_prefix c +:+ name)
      = _get LIB h c (with_prefix c +:+ with_prefix c +:+ name)
    ∧ (_get LIB h c (with_prefix c +:+ with_prefix c +:+ name) = Raise KeyError →
       get LIB h' c' (with_prefix c +:+ name) = Ok v).
Proof.
  intros Hp.
  destruct (set_returns h c name v t true) as [[h' c'] H].
  exists h', c'. split; [exact H|]. unfold set in H.
  pose proof (set_fields _ _ _ _ _ _ _ _ _ H) as [_ Hw].
  pose proof (_get_user _ _ _ _ (set_lookup _ _ _ _ _ _ _ _ _ H)) as Hn.
  pose proof (_get_user _ _ _ _ (set_prefix_lookup _ _ _ _ _ _ _ _ H Hp)) as Hpn.
  pose proof (set__get_frame _ _ _ _ _ _ _ _ _
                (with_prefix c +:+ with_prefix c +:+ name) H
                (double_prefix_apart _ _ Hp)) as Hpp.
  split_and!; try done.
  - exact (set_get _ _ _ _ _ _ _ _ H).
  - intros Hmiss. unfold get. rewrite Hw, Hpp, Hmiss, Hpn. reflexivity.
Qed.

Lemma set_S (fuel : nat) (h : heap) (c : Context) (name : string)
    (v : value) (t : option value) (d : bool) :
  set_ LIB b64decode (S fuel) h c name v t d
  = let '(h1, c1) := store_var h c (PyStr.lower name) v in
    match (if d && (0 <? String.length (with_prefix (typed c1 (PyStr.lower name) t)))%nat
           then set_ LIB b64decode fuel h1 (typed c1 (PyStr.lower name) t)
                  (with_prefix (typed c1 (PyStr.lower name) t) +:+ PyStr.lower name)
                  v t false
           else Some (h1, typed c1 (PyStr.lower name) t)) with
    | None => None
    | Some (h3, c3) =>
        if PyStr.endswith (PyStr.lower name) ".text" then
          match get LIB h3 c3 (PyStr.replace (PyStr.lower name) ".text" ".datatype") with
          | Ok node =>
              if String.eqb (PyStr.strip (py_str node)) "bin.base64" then
                match b64decode (PyStr.strip (py_str v)) with
                | Some conv_val =>
                    set_ LIB b64decode fuel h3 c3
                      (PyStr.replace (PyStr.lower name) ".text" ".nodetypedvalue")
                      (VBytes conv_val) None true
                | None => Some (h3, c3)
                end
              else Some (h3, c3)
          | Raise _ => Some (h3, c3)
          end
        else Some (h3, c3)
    end.
Proof. reflexivity. Qed.

(** [set_] on a [.text] name, in terms of the state that its first
    statements produce. *)
Lemma set_text_unfold (h : heap) (c : Context) (name : string)
    (v : value) (t : option value) (d : bool) :
  PyStr.endswith (PyStr.lower name) ".text" = true →
  ∃ h3 c3,
    set_plain LIB b64decode h c name v t d = Some (h3, c3)
    ∧ get LIB h3 c3 (PyStr.replace (PyStr.lower name) ".text" ".datatype")
      = get LIB h c (PyStr.replace (PyStr.lower name) ".text" ".datatype")
    ∧ set LIB b64decode h c name v t d
      = match get LIB h3 c3 (PyStr.replace (PyStr.lower name) ".text" ".datatype") with
        | Ok node =>
            if String.eqb (PyStr.strip (py_str node)) "bin.base64" then
              match b64decode (PyStr.strip (py_str v)) with
              | Some conv_val =>
                  set_ LIB b64decode 3 h3 c3
                    (PyStr.replace (PyStr.lower name) ".text" ".nodetypedvalue")
                    (VBytes conv_val) None true
              | None => Some (h3, c3)
              end
            else Some (h3, c3)
        | Raise _ => Some (h3, c3)
        end.
Proof.
  intros Ht. unfold set, set_plain. rewrite set_S.
  destruct (store_var h c (PyStr.lower name) v) as [h1 c1] eqn:Hs.
  destruct (typed_fields c1 (PyStr.lower name) t) as (_ & Hw2 & _).
  rewrite Hw2.
  destruct (if d && (0 <? String.length (with_prefix c1))%nat
            then set_ LIB b64decode 3 h1 (typed c1 (PyStr.lower name) t)
                   (with_prefix c1 +:+ PyStr.lower name) v t false
            else Some (h1, typed c1 (PyStr.lower name) t))
    as [[h3 c3]|] eqn:Hp.
  - exists h3, c3. rewrite Ht. split; [reflexivity|]. split; [|reflexivity].
    assert (∀ k,
      k ∈ [PyStr.lower (with_prefix c +:+ PyStr.replace (PyStr.lower name) ".text" ".datatype");
           PyStr.lower (PyStr.replace (PyStr.lower name) ".text" ".datatype");
           PyStr.lower (PyStr.replace (PyStr.lower name) ".text" ".datatype" +:+ "$")] →
      locals c3 !! k = locals c !! k ∧ globals_of h3 c3 !! k = globals_of h c !! k
      ∧ with_prefix c3 = with_prefix c ∧ globals c3 = globals c) as Hfr.
    { intros k Hk. apply (plain_frame 3 h c name v t d h1 c1 h3 c3 k Hs Hp).
      now apply datatype_keys_apart. }
    apply get_frame.
    + apply (Hfr _ (list_elem_of_here _ _)).
    + intros k Hk. destruct (Hfr k Hk) as (? & ? & _). now split.
  - exfalso. destruct d; cbn [andb] in Hp; [|discriminate].
    destruct (0 <? _)%nat; [|discriminate].
    destruct (set_total 3 h1 (typed c1 (PyStr.lower name) t)
                (with_prefix c1 +:+ PyStr.lower name) v t false) as [? E].
    { unfold set_rank. repeat case_match; lia. }
    congruence.
Qed.

(** C4, as the code has it.  For a name that ends with [.text]
    (lowercased), when [get] of the sibling [.datatype] name yields a value
    whose [str], stripped of the whitespace around it, is exactly
    ["bin.base64"] (the comparison is case-sensitive), and [b64decode] of
    the stripped [str] of the value succeeds, [set] returns and [get] of the
    sibling [.nodetypedvalue] name then yields the decoded bytes.  When the
    decoding fails, or the data type is another text, or the sibling does
    not resolve, [set] is [set_plain]: the store, the type and the copy
    under the [With] prefix. *)
Theorem set_text_base64 (h : heap) (c : Context) (name : string)
    (v : value) (t : option value) (d : bool) :
  PyStr.endswith (PyStr.lower name) ".text" = true →
  (∀ node conv,
     get LIB h c (PyStr.replace (PyStr.lower name) ".text" ".datatype") = Ok node →
     PyStr.strip (py_str node) = "bin.base64" →
     b64decode (PyStr.strip (py_str v)) = Some conv →
     ∃ h' c', set LIB b64decode h c name v t d = Some (h', c')
       ∧ get LIB h' c' (PyStr.replace (PyStr.lower name) ".text" ".nodetypedvalue")
         = Ok (VBytes conv))
  ∧ (b64decode (PyStr.strip (py_str v)) = None →
     set LIB b64decode h c name v t d = set_plain LIB b64decode h c name v t d)
  ∧ (∀ node,
     get LIB h c (PyStr.replace (PyStr.lower name) ".text" ".datatype") = Ok node →
     PyStr.strip (py_str node) ≠ "bin.base64" →
     set LIB b64decode h c name v t d = set_plain LIB b64decode h c name v t d)
  ∧ (∀ e,
     get LIB h c (PyStr.replace (PyStr.lower name) ".text" ".datatype") = Raise e →
     set LIB b64decode h c name v t d = set_plain LIB b64decode h c name v t d).
Proof.
  intros Ht.
  destruct (set_text_unfold h c name v t d Ht) as (h3 & c3 & Hplain & Hget & Hset).
  rewrite Hget in Hset. rewrite Hplain. split_and!.
  - intros node conv Hn Hb Hd. rewrite Hn, Hb, String.eqb_refl, Hd in Hset.
    destruct (set_total 3 h3 c3
                (PyStr.replace (PyStr.lower name) ".text" ".nodetypedvalue")
                (VBytes conv) None true) as [[h' c'] E].
    { unfold set_rank.
      rewrite lower_value_suffix by now apply replace_text_endswith. lia. }
    exists h', c'. split; [congruence|]. exact (set_get _ _ _ _ _ _ _ _ E).
  - intros Hd. rewrite Hd in Hset. rewrite Hset. repeat case_match; reflexivity.
  - intros node Hn Hb. rewrite Hn in Hset.
    apply String.eqb_neq in Hb. now rewrite Hb in Hset.
  - intros e Hn. now rewrite Hn in Hset.
Qed.

End ContextFacts.

(* ===================================================================== *)
(** * The properties of the context on the examples *)
(* ===================================================================== *)

Lemma set_keeps_procedure_witness :
  (globals_of Examples.heap_with_sub Examples.fresh.2 !! PyStr.lower "Foo"
   = Some Examples.a_sub
   ∧ is_procedure Examples.a_sub = true)
  ∧ ∃ h' c',
      set ∅ B64.b64decode Examples.heap_with_sub Examples.fresh.2 "Foo" (VInt 5)
        None true = Some (h', c')
      ∧ globals c' = globals Examples.fresh.2
      ∧ globals_of h' c' !! PyStr.lower "Foo" = Some Examples.a_sub
      ∧ locals c' !! PyStr.lower "Foo" = Some (VInt 5).
Proof.
  assert (globals_of Examples.heap_with_sub Examples.fresh.2 !! PyStr.lower "Foo"
          = Some Examples.a_sub) as Hg by (vm_compute; reflexivity).
  assert (is_procedure Examples.a_sub = true) as Hp by reflexivity.
  split; [split; assumption|].
  exact (set_keeps_procedure ∅ B64.b64decode Examples.heap_with_sub
           Examples.fresh.2 "Foo" (VInt 5) None true Examples.a_sub Hg Hp).
Defined.

Lemma set_with_prefix_witness :
  (0 < String.length (with_prefix Examples.in_with_foo))%nat
  ∧ ∃ h' c',
      set ∅ B64.b64decode Examples.fresh.1 Examples.in_with_foo "bar" (VInt 1)
        None true = Some (h', c')
      ∧ get ∅ h' c' "bar" = Ok (VInt 1)
      ∧ get ∅ h' c' "foo.bar" = Ok (VInt 1).
Proof.
  assert (0 < String.length (with_prefix Examples.in_with_foo))%nat as Hp
    by (cbn; lia).
  split; [exact Hp|].
  destruct (set_with_prefix ∅ B64.b64decode Examples.fresh.1 Examples.in_with_foo
              "bar" (VInt 1) None Hp)
    as (h' & c' & Hs & _ & _ & _ & Hg & _ & Hgp).
  exists h', c'. split; [exact Hs|]. split; [exact Hg|].
  apply Hgp. vm_compute. reflexivity.
Defined.

Lemma set_text_base64_witness :
  PyStr.endswith (PyStr.lower "x.text") ".text" = true
  ∧ ∃ h' c',
      set ∅ B64.b64decode (Examples.after_datatype "bin.base64").1
        (Examples.after_datatype "bin.base64").2 "x.text" (VStr "aGVsbG8=")
        None true = Some (h', c')
      ∧ get ∅ h' c' "x.nodetypedvalue" = Ok (VBytes "hello").
Proof.
  assert (PyStr.endswith (PyStr.lower "x.text") ".text" = true) as Ht
    by reflexivity.
  split; [exact Ht|].
  destruct (set_text_base64 ∅ B64.b64decode (Examples.after_datatype "bin.base64").1
              (Examples.after_datatype "bin.base64").2 "x.text" (VStr "aGVsbG8=")
              None true Ht) as (Henrich & _).
  apply (Henrich (VStr "bin.base64") "hello"); vm_compute; reflexivity.
Defined.

(** C4 as it is stated fails: the data type is compared with
    ["bin.base64"] as it is written.  After [set("x.datatype",
    "BIN.BASE64")], which equals ["bin.base64"] up to case,
    [set("x.text", "aGVsbG8=")] stores nothing under [x.nodetypedvalue]. *)
Lemma set_text_base64_case_counterexample :
  ¬ (∀ (h : heap) (c : Context) (name : string) (v node : value) (conv : string),
       PyStr.endswith (PyStr.lower name) ".text" = true →
       get ∅ h c (PyStr.replace (PyStr.lower name) ".text" ".datatype") = Ok node →
       PyStr.lower (PyStr.strip (py_str node)) = "bin.base64" →
       B64.b64decode (PyStr.strip (py_str v)) = Some conv →
       ∃ h' c',
         set ∅ B64.b64decode h c name v None true = Some (h', c')
         ∧ get ∅ h' c' (PyStr.replace (PyStr.lower name) ".text" ".nodetypedvalue")
           = Ok (VBytes conv)).
Proof.
  intros H.
  destruct (H (Examples.after_datatype "BIN.BASE64").1
              (Examples.after_datatype "BIN.BASE64").2
              "x.text" (VStr "aGVsbG8=") (VStr "BIN.BASE64") "hello")
    as (h' & c' & Hs & Hg); try (vm_compute; reflexivity).
  assert (Examples.after_text "BIN.BASE64" = (h', c')) as E'.
  { unfold Examples.after_text. rewrite Hs. reflexivity. }
  assert (h' = (Examples.after_text "BIN.BASE64").1) as -> by now rewrite E'.
  assert (c' = (Examples.after_text "BIN.BASE64").2) as -> by now rewrite E'.
  vm_compute in Hg. discriminate Hg.
Qed.

(* ===================================================================== *)
(** * The construction of a context *)
(* ===================================================================== *)

(** A sequence of assignments to a dictionary: a key that is assigned holds
    the value of its last assignment, whatever the dictionary held before;
    the other keys are as before. *)
Lemma assignments_lookup (l : list (string * value)) (g : gmap string value)
    (k : string) :
  foldl assign g l !! k
  = match foldl assign ∅ l !! k with
    | Some v => Some v
    | None => g !! k
    end.
Proof.
  revert g. induction l as [|[a b] l IH]; intros g; cbn [foldl].
  - now rewrite lookup_empty.
  - rewrite IH. rewrite (IH (assign ∅ (a, b))).
    destruct (foldl _ ∅ l !! k); [reflexivity|].
    unfold assign; cbn [fst snd].
    destruct (decide (PyStr.lower a = k)) as [->|Hne].
    + now rewrite !lookup_insert_eq.
    + now rewrite !lookup_insert_ne, lookup_empty by done.
Qed.

Lemma assignments_cover (l : list (string * value)) (g : gmap string value)
    (name : string) (v : value) :
  (name, v) ∈ l →
  is_Some (foldl assign g l !! PyStr.lower name).
Proof.
  revert g. induction l as [|[a b] l IH]; intros g Hin.
  - now apply elem_of_nil in Hin.
  - cbn [foldl]. apply elem_of_cons in Hin as [[= <- <-]|Hin]; [|now apply IH].
    rewrite assignments_lookup.
    destruct (foldl _ ∅ l !! PyStr.lower name); [eauto|].
    unfold assign; cbn [fst snd]. rewrite lookup_insert_eq. eauto.
Qed.

Lemma seed_globals_lookup (now : value) (g : gmap string value) (k : string) :
  seed_globals now g !! k
  = match seed_globals now ∅ !! k with
    | Some v => Some v
    | None => g !! k
    end.
Proof. apply assignments_lookup. Qed.

Lemma child_globals (h : heap) (p : Context) (_locals : option (gmap string value))
    (engine_arg : option (list action)) (doc_vars_arg : option (gmap string value))
    (excel : option workbook) (now : value) :
  Context_init h None _locals (Some p) engine_arg doc_vars_arg excel now
  = (<[globals p := seed_globals now (h !!! globals p)]> h,
     (Context_init h None _locals (Some p) engine_arg doc_vars_arg excel now).2)
  ∧ globals (Context_init h None _locals (Some p) engine_arg doc_vars_arg excel now).2
    = globals p.
Proof. split; reflexivity. Qed.

(** C10.  A context built with [context=p] refers to the dictionary of
    [p.globals] itself, and its construction assigns in that dictionary
    every constant of the table: a name of the table then holds the value of
    the table, whatever the dictionary held under it before (so for ["now"],
    ["application.username"] and ["vbkeya"]); the other names and the other
    dictionaries of the heap are as before. *)
Theorem child_context_reseeds_globals (h : heap) (p : Context)
    (_locals : option (gmap string value)) (engine_arg : option (list action))
    (doc_vars_arg : option (gmap string value)) (excel : option workbook)
    (now : value) :
  let h' := (Context_init h None _locals (Some p) engine_arg doc_vars_arg excel now).1 in
  let c := (Context_init h None _locals (Some p) engine_arg doc_vars_arg excel now).2 in
  globals c = globals p
  ∧ (∀ name v, (name, v) ∈ BUILTIN_GLOBALS now →
       ∃ v', seed_globals now ∅ !! PyStr.lower name = Some v'
             ∧ globals_of h' p !! PyStr.lower name = Some v'
             ∧ globals_of h' c !! PyStr.lower name = Some v')
  ∧ (∀ k, seed_globals now ∅ !! k = None →
       globals_of h' p !! k = globals_of h p !! k)
  ∧ (∀ l, l ≠ globals p → h' !! l = h !! l)
  ∧ globals_of h' p !! "now" = Some now
  ∧ globals_of h' p !! "application.username" = Some (VStr "--")
  ∧ globals_of h' p !! "vbkeya" = Some (VInt 65).
Proof.
  intros h' c.
  destruct (child_globals h p _locals engine_arg doc_vars_arg excel now) as [E Hg].
  assert (∀ k, globals_of h' p !! k
               = match seed_globals now ∅ !! k with
                 | Some v => Some v
                 | None => globals_of h p !! k
                 end) as Hl.
  { intros k. unfold globals_of, h'. rewrite E. cbn [fst].
    rewrite lookup_total_insert_eq. apply seed_globals_lookup. }
  split_and!.
  - exact Hg.
  - intros name v Hin.
    destruct (assignments_cover _ ∅ _ _ Hin) as [v' Hv'].
    exists v'. fold (seed_globals now ∅) in Hv'.
    split; [exact Hv'|].
    assert (globals_of h' p !! PyStr.lower name = Some v') as Hp
      by (rewrite Hl; now rewrite Hv').
    split; [exact Hp|]. unfold globals_of in *. fold c in Hg. now rewrite Hg.
  - intros k Hk. now rewrite Hl, Hk.
  - intros l Hne. unfold h'. rewrite E. cbn [fst]. now rewrite lookup_insert_ne.
  - rewrite Hl.
    replace (seed_globals now ∅ !! "now") with (Some now)
      by (vm_compute; reflexivity). reflexivity.
  - rewrite Hl.
    replace (seed_globals now ∅ !! "application.username") with (Some (VStr "--"))
      by (vm_compute; reflexivity). reflexivity.
  - rewrite Hl.
    replace (seed_globals now ∅ !! "vbkeya") with (Some (VInt 65))
      by (vm_compute; reflexivity). reflexivity.
Qed.

(* ===================================================================== *)
(** * The simulated files *)
(* ===================================================================== *)

Lemma replace_hash_go (fuel : nat) (s : string) :
  (String.length s ≤ fuel)%nat →
  PyStr.contains (PyStr.replace_go fuel "#" "" s) "#" = false.
Proof.
  revert s. induction fuel as [|fuel IH]; intros s Hlen.
  { destruct s; [reflexivity | cbn in Hlen; lia]. }
  destruct s as [|x s]; [reflexivity|].
  assert (∀ r, PyStr.startswith r "" = true) as Hnil by (now intros []).
  cbn [PyStr.replace_go]. rewrite startswith_eq, Hnil.
  cbn [String.length PyStr.drop].
  destruct (Ascii.eqb_spec "#" x) as [<-|Hne].
  - rewrite app_nil_l. apply IH. cbn in Hlen |- *. lia.
  - cbn [PyStr.contains]. rewrite startswith_eq, Hnil.
    destruct (Ascii.eqb_spec "#" x); [contradiction|].
    apply IH. cbn in Hlen. lia.
Qed.

(** No ['#'] is left in the name under which a file is closed. *)
Lemma replace_hash (s : string) :
  PyStr.contains (PyStr.replace s "#" "") "#" = false.
Proof. unfold PyStr.replace. now apply replace_hash_go. Qed.

Lemma array_B_bytes (data : list Z) :
  Forall (λ x, 0 ≤ x ≤ 255) data → array_B data = Some data.
Proof.
  intros H. unfold array_B.
  replace (forallb _ data) with true; [reflexivity|].
  symmetry. apply forallb_forall. intros x Hx.
  rewrite Forall_forall in H. specialize (H x (proj2 (list_elem_of_In _ _) Hx)).
  lia.
Qed.

Section Files.
Context (sha256_hexdigest : list Z → string).

(** C9, as the code has it.  For a handle that is open, whose buffer holds
    bytes, in a context with an engine, [dump_file] puts the buffer in [closed_files] under the
    recorded name without its ['#'] characters, removes the handle from
    [open_files] and reports to the engine the action
    ["Dropped File Hash"] with the SHA-256 digest of the buffer; the rest of
    the context is unchanged.  For a [file_id] that is not open the context
    is returned as it was. *)
Theorem dump_file_moves_buffer (c : Context) (file_id : string) (f : file)
    (log : list action) :
  open_files c !! file_id = Some f →
  Forall (λ x, 0 ≤ x ≤ 255) (file_contents f) →
  engine c = Some log →
  let name := PyStr.replace (file_name f) "#" "" in
  dump_file sha256_hexdigest c file_id
  = (with_files c (delete file_id (open_files c))
       (<[name := file_contents f]> (closed_files c))
       (Some (log ++ [{| action_name := "Dropped File Hash";
                         action_params := sha256_hexdigest (file_contents f);
                         action_description := "File Name: " +:+ name |}])),
     Ok tt)
  ∧ PyStr.contains name "#" = false
  ∧ closed_files (dump_file sha256_hexdigest c file_id).1 !! name
    = Some (file_contents f)
  ∧ open_files (dump_file sha256_hexdigest c file_id).1 !! file_id = None
  ∧ (∀ c0 id0, open_files c0 !! id0 = None →
       dump_file sha256_hexdigest c0 id0 = (c0, Ok tt)).
Proof.
  intros Ho Hb He name.
  assert (dump_file sha256_hexdigest c file_id
          = (with_files c (delete file_id (open_files c))
               (<[name := file_contents f]> (closed_files c))
               (Some (log ++ [{| action_name := "Dropped File Hash";
                                 action_params := sha256_hexdigest (file_contents f);
                                 action_description := "File Name: " +:+ name |}])),
             Ok tt)) as E.
  { unfold dump_file. rewrite Ho, (array_B_bytes _ Hb).
    unfold report_action. cbn [engine with_files]. rewrite He. reflexivity. }
  rewrite E. cbn [fst closed_files open_files with_files].
  split_and!.
  - reflexivity.
  - apply replace_hash.
  - apply lookup_insert_eq.
  - apply lookup_delete_eq.
  - intros c0 id0 H0. unfold dump_file. now rewrite H0.
Qed.

End Files.

Lemma dump_file_moves_buffer_witness :
  (open_files Examples.writing !! "#1"
   = Some {| file_name := "#1"; file_contents := [104; 105] |}
   ∧ Forall (λ x, 0 ≤ x ≤ 255) [104; 105]
   ∧ engine Examples.writing = Some [])
  ∧ closed_files (dump_file (λ _, "digest") Examples.writing "#1").1 !! "1"
    = Some [104; 105]
  ∧ open_files (dump_file (λ _, "digest") Examples.writing "#1").1 !! "#1" = None.
Proof.
  assert (open_files Examples.writing !! "#1"
          = Some {| file_name := "#1"; file_contents := [104; 105] |}) as Ho
    by (vm_compute; reflexivity).
  assert (Forall (λ x, 0 ≤ x ≤ 255) [104; 105]) as Hb
    by (repeat constructor; lia).
  assert (engine Examples.writing = Some []) as He by reflexivity.
  split; [split_and!; assumption|].
  destruct (dump_file_moves_buffer (λ _, "digest") Examples.writing "#1" _ _ Ho Hb He)
    as (_ & _ & Hc & Hd & _).
  split; [exact Hc | exact Hd].
Defined.

(** C9 as it is stated fails: a context built without an engine, which is
    the default of the constructor, has nothing to report to.  [dump_file]
    of an open handle raises an [AttributeError] there and no action is
    reported. *)
Lemma dump_file_moves_buffer_counterexample :
  ¬ (∀ (c : Context) (file_id : string) (f : file),
       open_files c !! file_id = Some f →
       (dump_file (λ _, "digest") c file_id).2 = Ok tt
       ∧ ∃ log,
           engine (dump_file (λ _, "digest") c file_id).1
           = Some (log ++ [{| action_name := "Dropped File Hash";
                              action_params := "digest";
                              action_description :=
                                "File Name: "
                                +:+ PyStr.replace (file_name f) "#" "" |}])).
Proof.
  intros H.
  assert (open_files Examples.unreported !! "#1"
          = Some {| file_name := "#1"; file_contents := [104; 105] |}) as Ho
    by (vm_compute; reflexivity).
  destruct (H Examples.unreported "#1" _ Ho) as [Hr _].
  vm_compute in Hr. discriminate Hr.
Qed.

(* ===================================================================== *)
(** * The limits *)
(* ===================================================================== *)

(** The comparison of the level with three quarters of the limit. *)
Lemma recursion_exceeded_iff (e : limits) :
  recursion_exceeded e = true ↔ 3 * recursionlimit e < 4 * level e.
Proof.
  unfold recursion_exceeded.
  rewrite negb_true_iff, <- not_true_iff_false, Qle_bool_iff.
  unfold Qle, Qmult, inject_Z. cbn [Qnum Qden]. lia.
Qed.

Lemma time_exceeded_iff (e : limits) :
  time_exceeded e = true ↔ ∃ t, max_emulation_time e = Some t ∧ t < clock e.
Proof.
  unfold time_exceeded. destruct (max_emulation_time e) as [t|].
  - rewrite Z.gtb_ltb, Z.ltb_lt.
    split; [eauto | intros (t' & [= <-] & H); exact H].
  - split; [discriminate | intros (t' & [=] & _)].
Qed.

Lemma limits_exceeded_peek (e : limits) :
  limits_exceeded e false = Ok (recursion_exceeded e || time_exceeded e).
Proof. unfold limits_exceeded. now rewrite !andb_false_r. Qed.

Lemma limits_exceeded_fatal (e : limits) :
  limits_exceeded e true
  = if recursion_exceeded e || time_exceeded e
    then Raise (RuntimeError
           (if recursion_exceeded e
            then "The ViperMonkey recursion depth will be exceeded. Aborting."
            else "The ViperMonkey emulation time limit was exceeded. Aborting."))
    else Ok false.
Proof.
  unfold limits_exceeded. rewrite !andb_true_r.
  destruct (recursion_exceeded e), (time_exceeded e); reflexivity.
Qed.

(** C7.  [limits_exceeded] reports a violation exactly when the level
    exceeds 0.75 times the recursion limit or, a deadline being set, the
    clock is past it; with [throw_error] it raises a [RuntimeError] under
    exactly these conditions and returns [False] otherwise.  At level 76
    under a limit of 100 the fatal check raises, at level 50 it does not. *)
Theorem limits_exceeded_spec (e : limits) :
  let violation :=
    3 * recursionlimit e < 4 * level e
    ∨ ∃ t, max_emulation_time e = Some t ∧ t < clock e in
  (limits_exceeded e false = Ok true ↔ violation)
  ∧ (limits_exceeded e false = Ok false ↔ ¬ violation)
  ∧ ((∃ msg, limits_exceeded e true = Raise (RuntimeError msg)) ↔ violation)
  ∧ (limits_exceeded e true = Ok false ↔ ¬ violation)
  ∧ (∃ msg, limits_exceeded Examples.deep true = Raise (RuntimeError msg))
  ∧ limits_exceeded Examples.calm true = Ok false.
Proof.
  intros violation.
  assert (violation ↔ recursion_exceeded e || time_exceeded e = true) as Hv.
  { unfold violation.
    now rewrite orb_true_iff, recursion_exceeded_iff, time_exceeded_iff. }
  rewrite limits_exceeded_peek, limits_exceeded_fatal, !Hv.
  destruct (recursion_exceeded e || time_exceeded e).
  - split_and!.
    + split; reflexivity.
    + split; [discriminate | intros H; now destruct H].
    + split; [reflexivity | eauto].
    + split; [discriminate | intros H; now destruct H].
    + vm_compute. eauto.
    + reflexivity.
  - split_and!.
    + split; discriminate.
    + split; [discriminate | reflexivity].
    + split; [intros [? [=]] | discriminate].
    + split; [discriminate | reflexivity].
    + vm_compute. eauto.
    + reflexivity.
Qed.

(* ===================================================================== *)
(** * The coercion of argument lists *)
(* ===================================================================== *)

(** The first loop of [coerce_args] when no element is of a third type. *)
Lemma find_first_type_typed (args : list value) (first_type : option arg_type)
    (all_null : bool) :
  existsb is_other args = false →
  find_first_type args first_type all_null
  = (match first_type with
     | Some t => Some t
     | None => type_of <$> find (λ a, negb (is_null a)) args
     end,
     false,
     all_null && forallb is_null args).
Proof.
  revert first_type all_null.
  induction args as [|arg args IH]; intros first_type all_null Ho.
  - cbn. rewrite andb_true_r. now destruct first_type.
  - cbn [existsb] in Ho. apply orb_false_elim in Ho as [Ha Ho].
    cbn [find_first_type find forallb]. unfold is_other in Ha. fold (is_null arg).
    destruct (is_null arg) eqn:En; cbn [negb andb] in *.
    + now rewrite IH by exact Ho.
    + rewrite andb_false_r.
      destruct arg; try discriminate Ha;
        rewrite IH by exact Ho; rewrite andb_false_l;
        destruct first_type; reflexivity.
Qed.

(** The first loop of [coerce_args] when an element is of a third type. *)
Lemma find_first_type_other (args : list value) (first_type : option arg_type)
    (all_null : bool) :
  existsb is_other args = true →
  ∃ t a, find_first_type args first_type all_null = (t, true, a).
Proof.
  revert first_type all_null.
  induction args as [|arg args IH]; intros first_type all_null Ho;
    [discriminate|].
  cbn [existsb] in Ho. cbn [find_first_type]. fold (is_null arg).
  unfold is_other in Ho.
  destruct (is_null arg) eqn:En; cbn [negb andb orb] in Ho.
  - now apply IH.
  - destruct arg; try (now apply IH); eauto.
Qed.

Lemma coerce_all_null (args : list value) :
  forallb is_null args = true →
  coerce_args_to_int args = Ok (map (λ _, VInt 0) args).
Proof.
  induction args as [|arg args IH]; intros H; [reflexivity|].
  cbn [forallb] in H. apply andb_prop in H as [Ha H].
  cbn [coerce_args_to_int map]. unfold coerce_to_int. fold (is_null arg).
  rewrite Ha, orb_true_r, (IH H). reflexivity.
Qed.

Lemma find_non_null (args : list value) (a : value) :
  find (λ a, negb (is_null a)) args = Some a → forallb is_null args = false.
Proof.
  induction args as [|arg args IH]; [discriminate|].
  cbn [find forallb]. destruct (is_null arg); cbn [negb andb].
  - exact IH.
  - reflexivity.
Qed.

Lemma find_null (args : list value) :
  find (λ a, negb (is_null a)) args = None → forallb is_null args = true.
Proof.
  induction args as [|arg args IH]; [reflexivity|].
  cbn [find forallb]. destruct (is_null arg); cbn [negb andb].
  - exact IH.
  - discriminate.
Qed.

(** C5, as the code has it.  [coerce_args] maps [None] to ["NULL"]; if an
    element that is not ["NULL"] is neither a [str] nor an [int] it returns
    that list; otherwise, if no element is other than ["NULL"], every
    element becomes the integer 0 (the list is taken for integers; the empty
    list stays empty); otherwise every element is coerced to the type of the
    first element that is not ["NULL"]: with [coerce_to_str], where ["NULL"]
    becomes the empty string, or with [coerce_to_int], where ["NULL"] becomes
    0 and a text that is no number raises. *)
Theorem coerce_args_spec (orig_args : list value) :
  let args := map none_to_null orig_args in
  coerce_args orig_args
  = (if existsb is_other args then Ok args
     else match find (λ a, negb (is_null a)) args with
          | None => Ok (map (λ _, VInt 0) args)
          | Some (VStr _) => Ok (map coerce_to_str args)
          | Some _ => coerce_args_to_int args
          end)
  ∧ coerce_to_str NULL = VStr ""
  ∧ coerce_to_int NULL = Ok (VInt 0).
Proof.
  intros args. split; [|split; reflexivity].
  unfold coerce_args. destruct orig_args as [|o orig_args]; [reflexivity|].
  cbn [length Nat.eqb]. fold none_to_null. fold args.
  unfold list_eq_str.
  assert (map (λ arg : value, arg) args = args) as Hid by apply map_id.
  rewrite !Hid. clear Hid.
  destruct (existsb is_other args) eqn:Ho.
  - destruct (find_first_type_other args None true Ho) as (t & a & ->).
    now destruct a.
  - rewrite (find_first_type_typed args None true Ho). cbn [andb].
    destruct (find (λ a, negb (is_null a)) args) as [a|] eqn:Ef.
    + rewrite (find_non_null _ _ Ef). cbn [fmap option_fmap option_map].
      now destruct a.
    + rewrite (find_null _ Ef). cbn [fmap option_fmap option_map].
      now apply coerce_all_null, find_null.
Qed.

(** C5 as it is stated fails: a list without a typed element is not
    returned unchanged, [coerce_args([None])] is [[0]]. *)
Lemma coerce_args_all_null_counterexample :
  ¬ (∀ orig_args : list value,
       find (λ a, negb (is_null a)) (map none_to_null orig_args) = None →
       coerce_args orig_args = Ok (map none_to_null orig_args)).
Proof.
  intros H. specialize (H [VNone] eq_refl). vm_compute in H. discriminate H.
Qed.

(* ===================================================================== *)
(** * The read of a spreadsheet cell *)
(* ===================================================================== *)

Lemma reduce_app {A : Type} (f : A → ascii → A) (x y : string) (init : A) :
  reduce f (x +:+ y) init = reduce f y (reduce f x init).
Proof.
  revert init. induction x as [|a x IH]; intros init; [reflexivity|].
  rewrite app_cons. cbn [reduce]. apply IH.
Qed.

Lemma column_digits_cons (a : ascii) (x : string) (ds : list Z) :
  column_digits (String a x) = Some ds →
  ∃ ds', ds = (PyStr.ord a - PyStr.ord "A") :: ds'
         ∧ PyStr.is_upper a = true ∧ column_digits x = Some ds'.
Proof.
  cbn [column_digits]. unfold capital_digit.
  destruct (PyStr.is_upper a); [|discriminate].
  destruct (column_digits x) as [ds'|]; [|discriminate].
  intros [= <-]. eauto.
Qed.

Lemma column_digits_length (x : string) (ds : list Z) :
  column_digits x = Some ds → length ds = String.length x.
Proof.
  revert ds. induction x as [|a x IH]; intros ds.
  - now intros [= <-].
  - intros (ds' & -> & _ & H)%column_digits_cons. cbn. now rewrite (IH _ H).
Qed.

(** The digits of a column in capital letters are digits of base 26. *)
Lemma column_digits_range (x : string) (ds : list Z) :
  column_digits x = Some ds → Forall (λ d, 0 ≤ d ≤ 25) ds.
Proof.
  revert ds. induction x as [|a x IH]; intros ds.
  - intros [= <-]. constructor.
  - intros (ds' & -> & Ha & H)%column_digits_cons. constructor; [|exact (IH _ H)].
    unfold PyStr.is_upper in Ha. apply andb_prop in Ha as [H1 H2].
    change (PyStr.ord "A") with 65. lia.
Qed.

Lemma column_digits_capitals (x : string) :
  is_Some (column_digits x) ↔ all_chars PyStr.is_upper x = true.
Proof.
  induction x as [|a x IH]; cbn [column_digits all_chars]; [split; eauto|].
  unfold capital_digit. destruct (PyStr.is_upper a); cbn [andb].
  - rewrite <- IH. destruct (column_digits x); split; eauto;
      intros [? [=]].
  - split; [intros [? [=]] | discriminate].
Qed.

(** The loop of [excel_col_letter_to_index] computes the positional value
    of capital letters, after what it started from. *)
Lemma reduce_column (x : string) (ds : list Z) (init : Z) :
  column_digits x = Some ds →
  reduce (λ s a, s * 26 + PyStr.ord a - PyStr.ord "A" + 1) x init
  = init * 26 ^ Z.of_nat (length ds) + column_number ds.
Proof.
  revert ds init. induction x as [|a x IH]; intros ds init.
  - intros [= <-]. cbn. lia.
  - intros (ds' & -> & _ & H)%column_digits_cons.
    cbn [reduce column_number length].
    rewrite (IH _ _ H), Nat2Z.inj_succ, Z.pow_succ_r by lia.
    lia.
Qed.

Lemma contains_index (s sub : string) :
  PyStr.contains s sub = true → is_Some (PyStr.index s sub).
Proof.
  induction s as [|x s IH]; cbn [PyStr.contains PyStr.index].
  - destruct (PyStr.startswith "" sub); [eauto | discriminate].
  - destruct (PyStr.startswith (String x s) sub); [eauto|].
    intros H. destruct (IH H) as [i ->]. cbn. eauto.
Qed.

Lemma read_cell_some (c : Context) (sheet_name cell_index val : string) :
  read_cell c sheet_name cell_index = Some val
  ↔ ∃ wb sh r v,
      loaded_excel c = Some wb
      ∧ wb sheet_name = Some sh
      ∧ PyStr.to_Z (split_cell cell_index "" "").2 = Some r
      ∧ sh (r - 1) (excel_col_letter_to_index (split_cell cell_index "" "").1) = Some v
      ∧ val = py_str v.
Proof.
  unfold read_cell. destruct (split_cell cell_index "" "") as [col row]. cbn [fst snd].
  split.
  - destruct (loaded_excel c) as [wb|]; [|discriminate].
    destruct (wb sheet_name) as [sh|] eqn:Es; [|discriminate].
    destruct (PyStr.to_Z row) as [r|]; [|discriminate].
    destruct (sh (r - 1) (excel_col_letter_to_index col)) as [v|] eqn:E;
      [|discriminate].
    intros [= <-]. exists wb, sh, r, v. split_and!; done.
  - intros (wb & sh & r & v & -> & -> & -> & -> & ->). reflexivity.
Qed.

Lemma between_raises (arg_str opener : string) (e : exn) :
  between arg_str opener = Raise e → e = ValueError.
Proof. unfold between. repeat case_match; congruence. Qed.

(** C8, as the code has it.  For a column written in capital letters,
    [excel_col_letter_to_index] is the positional value of the letters in
    base 26, their digits being 0 to 25 and each counting for its digit
    plus one, less one: ['A'] is 0, a further letter [a] takes the index
    [i] to [(i + 1) * 26 + (a - 'A')], so ['Z'] is 25 and ['AA'] is 26.  The
    cell that is read is the one of row [int(row) - 1] and of that column
    index, and the result is the [str] of its value; without a workbook,
    without the sheet, with a row that is no number or a read that fails,
    the result is [None].  Once the sheet name and the cell index are cut
    out, that is, when each of the two openers is followed by a closing
    parenthesis, [_read_from_excel] does not raise, and on [None]
    [eval_arg] goes on with its next steps. *)
Theorem excel_cell_read :
  (∀ x, is_Some (column_digits x) ↔ all_chars PyStr.is_upper x = true)
  ∧ (∀ x ds, column_digits x = Some ds →
       length ds = String.length x
       ∧ Forall (λ d, 0 ≤ d ≤ 25) ds
       ∧ excel_col_letter_to_index x = column_number ds - 1)
  ∧ (∀ a, PyStr.is_upper a = true →
       excel_col_letter_to_index (String a "") = PyStr.ord a - PyStr.ord "A"
       ∧ 0 ≤ excel_col_letter_to_index (String a "") ≤ 25)
  ∧ (∀ x a, all_chars PyStr.is_upper (x +:+ String a "") = true →
       excel_col_letter_to_index (x +:+ String a "")
       = (excel_col_letter_to_index x + 1) * 26 + (PyStr.ord a - PyStr.ord "A"))
  ∧ excel_col_letter_to_index "A" = 0
  ∧ excel_col_letter_to_index "Z" = 25
  ∧ excel_col_letter_to_index "AA" = 26
  ∧ (∀ c sheet_name cell_index val,
       read_cell c sheet_name cell_index = Some val
       ↔ ∃ wb sh r v,
           loaded_excel c = Some wb
           ∧ wb sheet_name = Some sh
           ∧ PyStr.to_Z (split_cell cell_index "" "").2 = Some r
           ∧ sh (r - 1) (excel_col_letter_to_index (split_cell cell_index "" "").1)
             = Some v
           ∧ val = py_str v)
  ∧ (∀ c sheet_name cell_index,
       loaded_excel c = None → read_cell c sheet_name cell_index = None)
  ∧ (∀ arg c sheet_name cell_index,
       between (py_str arg) "sheets(" = Ok sheet_name →
       between (py_str arg) "range(" = Ok cell_index →
       ∃ r, _read_from_excel arg c = Ok r
            ∧ (r = None ∨ r = read_cell c sheet_name cell_index))
  ∧ (∀ arg opener,
       PyStr.contains (PyStr.lower (py_str arg)) opener = true →
       PyStr.contains
         (PyStr.drop (default 0%nat (PyStr.index (PyStr.lower (py_str arg)) opener)
                      + String.length opener)
            (PyStr.lower (py_str arg))) ")" = true →
       ∃ name, between (py_str arg) opener = Ok name)
  ∧ _read_from_excel (VStr "ThisWorkbook.Sheets('Sheet1').Range('B3').Value")
      Examples.with_sheet = Ok (Some "2,1")
  ∧ _read_from_excel (VStr "ThisWorkbook.Sheets('Sheet1').Range('B3').Value")
      Examples.fresh.2 = Ok None
  ∧ _read_from_excel (VStr "ThisWorkbook.Sheets('Other').Range('B3').Value")
      Examples.with_sheet = Ok None
  ∧ _read_from_excel (VStr "ThisWorkbook.Sheets('Sheet1').Range('B$3').Value")
      Examples.with_sheet = Ok None
  ∧ eval_arg ∅ B64.b64decode None (λ _ _ _, Ok VNone) (λ _ _ _, Ok VNone) 1
      Examples.calm Examples.fresh.1 Examples.with_sheet
      (VStr "ThisWorkbook.Sheets('Sheet1').Range('B3').Value") false
    = Some (Ok (VStr "2,1"))
  ∧ eval_arg ∅ B64.b64decode None (λ _ _ _, Ok VNone) (λ _ _ _, Ok VNone) 1
      Examples.calm Examples.fresh.1 Examples.fresh.2
      (VStr "ThisWorkbook.Sheets('Sheet1').Range('B3').Value") false
    = Some (Ok (VStr "ThisWorkbook.Sheets('Sheet1').Range('B3').Value")).
Proof.
  split_and!.
  - apply column_digits_capitals.
  - intros x ds H. split; [exact (column_digits_length _ _ H)|].
    split; [exact (column_digits_range _ _ H)|].
    unfold excel_col_letter_to_index. rewrite (reduce_column _ _ _ H). lia.
  - intros a Ha. unfold excel_col_letter_to_index. cbn [reduce].
    unfold PyStr.is_upper in Ha. apply andb_prop in Ha as [H1 H2].
    change (PyStr.ord "A") with 65. lia.
  - intros x a _. unfold excel_col_letter_to_index.
    rewrite reduce_app. cbn [reduce]. lia.
  - reflexivity.
  - reflexivity.
  - reflexivity.
  - apply read_cell_some.
  - intros c sheet_name cell_index H. unfold read_cell. now rewrite H.
  - intros arg c sheet_name cell_index Hs Hc. unfold _read_from_excel.
    rewrite Hs, Hc. destruct (_ && _); eauto.
  - intros arg opener Ho Hc. unfold between.
    destruct (contains_index _ _ Ho) as [i Hi]. rewrite Hi in Hc |- *.
    change (default 0%nat (Some i)) with i in Hc.
    destruct (contains_index _ _ Hc) as [j ->]. eauto.
  - vm_compute. reflexivity.
  - vm_compute. reflexivity.
  - vm_compute. reflexivity.
  - vm_compute. reflexivity.
  - vm_compute. reflexivity.
  - vm_compute. reflexivity.
Qed.

(** C8 as it is stated fails twice.  A column that holds a small letter,
    which the split of the cell index takes for a letter of the column, is
    not read in base 26: ['a'] gives 32, which no digit from 0 to 25 gives.
    And the read raises: without a closing parenthesis after the opener,
    [str.index] raises a [ValueError] before the [try] block. *)
Lemma excel_cell_read_counterexample :
  ¬ (∀ x, all_chars PyStr.isalpha x = true →
       ∃ ds, length ds = String.length x
             ∧ Forall (λ d, 0 ≤ d ≤ 25) ds
             ∧ excel_col_letter_to_index x = column_number ds - 1)
  ∧ ¬ (∀ (arg : value) (c : Context), ∃ r, _read_from_excel arg c = Ok r).
Proof.
  split.
  - intros H. destruct (H "a" eq_refl) as (ds & Hl & Hr & He).
    destruct ds as [|d [|? ?]]; try discriminate Hl.
    inversion Hr as [|? ? Hd _]; subst.
    change (excel_col_letter_to_index "a") with 32 in He.
    cbn [column_number length] in He. lia.
  - intros H.
    destruct (H (VStr "ThisWorkbook.Sheets('Sheet1.Range('B3'") Examples.with_sheet)
      as [r Hr].
    vm_compute in Hr. discriminate Hr.
Qed.

(* ===================================================================== *)
(** * The resolution of an argument *)
(* ===================================================================== *)

Lemma isspace_not_dot (x : ascii) :
  PyStr.isspace x = true → Ascii.eqb "." x = false.
Proof.
  intros H. destruct (Ascii.eqb_spec "." x) as [<-|]; [discriminate H | reflexivity].
Qed.

Lemma contains_dot_cons (x : ascii) (s : string) :
  PyStr.contains (String x s) "." = Ascii.eqb "." x || PyStr.contains s ".".
Proof.
  cbn [PyStr.contains]. rewrite startswith_eq.
  destruct (Ascii.eqb "." x); [now destruct s | reflexivity].
Qed.

Lemma contains_dot_lstrip (s : string) :
  PyStr.contains s "." = true → PyStr.contains (PyStr.lstrip s) "." = true.
Proof.
  induction s as [|x s IH]; [discriminate|].
  cbn [PyStr.lstrip]. destruct (PyStr.isspace x) eqn:E; [|auto].
  rewrite contains_dot_cons, (isspace_not_dot _ E). exact IH.
Qed.

Lemma contains_dot_rstrip (s : string) :
  PyStr.contains s "." = true → PyStr.contains (PyStr.rstrip s) "." = true.
Proof.
  induction s as [|x s IH]; [discriminate|].
  rewrite contains_dot_cons. cbn [PyStr.rstrip].
  destruct (Ascii.eqb "." x) eqn:Ex; cbn [orb].
  - intros _.
    assert (PyStr.isspace x = false) as ->.
    { destruct (PyStr.isspace x) eqn:E; [|reflexivity].
      rewrite (isspace_not_dot _ E) in Ex. discriminate. }
    destruct (PyStr.rstrip s); rewrite contains_dot_cons, Ex; reflexivity.
  - intros H. specialize (IH H).
    destruct (PyStr.rstrip s) as [|y r]; [discriminate IH|].
    rewrite contains_dot_cons, IH. apply orb_true_r.
Qed.

(** A dotted text still has its dot, and so an index of it, after
    [strip]. *)
Lemma strip_dot_index (s : string) :
  PyStr.contains s "." = true → is_Some (PyStr.index (PyStr.strip s) ".").
Proof.
  intros H. apply contains_index, contains_dot_rstrip, contains_dot_lstrip, H.
Qed.

Section Resolution.
Context (LIB : gmap string value) (b64decode : string → option string)
  (meta : option (gmap string value))
  (object_eval : pyobject → heap → Context → result value)
  (member_access_text : pyobject → heap → Context → result value).

Lemma _read_from_object_text_str (s : string) (h : heap) (c : Context) :
  _read_from_object_text member_access_text (VStr s) h c = Ok VNone.
Proof. unfold _read_from_object_text. now destruct (_ || _). Qed.

Lemma limits_exceeded_peek_ok (e : limits) (x : exn) :
  limits_exceeded e false ≠ Raise x.
Proof. now rewrite limits_exceeded_peek. Qed.

Lemma _read_from_excel_raises (arg : value) (c : Context) (x : exn) :
  _read_from_excel arg c = Raise x → x = ValueError.
Proof.
  unfold _read_from_excel. destruct (_ && _); [|discriminate].
  destruct (between (py_str arg) "sheets(") eqn:E1.
  - destruct (between (py_str arg) "range(") eqn:E2; [discriminate|].
    intros [= <-]. exact (between_raises _ _ _ E2).
  - intros [= <-]. exact (between_raises _ _ _ E1).
Qed.

(** [get_doc_var] raises nothing but [RecursionError]. *)
Lemma get_doc_var_raises (stack : nat) (h : heap) (c : Context) (var : value)
    (x : exn) :
  get_doc_var LIB stack h c var = Raise x → x = RecursionError.
Proof.
  revert var. induction stack as [|stack IH]; intros var;
    (destruct var as [| | |s| |]; cbn [get_doc_var]; try discriminate);
    (destruct (doc_vars c !! PyStr.lower s); [discriminate|]);
    (destruct (get LIB h c (PyStr.lower s)) as [v|x'] eqn:Eg;
     [|apply get_raises in Eg as ->; now destruct (doc_vars c !! "*")]).
  - destruct v; try (intros [= <-]; reflexivity);
      now destruct (doc_vars c !! "*").
  - destruct v; try (apply IH); now destruct (doc_vars c !! "*").
Qed.

(** Without document variables and without a name that resolves,
    [get_doc_var] finds nothing. *)
Lemma get_doc_var_miss (stack : nat) (h : heap) (c : Context) (var : value) :
  (∀ n, get LIB h c n = Raise KeyError) →
  (∀ k, doc_vars c !! k = None) →
  get_doc_var LIB stack h c var = Ok VNone.
Proof.
  intros Hg Hd.
  destruct stack; (destruct var; cbn [get_doc_var]; try reflexivity);
    now rewrite !Hd, Hg.
Qed.

Lemma peel_miss (fuel : nat) (h : heap) (c : Context) (s : string) :
  (∀ n, get LIB h c n = Raise KeyError) → peel LIB fuel h c s = None.
Proof.
  intros Hg. revert s. induction fuel as [|fuel IH]; intros s; [reflexivity|].
  cbn [peel]. rewrite Hg. destruct (PyStr.contains s "."); [|reflexivity].
  destruct (PyStr.index s "."); [apply IH | reflexivity].
Qed.

Lemma wildcard_miss (h : heap) (c : Context) (wild_name : string) (l : list Z) :
  (∀ n, get LIB h c n = Raise KeyError) → wildcard LIB h c wild_name l = None.
Proof.
  intros Hg. induction l as [|i l IH]; [reflexivity|].
  cbn [wildcard]. now rewrite Hg.
Qed.

(** When the limits hold, the text is no cell read, no name resolves, no
    document variable exists and the text is no metadata access,
    [eval_arg] ends in [unresolved]: ["NULL"] when [treat_as_var_name] is
    set and [re.match] finds the pattern at the start of the text, the
    text itself otherwise. *)
Lemma eval_arg_unresolved (fuel : nat) (e : limits) (h : heap) (c : Context)
    (s : string) (treat_as_var_name : bool) :
  limits_exceeded e false = Ok false →
  _read_from_excel (VStr s) c = Ok None →
  (∀ n, get LIB h c n = Raise KeyError) →
  (∀ k, doc_vars c !! k = None) →
  PyStr.startswith (PyStr.strip (PyStr.lower s)) "activedocument.item(" = false →
  eval_arg LIB b64decode meta object_eval member_access_text (S fuel) e h c
    (VStr s) treat_as_var_name
  = Some (unresolved (VStr s) treat_as_var_name).
Proof.
  intros Hl He Hg Hd Hm. cbn [eval_arg].
  rewrite Hl, He, _read_from_object_text_str, !Hg.
  destruct (PyStr.contains (PyStr.lower s) ".nodetypedvalue"); [reflexivity|].
  destruct (PyStr.contains (PyStr.lower s) ".selecteditem"); [reflexivity|].
  destruct (PyStr.contains (PyStr.lower s) ".") eqn:Edot; [|reflexivity].
  rewrite !get_doc_var_miss by assumption.
  rewrite bool_decide_true by reflexivity. cbn [negb].
  rewrite peel_miss by assumption. rewrite Hm.
  destruct (strip_dot_index _ Edot) as [i ->].
  rewrite wildcard_miss by assumption.
  assert (∀ b : bool, (if b then Ok VNone else Ok VNone) = Ok VNone :> result value)
    as Hsame by (now intros []).
  rewrite !Hsame. rewrite bool_decide_true by reflexivity. reflexivity.
Qed.

(** A lookup failure does not leave [eval_arg]: on a text it never raises
    a [KeyError]. *)
Lemma eval_arg_no_key_error (fuel : nat) (e : limits) (h : heap) (c : Context)
    (s : string) (treat_as_var_name : bool) :
  eval_arg LIB b64decode meta object_eval member_access_text fuel e h c
    (VStr s) treat_as_var_name
  ≠ Some (Raise KeyError).
Proof.
  destruct fuel as [|fuel]; [discriminate|]. cbn [eval_arg].
  rewrite limits_exceeded_peek, _read_from_object_text_str.
  destruct (_ || _); [discriminate|].
  destruct (_read_from_excel (VStr s) c) as [[v|]|x] eqn:Ee;
    [discriminate| |apply _read_from_excel_raises in Ee as ->; discriminate].
  unfold unresolved.
  repeat (cbv beta iota;
    lazymatch goal with
    | |- match (if ?b then _ else _) with _ => _ end ≠ _ => destruct b
    | |- match get_doc_var LIB ?st h c ?v with _ => _ end ≠ _ =>
        let E := fresh "E" in
        destruct (get_doc_var LIB st h c v) as [?|?] eqn:E;
        [|apply get_doc_var_raises in E as ->; discriminate]
    | |- match (match ?x with _ => _ end) with _ => _ end ≠ _ => destruct x
    | |- match ?x with _ => _ end ≠ _ => destruct x
    | |- (if ?x then _ else _) ≠ _ => destruct x
    | |- Some (if ?x then _ else _) ≠ _ => destruct x
    | |- _ => discriminate
    end).
Qed.

End Resolution.

(** [eval_arg("a.b.c", ctx)] in a new context, the VBA library being empty:
    nothing resolves and the text comes back. *)
Lemma eval_arg_dotted_name_unchanged (fuel : nat) :
  eval_arg ∅ B64.b64decode None (λ _ _ _, Ok VNone) (λ _ _ _, Ok VNone) (S fuel)
    Examples.calm Examples.fresh.1 Examples.fresh.2 (VStr "a.b.c") false
  = Some (Ok (VStr "a.b.c")).
Proof.
  destruct fuel; vm_compute; reflexivity.
Qed.

(** C3.  The last test of [eval_arg] uses [re.match], which looks for the
    pattern at the start of the text only: with [treat_as_var_name] set, the
    dotted text ["a.b.c"], which is no bare identifier and which nothing
    resolves in a new context, is answered with ["NULL"] and not with the
    text itself; the text matched is ["a"]. *)
Theorem eval_arg_dotted_name_as_var (fuel : nat) :
  eval_arg ∅ B64.b64decode None (λ _ _ _, Ok VNone) (λ _ _ _, Ok VNone) (S fuel)
    Examples.calm Examples.fresh.1 Examples.fresh.2 (VStr "a.b.c") true
  = Some (Ok NULL)
  ∧ re_match_var_name "a.b.c" = Some "a".
Proof.
  split; [|reflexivity]. destruct fuel; vm_compute; reflexivity.
Qed.

(** A value that the program stored under [vbKeyA] is lost when a child
    context is built: in a new context [set("vbKeyA", 999)] writes the
    global, [get] yields 999, and after [Context(context=c)] the same [get]
    yields the constant 65 again. *)
Example child_context_overwrites_stored_value :
  ∃ h1 c1,
    set ∅ B64.b64decode Examples.fresh.1 Examples.fresh.2 "vbKeyA" (VInt 999)
      None true = Some (h1, c1)
    ∧ get ∅ h1 c1 "vbKeyA" = Ok (VInt 999)
    ∧ get ∅ (Context_init h1 None None (Some c1) None None None Examples.now).1
        c1 "vbKeyA" = Ok (VInt 65).
Proof.
  destruct (set_returns ∅ B64.b64decode Examples.fresh.1 Examples.fresh.2
              "vbKeyA" (VInt 999) None true) as [[h1 c1] Hs].
  exists h1, c1. split; [exact Hs|].
  split; [exact (set_get _ _ _ _ _ _ _ _ _ _ Hs)|].
  pose proof (set_fields _ _ _ _ _ _ _ _ _ _ _ Hs) as [_ Hw].
  destruct (store_var Examples.fresh.1 Examples.fresh.2 (PyStr.lower "vbKeyA")
              (VInt 999)) as [h0 c0] eqn:Est.
  destruct (set_after_store _ _ _ _ _ _ _ _ _ _ _ _ _ Hs Est) as [Hl _].
  assert (locals c0 !! PyStr.lower "vbKeyA" = None) as Hl0.
  { replace c0 with (store_var Examples.fresh.1 Examples.fresh.2
                       (PyStr.lower "vbKeyA") (VInt 999)).2 by now rewrite Est.
    vm_compute. reflexivity. }
  destruct (child_globals h1 c1 None None None None Examples.now) as [E _].
  unfold get. rewrite Hw.
  change (with_prefix Examples.fresh.2) with "". rewrite app_nil_l.
  unfold _get. rewrite Hl, Hl0. unfold globals_of. rewrite E. cbn [fst].
  rewrite lookup_total_insert_eq, seed_globals_lookup.
  replace (seed_globals Examples.now ∅ !! PyStr.lower "vbKeyA")
    with (Some (VInt 65)) by (vm_compute; reflexivity).
  reflexivity.
Qed.

(* ===================================================================== *)
(** * Further properties of [set] and [get] *)
(* ===================================================================== *)

Section SetFacts.
Context (LIB : gmap string value) (b64decode : string → option string).

(** [get] reads a name through [lower()] only. *)
Lemma get_lower_eq (h : heap) (c : Context) (n n' : string) :
  PyStr.lower n = PyStr.lower n' → get LIB h c n = get LIB h c n'.
Proof.
  intros E. unfold get, _get. rewrite !lower_app, E. reflexivity.
Qed.

(** A property of the state that the store of a variable and the record of
    its type keep is kept by [set_]. *)
Lemma set_invariant (I : heap → Context → Prop) :
  (∀ h c n v h1 c1, store_var h c n v = (h1, c1) → I h c → I h1 c1) →
  (∀ h c n t, I h c → I h (typed c n t)) →
  ∀ fuel h c name v t d h' c',
    set_ LIB b64decode fuel h c name v t d = Some (h', c') → I h c → I h' c'.
Proof.
  intros Hstore Htyped.
  induction fuel as [|fuel IH]; intros h c name v t d h' c' H HI; [discriminate|].
  apply set_inv in H as (h1 & c1 & h3 & c3 & Hs & Hp & He).
  assert (I h3 c3) as H3.
  { pose proof (Htyped _ _ (PyStr.lower name) t (Hstore _ _ _ _ _ _ Hs HI)) as H2.
    destruct (d && _).
    - exact (IH _ _ _ _ _ _ _ _ Hp H2).
    - now injection Hp as <- <-. }
  destruct He as [[= -> ->]|(_ & conv & He)]; [exact H3|].
  exact (IH _ _ _ _ _ _ _ _ He H3).
Qed.

Lemma typed_globals_of (h : heap) (c : Context) (n : string) (t : option value) :
  globals_of h (typed c n t) = globals_of h c.
Proof. now destruct t. Qed.

(** X1.  [set] then [get], whatever the case of the letters: after
    [set(name, v)], [get] of every name with the same lowercased text
    yields [v]. *)
Theorem set_then_get (h : heap) (c : Context) (name name' : string)
    (v : value) (t : option value) :
  PyStr.lower name' = PyStr.lower name →
  ∃ h' c', set LIB b64decode h c name v t true = Some (h', c')
    ∧ get LIB h' c' name' = Ok v.
Proof.
  intros E. destruct (set_returns LIB b64decode h c name v t true) as [[h' c'] H].
  exists h', c'. split; [exact H|].
  rewrite (get_lower_eq _ _ _ _ E). exact (set_get _ _ _ _ _ _ _ _ _ _ H).
Qed.

(** X2.  [set] never changes an entry of [globals] that holds a procedure,
    under the name that is set or under any other: the entry is the same
    after the call, with its nested calls for the prefix and the decoded
    value. *)
Theorem set_keeps_every_procedure (h : heap) (c : Context) (name : string)
    (v : value) (t : option value) (d : bool) (k : string) (p : value) :
  globals_of h c !! k = Some p →
  is_procedure p = true →
  ∃ h' c', set LIB b64decode h c name v t d = Some (h', c')
    ∧ globals_of h' c' !! k = Some p.
Proof.
  intros Hk Hp. destruct (set_returns LIB b64decode h c name v t d) as [[h' c'] H].
  exists h', c'. split; [exact H|].
  apply (set_invariant (λ h c, globals_of h c !! k = Some p)) in H; [exact H| | |exact Hk].
  - intros h0 c0 n v0 h1 c1. unfold store_var, globals_of.
    destruct (locals c0 !! n); [now intros [= <- <-]|].
    destruct ((h0 !!! globals c0) !! n) as [old|] eqn:Eo; [|now intros [= <- <-]].
    destruct (is_procedure old) eqn:Ep; cbn [negb]; intros [= <- <-] Hk0;
      [exact Hk0|].
    cbn [globals]. rewrite lookup_total_insert_eq.
    destruct (decide (n = k)) as [->|Hne]; [|now rewrite lookup_insert_ne].
    rewrite Hk0 in Eo. injection Eo as <-. congruence.
  - intros h0 c0 n t0. now rewrite typed_globals_of.
Qed.

(** X3.  [set] binds new names in [locals] only: the keys of the
    [globals] dictionary are the same after the call, a key of [locals] is
    never removed, the context keeps its reference to [globals] and the
    other dictionaries of the heap are untouched. *)
Theorem set_adds_no_global (h : heap) (c : Context) (name : string)
    (v : value) (t : option value) (d : bool) :
  ∃ h' c', set LIB b64decode h c name v t d = Some (h', c')
    ∧ globals c' = globals c
    ∧ dom (globals_of h' c') = dom (globals_of h c)
    ∧ dom (locals c) ⊆ dom (locals c')
    ∧ (∀ l, l ≠ globals c → h' !! l = h !! l).
Proof.
  destruct (set_returns LIB b64decode h c name v t d) as [[h' c'] H].
  exists h', c'. split; [exact H|]. unfold set in H.
  split; [exact (proj1 (set_fields _ _ _ _ _ _ _ _ _ _ _ H))|].
  split; [|split; [|intros l Hl; exact (set_heap _ _ _ _ _ _ _ _ _ _ _ l H Hl)]].
  - apply (set_invariant
             (λ h0 c0, dom (globals_of h0 c0) = dom (globals_of h c))) in H;
      [exact H| | |reflexivity].
    + intros h0 c0 n v0 h1 c1. unfold store_var, globals_of.
      destruct (locals c0 !! n); [now intros [= <- <-]|].
      destruct ((h0 !!! globals c0) !! n) as [old|] eqn:Eo; [|now intros [= <- <-]].
      destruct (negb (is_procedure old)); intros [= <- <-] HI; [|exact HI].
      cbn [globals]. rewrite lookup_total_insert_eq, dom_insert_L, <- HI.
      apply elem_of_dom_2 in Eo. set_solver.
    + intros h0 c0 n t0. now rewrite typed_globals_of.
  - apply (set_invariant (λ h0 c0, dom (locals c) ⊆ dom (locals c0))) in H;
      [exact H| | |reflexivity].
    + intros h0 c0 n v0 h1 c1. unfold store_var.
      repeat case_match; intros [= <- <-] HI; cbn [locals with_locals];
        rewrite ?dom_insert_L; set_solver.
    + intros h0 c0 n t0. now destruct t0.
Qed.

Lemma set_types_none (fuel : nat) (h : heap) (c : Context) (name : string)
    (v : value) (d : bool) (h' : heap) (c' : Context) :
  set_ LIB b64decode fuel h c name v None d = Some (h', c') →
  types c' = types c.
Proof.
  revert h c name v d h' c'.
  induction fuel as [|fuel IH]; intros h c name v d h' c' H; [discriminate|].
  apply set_inv in H as (h1 & c1 & h3 & c3 & Hs & Hp & He).
  apply store_var_fields in Hs as (_ & _ & Ht & _).
  cbn [typed] in Hp.
  assert (types c3 = types c) as H3.
  { destruct (d && _).
    - apply IH in Hp. congruence.
    - injection Hp as <- <-. exact Ht. }
  destruct He as [[= -> ->]|(_ & conv & He)]; [exact H3|].
  apply IH in He. congruence.
Qed.

Lemma set_types_no_prefix (fuel : nat) (h : heap) (c : Context) (name : string)
    (v ty : value) (h' : heap) (c' : Context) :
  set_ LIB b64decode fuel h c name v (Some ty) false = Some (h', c') →
  types c' = <[PyStr.lower name := ty]> (types c).
Proof.
  destruct fuel as [|fuel]; [discriminate|]. intros H.
  apply set_inv in H as (h1 & c1 & h3 & c3 & Hs & Hp & He).
  apply store_var_fields in Hs as (_ & _ & Ht & _).
  cbn [andb typed] in Hp. injection Hp as <- <-.
  assert (types (with_types c1 (<[PyStr.lower name := ty]> (types c1)))
          = <[PyStr.lower name := ty]> (types c)) as H3 by (cbn; now rewrite Ht).
  destruct He as [[= -> ->]|(_ & conv & He)]; [exact H3|].
  apply set_types_none in He. congruence.
Qed.

(** X4.  The declared type of a variable: after [set] with a type,
    [get_type] of the name, in any case of its letters, yields the type, and
    so does [get_type] of the prefixed name when the prefix is applied; the
    types of the other names are as before.  Without a type, [set] leaves
    the types as they are. *)
Theorem set_records_type (h : heap) (c : Context) (name : string)
    (v : value) (d : bool) :
  (∀ ty, ∃ h' c',
     set LIB b64decode h c name v (Some ty) d = Some (h', c')
     ∧ types c'
       = (if d && (0 <? String.length (with_prefix c))%nat
          then <[PyStr.lower (with_prefix c +:+ name) := ty]>
                 (<[PyStr.lower name := ty]> (types c))
          else <[PyStr.lower name := ty]> (types c))
     ∧ (∀ name', PyStr.lower name' = PyStr.lower name →
          get_type c' name' = Some ty))
  ∧ (∃ h' c', set LIB b64decode h c name v None d = Some (h', c')
       ∧ types c' = types c).
Proof.
  split.
  - intros ty.
    destruct (set_returns LIB b64decode h c name v (Some ty) d) as [[h' c'] H].
    exists h', c'. split; [exact H|]. unfold set in H.
    assert (types c'
            = (if d && (0 <? String.length (with_prefix c))%nat
               then <[PyStr.lower (with_prefix c +:+ name) := ty]>
                      (<[PyStr.lower name := ty]> (types c))
               else <[PyStr.lower name := ty]> (types c))) as Ht.
    { apply set_inv in H as (h1 & c1 & h3 & c3 & Hs & Hp & He).
      apply store_var_fields in Hs as (_ & Hw & Ht & _).
      rewrite Hw in Hp.
      assert (types c3
              = (if d && (0 <? String.length (with_prefix c))%nat
                 then <[PyStr.lower (with_prefix c +:+ name) := ty]>
                        (<[PyStr.lower name := ty]> (types c))
                 else <[PyStr.lower name := ty]> (types c))) as H3.
      { destruct (d && _).
        - apply set_types_no_prefix in Hp. rewrite Hp, lower_prefixed, lower_app.
          cbn. now rewrite Ht.
        - injection Hp as <- <-. cbn. now rewrite Ht. }
      destruct He as [[= -> ->]|(_ & conv & He)]; [exact H3|].
      apply set_types_none in He. congruence. }
    split; [exact Ht|].
    intros name' E. unfold get_type. rewrite Ht, E.
    destruct (d && _).
    + destruct (decide (PyStr.lower (with_prefix c +:+ name) = PyStr.lower name))
        as [->|Hne].
      * apply lookup_insert_eq.
      * rewrite lookup_insert_ne by exact Hne. apply lookup_insert_eq.
    + apply lookup_insert_eq.
  - destruct (set_returns LIB b64decode h c name v None d) as [[h' c'] H].
    exists h', c'. split; [exact H|]. exact (set_types_none _ _ _ _ _ _ _ _ H).
Qed.

End SetFacts.

(* ===================================================================== *)
(** * Further properties of the document variables *)
(* ===================================================================== *)

Section DocVars.
Context (LIB : gmap string value).

(** How [get_doc_var] resolves a name, which it lowercases.  A
    document variable of that name is returned, whatever the variables of
    the program; otherwise, when the name is a program variable that holds
    a text, that text is looked up in its place; when it holds a value that
    is no text and not [None], the result is [None] and the wildcard ["*"]
    is not consulted; when the name is no program variable, or holds
    [None], the result is the wildcard document variable, or [None]
    without one. *)
Lemma get_doc_var_resolution (stack : nat) (h : heap) (c : Context) (s : string) :
  (∀ r, doc_vars c !! PyStr.lower s = Some r →
        get_doc_var LIB stack h c (VStr s) = Ok r)
  ∧ (∀ w, doc_vars c !! PyStr.lower s = None →
          get LIB h c (PyStr.lower s) = Ok (VStr w) →
          get_doc_var LIB (S stack) h c (VStr s)
          = get_doc_var LIB stack h c (VStr w))
  ∧ (∀ v, doc_vars c !! PyStr.lower s = None →
          get LIB h c (PyStr.lower s) = Ok v →
          v ≠ VNone → (∀ w, v ≠ VStr w) →
          get_doc_var LIB (S stack) h c (VStr s) = Ok VNone)
  ∧ (doc_vars c !! PyStr.lower s = None →
     (get LIB h c (PyStr.lower s) = Ok VNone
      ∨ ∃ e, get LIB h c (PyStr.lower s) = Raise e) →
     get_doc_var LIB stack h c (VStr s)
     = Ok (default VNone (doc_vars c !! "*"))).
Proof.
  split_and!.
  - intros r Hr. destruct stack; cbn [get_doc_var]; now rewrite Hr.
  - intros w Hd Hg. cbn [get_doc_var]. now rewrite Hd, Hg.
  - intros v Hd Hg Hn Hs. cbn [get_doc_var]. rewrite Hd, Hg.
    destruct v as [| | |w| |]; try (now destruct stack); try congruence;
      now specialize (Hs w).
  - intros Hd [Hg|[e Hg]]; destruct stack; cbn [get_doc_var];
      rewrite Hd, Hg; try (now destruct (doc_vars c !! "*"));
      apply get_raises in Hg as ->; now destruct (doc_vars c !! "*").
Qed.

(** X5.  A program variable that holds its own name, and that is no
    document variable, sends [get_doc_var] into a recursion that ends with
    the stack: the result is a [RecursionError] whatever the room on the
    stack, and the wildcard is never reached. *)
Theorem get_doc_var_self_reference (stack : nat) (h : heap) (c : Context)
    (s w : string) :
  doc_vars c !! PyStr.lower s = None →
  get LIB h c (PyStr.lower s) = Ok (VStr w) →
  PyStr.lower w = PyStr.lower s →
  get_doc_var LIB stack h c (VStr s) = Raise RecursionError.
Proof.
  intros Hd Hg Hw. revert s Hd Hg Hw.
  induction stack as [|stack IH]; intros s Hd Hg Hw.
  - cbn [get_doc_var]. now rewrite Hd, Hg.
  - cbn [get_doc_var]. rewrite Hd, Hg. apply IH; rewrite ?Hw; congruence.
Qed.

End DocVars.

(* ===================================================================== *)
(** * Further properties of the simulated files *)
(* ===================================================================== *)

Section MoreFiles.
Context (sha256_hexdigest : list Z → string).

(** X6.  [dump_file] moves the buffer before it converts and reports it,
    so its failures leave the file closed: without an engine it raises an
    [AttributeError], with an item that is no byte an [OverflowError], and
    in both cases the buffer is in [closed_files] under the stripped name
    and the handle is gone from [open_files]. *)
Theorem dump_file_fails_after_moving (c : Context) (file_id : string) (f : file) :
  open_files c !! file_id = Some f →
  let name := PyStr.replace (file_name f) "#" "" in
  let moved := with_files c (delete file_id (open_files c))
                 (<[name := file_contents f]> (closed_files c)) (engine c) in
  (array_B (file_contents f) = None →
     dump_file sha256_hexdigest c file_id = (moved, Raise OverflowError))
  ∧ (array_B (file_contents f) = Some (file_contents f) → engine c = None →
     dump_file sha256_hexdigest c file_id = (moved, Raise AttributeError))
  ∧ closed_files moved !! name = Some (file_contents f)
  ∧ open_files moved !! file_id = None
  ∧ dump_file sha256_hexdigest moved file_id = (moved, Ok tt).
Proof.
  intros Ho name moved. split_and!.
  - intros Ha. unfold dump_file. rewrite Ho, Ha. reflexivity.
  - intros Ha He. unfold dump_file, moved. rewrite Ho, Ha.
    unfold report_action. cbn [engine with_files]. rewrite He. reflexivity.
  - apply lookup_insert_eq.
  - apply lookup_delete_eq.
  - unfold dump_file, moved. cbn [open_files with_files].
    rewrite lookup_delete_eq. reflexivity.
Qed.

(** X7.  [open_file] then [dump_file]: in a context with an engine, the
    file is closed empty under its name without ['#'], the files that were
    open under other names stay open with their buffers, and a buffer that
    was open under the same name is discarded by the reopening. *)
Theorem open_then_dump (c : Context) (fname : string) (log : list action) :
  engine c = Some log →
  let c' := (dump_file sha256_hexdigest (open_file c fname) fname).1 in
  (dump_file sha256_hexdigest (open_file c fname) fname).2 = Ok tt
  ∧ closed_files c' !! PyStr.replace fname "#" "" = Some []
  ∧ open_files c' = delete fname (open_files c)
  ∧ open_files (open_file c fname) !! fname
    = Some {| file_name := fname; file_contents := [] |}
  ∧ engine c'
    = Some (log ++ [{| action_name := "Dropped File Hash";
                       action_params := sha256_hexdigest [];
                       action_description :=
                         "File Name: " +:+ PyStr.replace fname "#" "" |}]).
Proof.
  intros He c'.
  assert (open_files (open_file c fname) !! fname
          = Some {| file_name := fname; file_contents := [] |}) as Ho
    by apply lookup_insert_eq.
  assert (dump_file sha256_hexdigest (open_file c fname) fname
          = (with_files (open_file c fname)
               (delete fname (open_files (open_file c fname)))
               (<[PyStr.replace fname "#" "" := []]> (closed_files (open_file c fname)))
               (Some (log ++ [{| action_name := "Dropped File Hash";
                                 action_params := sha256_hexdigest [];
                                 action_description :=
                                   "File Name: " +:+ PyStr.replace fname "#" "" |}])),
             Ok tt)) as E.
  { unfold dump_file. rewrite Ho. cbn [file_name file_contents array_B forallb].
    unfold report_action. cbn [engine with_files open_file]. now rewrite He. }
  unfold c'. rewrite E. cbn [fst snd closed_files open_files engine with_files open_file].
  split_and!; try reflexivity.
  - apply lookup_insert_eq.
  - apply delete_insert_eq.
  - apply lookup_insert_eq.
Qed.

End MoreFiles.

(* ===================================================================== *)
(** * The removal of NUL characters *)
(* ===================================================================== *)

Lemma replace_char_go (a : ascii) (fuel : nat) (s : string) :
  (String.length s ≤ fuel)%nat →
  PyStr.replace_go fuel (String a "") "" s = filter_str (λ x, negb (Ascii.eqb a x)) s.
Proof.
  revert s. induction fuel as [|fuel IH]; intros s Hlen.
  { destruct s; [reflexivity | cbn in Hlen; lia]. }
  destruct s as [|x s]; [reflexivity|].
  assert (∀ r, PyStr.startswith r "" = true) as Hnil by (now intros []).
  cbn [PyStr.replace_go filter_str]. rewrite startswith_eq, Hnil.
  cbn [String.length PyStr.drop].
  destruct (Ascii.eqb a x); cbn [negb].
  - rewrite app_nil_l. apply IH. cbn in Hlen. lia.
  - f_equal. apply IH. cbn in Hlen. lia.
Qed.

(** The replacement of one character by nothing keeps the other
    characters, in their order. *)
Lemma replace_char (a : ascii) (s : string) :
  PyStr.replace s (String a "") "" = filter_str (λ x, negb (Ascii.eqb a x)) s.
Proof. unfold PyStr.replace. now apply replace_char_go. Qed.

Lemma filter_str_idem (p : ascii → bool) (s : string) :
  filter_str p (filter_str p s) = filter_str p s.
Proof.
  induction s as [|x s IH]; [reflexivity|]. cbn [filter_str].
  destruct (p x) eqn:E; [|exact IH]. cbn [filter_str]. now rewrite E, IH.
Qed.

Lemma filter_str_all (p : ascii → bool) (s : string) :
  all_chars p (filter_str p s) = true.
Proof.
  induction s as [|x s IH]; [reflexivity|]. cbn [filter_str].
  destruct (p x) eqn:E; [|exact IH]. cbn [all_chars]. now rewrite E, IH.
Qed.

(** X8.  [_strip_null_bytes] removes every [\x00] from a [str] and from
    the [str] elements of a list, keeps their other characters in order,
    keeps the values that are no [str] and the number of elements, and
    applied twice it does what it does once. *)
Theorem strip_null_bytes_spec (i : item) :
  _strip_null_bytes (_strip_null_bytes i) = _strip_null_bytes i
  ∧ length (item_values (_strip_null_bytes i)) = length (item_values i)
  ∧ (∀ n v, item_values i !! n = Some v →
       item_values (_strip_null_bytes i) !! n
       = Some (match v with
               | VStr s => VStr (filter_str (λ x, negb (Ascii.eqb "000" x)) s)
               | _ => v
               end))
  ∧ (∀ s, VStr s ∈ item_values (_strip_null_bytes i) →
       all_chars (λ x, negb (Ascii.eqb "000" x)) s = true).
Proof.
  assert (∀ v, strip_null_bytes_value v
               = match v with
                 | VStr s => VStr (filter_str (λ x, negb (Ascii.eqb "000" x)) s)
                 | _ => v
                 end) as Hv.
  { intros []; try reflexivity.
    unfold strip_null_bytes_value, NUL. now rewrite replace_char. }
  assert (∀ v, strip_null_bytes_value (strip_null_bytes_value v)
               = strip_null_bytes_value v) as Hidem.
  { intros v. rewrite !Hv. destruct v; try reflexivity.
    now rewrite filter_str_idem. }
  assert (∀ v s, strip_null_bytes_value v = VStr s →
                 all_chars (λ x, negb (Ascii.eqb "000" x)) s = true) as Hall.
  { intros v s. rewrite Hv. destruct v; try discriminate.
    intros [= <-]. apply filter_str_all. }
  destruct i as [v|l]; cbn [_strip_null_bytes item_values].
  - split_and!.
    + now rewrite Hidem.
    + reflexivity.
    + intros [|n] v' [= <-]. cbn. now rewrite Hv.
    + intros s Hs. apply list_elem_of_singleton in Hs. eauto.
  - split_and!.
    + f_equal. rewrite map_map. apply map_ext. intros v. apply Hidem.
    + apply length_map.
    + intros n v Hn. rewrite list_lookup_fmap, Hn. cbn. now rewrite Hv.
    + intros s Hs. apply list_elem_of_fmap in Hs as (v & Hs & _). eauto.
Qed.

(* ===================================================================== *)
(** * [str] and [int] of an integer *)
(* ===================================================================== *)

Module DecimalFacts.
Import PyStr.

Lemma digits_go_digit (acc : Z) (prev : bool) (a : ascii) (s : string) :
  is_digit a = true →
  digits_go acc prev (String a s) = digits_go (acc * 10 + (ord a - 48)) true s.
Proof. intros H. cbn [digits_go]. now rewrite H. Qed.

Ltac digit_step :=
  rewrite digits_go_digit by reflexivity;
  match goal with
  | |- context [ord ?a - 48] =>
      let k := eval vm_compute in (ord a - 48) in
      change (ord a - 48) with k
  end.

(** The digits of a decimal numeral, read after the value [acc]. *)
Lemma digits_go_acc (d : Decimal.uint) (acc : positive) :
  digits_go (Zpos acc) true (NilEmpty.string_of_uint d)
  = Some (Zpos (Pos.of_uint_acc d acc)).
Proof.
  revert acc. induction d as [|d IH|d IH|d IH|d IH|d IH|d IH|d IH|d IH|d IH|d IH];
    intros acc; cbn [NilEmpty.string_of_uint Pos.of_uint_acc];
    [reflexivity|..]; digit_step;
    match goal with
    | |- digits_go ?x true _ = Some (Zpos (Pos.of_uint_acc _ ?y)) =>
        replace x with (Zpos y) by lia; apply IH
    end.
Qed.

Lemma digits_go_uint (d : Decimal.uint) :
  digits_go 0 true (NilEmpty.string_of_uint d) = Some (Z.of_N (Pos.of_uint d)).
Proof.
  induction d as [|d IH|d IH|d IH|d IH|d IH|d IH|d IH|d IH|d IH|d IH];
    cbn [NilEmpty.string_of_uint Pos.of_uint]; [reflexivity|..]; digit_step;
    [exact IH|..]; cbn [Z.mul Z.add Z.of_N]; apply digits_go_acc.
Qed.

Lemma digits_go_start (d : Decimal.uint) :
  d ≠ Decimal.Nil →
  digits_go 0 false (NilEmpty.string_of_uint d)
  = digits_go 0 true (NilEmpty.string_of_uint d).
Proof.
  destruct d; [congruence|..]; intros _; cbn [NilEmpty.string_of_uint];
    now rewrite !digits_go_digit by reflexivity.
Qed.

Lemma digits_go_nilzero (d : Decimal.uint) :
  digits_go 0 false (NilZero.string_of_uint d) = Some (Z.of_uint d).
Proof.
  destruct d; [reflexivity|..];
    (unfold NilZero.string_of_uint; rewrite digits_go_start by discriminate;
     apply digits_go_uint).
Qed.

Lemma all_digits_uint (d : Decimal.uint) :
  all_chars is_digit (NilEmpty.string_of_uint d) = true.
Proof. induction d; cbn [NilEmpty.string_of_uint all_chars]; auto. Qed.

Lemma all_digits_nilzero (d : Decimal.uint) :
  all_chars is_digit (NilZero.string_of_uint d) = true.
Proof. destruct d; [reflexivity|..]; apply all_digits_uint. Qed.

Lemma all_chars_impl (p q : ascii → bool) (s : string) :
  (∀ a, p a = true → q a = true) →
  all_chars p s = true → all_chars q s = true.
Proof.
  intros Hpq. induction s as [|a s IH]; [reflexivity|]. cbn [all_chars].
  intros [Ha Hs]%andb_prop. now rewrite (Hpq _ Ha), IH.
Qed.

End DecimalFacts.

Import DecimalFacts.

Lemma digit_not_space (a : ascii) :
  PyStr.is_digit a = true → PyStr.is_int_space a = false.
Proof.
  unfold PyStr.is_digit, PyStr.is_int_space. intros [H1 H2]%andb_prop.
  apply Z.leb_le in H1, H2. apply orb_false_intro.
  - apply andb_false_iff. right. apply Z.leb_gt. lia.
  - apply Z.eqb_neq. lia.
Qed.

Lemma rstrip_id (s : string) :
  all_chars (λ a, negb (PyStr.is_int_space a)) s = true → PyStr.int_rstrip s = s.
Proof.
  induction s as [|a s IH]; [reflexivity|]. cbn [all_chars PyStr.int_rstrip].
  intros [Ha Hs]%andb_prop. rewrite (IH Hs).
  apply negb_true_iff in Ha. rewrite Ha. now destruct s.
Qed.

(** [int] skips nothing of a text without whitespace. *)
Lemma strip_id (s : string) :
  all_chars (λ a, negb (PyStr.is_int_space a)) s = true →
  PyStr.int_rstrip (PyStr.int_lstrip s) = s.
Proof.
  intros H.
  assert (PyStr.int_lstrip s = s) as ->; [|now apply rstrip_id].
  destruct s as [|a s]; [reflexivity|]. cbn [all_chars] in H.
  apply andb_prop in H as [Ha _]. apply negb_true_iff in Ha.
  cbn [PyStr.int_lstrip]. now rewrite Ha.
Qed.

Lemma digits_no_space (s : string) :
  all_chars PyStr.is_digit s = true →
  all_chars (λ a, negb (PyStr.is_int_space a)) s = true.
Proof.
  apply all_chars_impl. intros a Ha. now rewrite (digit_not_space a Ha).
Qed.

(** [int(s)] for digits without a sign. *)
Lemma to_Z_unsigned (a : ascii) (r : string) :
  all_chars PyStr.is_digit (String a r) = true →
  PyStr.to_Z (String a r) = PyStr.digits_go 0 false (String a r).
Proof.
  intros H. unfold PyStr.to_Z. rewrite (strip_id _ (digits_no_space _ H)).
  cbn [all_chars] in H. apply andb_prop in H as [Ha _].
  destruct a as [[] [] [] [] [] [] [] []]; try discriminate Ha; reflexivity.
Qed.

Lemma nilzero_cons (d : Decimal.uint) :
  ∃ a r, NilZero.string_of_uint d = String a r.
Proof. destruct d; cbn; eauto. Qed.

Lemma to_Z_uint (d : Decimal.uint) :
  PyStr.to_Z (NilZero.string_of_uint d) = Some (Z.of_uint d).
Proof.
  destruct (nilzero_cons d) as (a & r & E).
  pose proof (all_digits_nilzero d) as H. rewrite E in H.
  rewrite <- digits_go_nilzero, E. now apply to_Z_unsigned.
Qed.

Lemma to_Z_int (i : Decimal.int) :
  PyStr.to_Z (NilZero.string_of_int i) = Some (Z.of_int i).
Proof.
  destruct i as [d|d]; cbn [NilZero.string_of_int Z.of_int]; [apply to_Z_uint|].
  unfold PyStr.to_Z. rewrite strip_id.
  - cbv beta iota. now rewrite digits_go_nilzero.
  - cbn [all_chars]. apply andb_true_intro. split; [reflexivity|].
    apply digits_no_space, all_digits_nilzero.
Qed.

(** [int] skips the space and the line characters around a number, and not
    the separators that [strip] removes: [int(" 12\n")] is 12, and
    [int("\x1f12")] raises although ["\x1f12".strip()] is ["12"]. *)
Lemma to_Z_whitespace :
  PyStr.to_Z (String " " (String "1" (String "2" (String "010" "")))) = Some 12
  ∧ PyStr.to_Z (String "031" "12") = None
  ∧ PyStr.strip (String "031" "12") = "12".
Proof. split_and!; reflexivity. Qed.

(** [int(str(z)) == z] *)
Lemma to_Z_of_Z (z : Z) : PyStr.to_Z (PyStr.of_Z z) = Some z.
Proof. unfold PyStr.of_Z. now rewrite to_Z_int, DecimalZ.of_to. Qed.

Lemma contains_char_none (a : ascii) (s : string) :
  all_chars (λ x, negb (Ascii.eqb a x)) s = true →
  PyStr.contains s (String a "") = false.
Proof.
  induction s as [|x s IH]; [reflexivity|]. cbn [all_chars].
  intros [Hx Hs]%andb_prop. apply negb_true_iff in Hx.
  cbn [PyStr.contains]. now rewrite startswith_eq, Hx, (IH Hs).
Qed.

Lemma sign_or_digit_int (i : Decimal.int) :
  all_chars (λ a, PyStr.is_digit a || Ascii.eqb a "-") (NilZero.string_of_int i) = true.
Proof.
  assert (∀ d, all_chars (λ a, PyStr.is_digit a || Ascii.eqb a "-")
                 (NilZero.string_of_uint d) = true) as Hd.
  { intros d. apply (all_chars_impl PyStr.is_digit); [|apply all_digits_nilzero].
    now intros a ->. }
  destruct i; cbn [NilZero.string_of_int all_chars]; [apply Hd|].
  now rewrite Hd.
Qed.

(** [str(z)] holds digits and, in front, a minus sign. *)
Lemma of_Z_chars (z : Z) :
  all_chars (λ a, PyStr.is_digit a || Ascii.eqb a "-") (PyStr.of_Z z) = true.
Proof. apply sign_or_digit_int. Qed.

Lemma of_Z_no (p : ascii → bool) (z : Z) :
  (∀ a, PyStr.is_digit a || Ascii.eqb a "-" = true → p a = true) →
  all_chars p (PyStr.of_Z z) = true.
Proof. intros H. exact (all_chars_impl _ _ _ H (of_Z_chars z)). Qed.

Lemma sign_or_digit_not (a x : ascii) :
  PyStr.is_digit a || Ascii.eqb a "-" = false →
  PyStr.is_digit x || Ascii.eqb x "-" = true → negb (Ascii.eqb a x) = true.
Proof.
  intros Ha Hx. apply negb_true_iff. destruct (Ascii.eqb_spec a x) as [->|]; congruence.
Qed.

Lemma of_Z_no_dot (z : Z) : PyStr.contains (PyStr.of_Z z) "." = false.
Proof.
  apply contains_char_none, of_Z_no. intros x. now apply sign_or_digit_not.
Qed.

Lemma of_Z_not_null (z : Z) : PyStr.of_Z z ≠ "NULL".
Proof.
  intros E. pose proof (of_Z_chars z) as H. rewrite E in H. discriminate H.
Qed.

Lemma py_eq_str (s t : string) : py_eq (VStr s) (VStr t) = bool_decide (s = t).
Proof. unfold py_eq. apply bool_decide_ext. split; congruence. Qed.

Lemma dot_split (a b : string) :
  PyStr.contains a "." = false →
  PyStr.contains (a +:+ "." +:+ b) "." = true
  ∧ PyStr.index (a +:+ "." +:+ b) "." = Some (String.length a)
  ∧ PyStr.take (String.length a) (a +:+ "." +:+ b) = a.
Proof.
  induction a as [|x a IH]; [now destruct b|].
  rewrite contains_dot_cons. intros [Hx Ha]%orb_false_elim.
  destruct (IH Ha) as (H1 & H2 & H3). rewrite !app_cons in *.
  split; [|split].
  - rewrite contains_dot_cons, H1. apply orb_true_r.
  - cbn [PyStr.index]. rewrite startswith_eq, Hx, H2. reflexivity.
  - cbn [String.length PyStr.take]. now rewrite H3.
Qed.

(** X9.  An integer survives the conversions that go through its text:
    [int_convert] gives it back, and so does [coerce_to_int] of its
    [coerce_to_str]. *)
Theorem int_text_round_trip (z : Z) :
  int_convert (VInt z) = Ok z
  ∧ int_convert (VStr (str_convert (VInt z))) = Ok z
  ∧ coerce_to_int (coerce_to_str (VInt z)) = Ok (VInt z).
Proof.
  assert (py_eq (VStr (PyStr.of_Z z)) NULL = false) as Hn.
  { unfold NULL. rewrite py_eq_str. apply bool_decide_eq_false_2, of_Z_not_null. }
  assert (int_convert (VStr (PyStr.of_Z z)) = Ok z) as Hs.
  { unfold int_convert. rewrite Hn. cbn [py_str].
    now rewrite of_Z_no_dot, to_Z_of_Z. }
  split; [|split].
  - unfold int_convert. change (py_eq (VInt z) NULL) with false. cbn [py_str].
    now rewrite of_Z_no_dot, to_Z_of_Z.
  - exact Hs.
  - change (coerce_to_str (VInt z)) with (VStr (PyStr.of_Z z)).
    unfold coerce_to_int. rewrite Hn. cbn [py_int orb].
    change (bool_decide (VStr (PyStr.of_Z z) = VNone)) with false.
    cbn [orb]. now rewrite to_Z_of_Z.
Qed.

(** X10.  [int_convert] cuts a text at its first dot and reads what is in
    front of it: the fraction is dropped, not rounded, and a text that
    starts with the dot, or whose front is no number, raises
    [ValueError]. *)
Theorem int_convert_truncates (a b : string) :
  PyStr.contains a "." = false →
  int_convert (VStr (a +:+ "." +:+ b))
  = match PyStr.to_Z a with
    | Some z => Ok z
    | None => Raise ValueError
    end.
Proof.
  intros Ha. destruct (dot_split a b Ha) as (H1 & H2 & H3).
  unfold int_convert, NULL. rewrite py_eq_str.
  rewrite bool_decide_eq_false_2.
  - cbn [py_str]. now rewrite H1, H2, H3.
  - intros E. rewrite E in H1. discriminate H1.
Qed.

(* ===================================================================== *)
(** * Further properties of the coercion of arguments *)
(* ===================================================================== *)

(** The cases of [coerce_args], on the list with [None] mapped to
    ["NULL"]. *)
Lemma coerce_args_cases (orig_args : list value) :
  coerce_args orig_args
  = (if existsb is_other (map none_to_null orig_args)
     then Ok (map none_to_null orig_args)
     else match find (λ a, negb (is_null a)) (map none_to_null orig_args) with
          | None => Ok (map (λ _, VInt 0) (map none_to_null orig_args))
          | Some (VStr _) => Ok (map coerce_to_str (map none_to_null orig_args))
          | Some _ => coerce_args_to_int (map none_to_null orig_args)
          end).
Proof.
  unfold coerce_args. destruct orig_args as [|o orig_args]; [reflexivity|].
  cbn [length Nat.eqb]. fold none_to_null.
  set (args := map none_to_null (o :: orig_args)).
  unfold list_eq_str.
  assert (map (λ arg : value, arg) args = args) as Hid by apply map_id.
  rewrite !Hid. clear Hid.
  destruct (existsb is_other args) eqn:Ho.
  - destruct (find_first_type_other args None true Ho) as (t & a & ->).
    now destruct a.
  - rewrite (find_first_type_typed args None true Ho). cbn [andb].
    destruct (find (λ a, negb (is_null a)) args) as [a|] eqn:Ef.
    + rewrite (find_non_null _ _ Ef). cbn [fmap option_fmap option_map].
      now destruct a.
    + rewrite (find_null _ Ef). cbn [fmap option_fmap option_map].
      now apply coerce_all_null, find_null.
Qed.

Lemma none_to_null_idem (l : list value) :
  map none_to_null (map none_to_null l) = map none_to_null l.
Proof.
  rewrite map_map. apply map_ext. intros v. now destruct v.
Qed.

Lemma none_to_null_id (l : list value) :
  Forall (λ v, v ≠ VNone) l → map none_to_null l = l.
Proof.
  induction 1 as [|v l Hv _ IH]; [reflexivity|]. cbn [map]. rewrite IH.
  now destruct v.
Qed.

Lemma coerce_integers (l : list value) :
  forallb is_integer l = true → coerce_args_to_int l = Ok l.
Proof.
  induction l as [|v l IH]; [reflexivity|]. cbn [forallb].
  intros [Hv Hl]%andb_prop. cbn [coerce_args_to_int]. rewrite (IH Hl).
  now destruct v.
Qed.

Lemma coerce_plain_texts (l : list value) :
  forallb is_plain_text l = true → map coerce_to_str l = l.
Proof.
  induction l as [|v l IH]; [reflexivity|]. cbn [forallb].
  intros [Hv Hl]%andb_prop. cbn [map]. rewrite (IH Hl). f_equal.
  destruct v as [| | |s| |]; try discriminate Hv. cbn [is_plain_text] in Hv.
  apply negb_true_iff, String.eqb_neq in Hv.
  unfold coerce_to_str, NULL.
  rewrite py_eq_str, (bool_decide_eq_false_2 (s = "NULL")) by exact Hv.
  reflexivity.
Qed.

(** A list of integers is left as it is. *)
Lemma coerce_args_integers (l : list value) :
  forallb is_integer l = true → coerce_args l = Ok l.
Proof.
  intros H. rewrite coerce_args_cases.
  assert (map none_to_null l = l) as ->.
  { apply none_to_null_id, Forall_forall. intros v Hv ->.
    rewrite forallb_forall in H. now specialize (H _ (proj1 (list_elem_of_In _ _) Hv)). }
  assert (existsb is_other l = false) as ->.
  { clear -H. induction l as [|v l IH]; [reflexivity|]. cbn [forallb existsb] in *.
    apply andb_prop in H as [Hv Hl]. rewrite (IH Hl). now destruct v. }
  destruct l as [|v l]; [reflexivity|]. pose proof H as H'. cbn [forallb] in H'.
  apply andb_prop in H' as [Hv _]. destruct v; try discriminate Hv.
  cbn [find]. change (negb (is_null (VInt z))) with true. cbv beta iota.
  now apply coerce_integers.
Qed.

(** A list of texts other than ["NULL"] is left as it is. *)
Lemma coerce_args_plain_texts (l : list value) :
  forallb is_plain_text l = true → coerce_args l = Ok l.
Proof.
  intros H. rewrite coerce_args_cases.
  assert (map none_to_null l = l) as ->.
  { apply none_to_null_id, Forall_forall. intros v Hv ->.
    rewrite forallb_forall in H. now specialize (H _ (proj1 (list_elem_of_In _ _) Hv)). }
  assert (existsb is_other l = false) as ->.
  { clear -H. induction l as [|v l IH]; [reflexivity|]. cbn [forallb existsb] in *.
    apply andb_prop in H as [Hv Hl]. rewrite (IH Hl).
    destruct v; try discriminate Hv. unfold is_other. now rewrite andb_false_r. }
  destruct l as [|v l]; [reflexivity|]. pose proof H as H'. cbn [forallb] in H'.
  apply andb_prop in H' as [Hv _]. destruct v as [| | |s| |]; try discriminate Hv.
  cbn [find]. cbn [is_plain_text] in Hv.
  apply negb_true_iff, String.eqb_neq in Hv.
  assert (is_null (VStr s) = false) as ->.
  { unfold is_null, NULL. rewrite py_eq_str. now apply bool_decide_eq_false_2. }
  cbn [negb]. now rewrite coerce_plain_texts.
Qed.

(** What [coerce_to_str] gives for an element that is ["NULL"], a [str] or
    an [int]. *)
Lemma coerce_to_str_plain (v : value) :
  is_other v = false → v ≠ VNone → is_plain_text (coerce_to_str v) = true.
Proof.
  intros Ho Hn. unfold coerce_to_str.
  destruct (py_eq v NULL) eqn:En; [now rewrite orb_true_r|].
  rewrite orb_false_r. rewrite bool_decide_eq_false_2 by exact Hn.
  unfold is_other, is_null in Ho. rewrite En in Ho. cbn [negb andb] in Ho.
  destruct v as [|b|z|s| |]; try discriminate Ho; try congruence;
    cbn [py_str is_plain_text]; apply negb_true_iff, String.eqb_neq.
  - now destruct b.
  - apply of_Z_not_null.
  - intros ->. discriminate En.
Qed.

Lemma coerce_args_to_int_ok (l out : list value) :
  coerce_args_to_int l = Ok out →
  forallb is_integer out = true ∧ length out = length l.
Proof.
  revert out. induction l as [|v l IH]; intros out.
  - now intros [= <-].
  - cbn [coerce_args_to_int].
    destruct (coerce_to_int v) as [w|] eqn:Ev; [|discriminate].
    destruct (coerce_args_to_int l) as [ws|]; [|discriminate].
    intros [= <-]. destruct (IH _ eq_refl) as [H1 H2].
    cbn [forallb length]. rewrite H1, H2. split; [|reflexivity].
    unfold coerce_to_int in Ev. destruct (_ || _); [now inversion Ev|].
    destruct (py_int v); now inversion Ev.
Qed.

Lemma none_to_null_not_none (l : list value) :
  Forall (λ v, v ≠ VNone) (map none_to_null l).
Proof.
  apply Forall_forall. intros v (w & -> & _)%list_elem_of_fmap. now destruct w.
Qed.

Lemma coerce_texts_plain (args : list value) :
  existsb is_other args = false → Forall (λ v, v ≠ VNone) args →
  forallb is_plain_text (map coerce_to_str args) = true.
Proof.
  intros Ho Hn. induction args as [|v l IH]; [reflexivity|].
  cbn [existsb] in Ho. apply orb_false_elim in Ho as [Hv Hl].
  inversion Hn as [|? ? Hv' Hl']; subst.
  cbn [map forallb]. now rewrite (coerce_to_str_plain v Hv Hv'), IH.
Qed.

Lemma zeros_integers (args : list value) :
  forallb is_integer (map (λ _, VInt 0) args) = true.
Proof. induction args as [|v l IH]; [reflexivity|exact IH]. Qed.

(** X11.  On a list whose elements are [None], ["NULL"], [str] or [int],
    a call of [coerce_args] that returns gives a list of the same length
    whose elements are all of one kind: all texts, none of them ["NULL"],
    or all integers. *)
Theorem coerce_args_uniform (orig out : list value) :
  existsb is_other (map none_to_null orig) = false →
  coerce_args orig = Ok out →
  length out = length orig
  ∧ (forallb is_plain_text out = true ∨ forallb is_integer out = true).
Proof.
  intros Ho. rewrite coerce_args_cases, Ho.
  pose proof (none_to_null_not_none orig) as Hn.
  set (args := map none_to_null orig) in *.
  assert (length args = length orig) as Hl by apply length_map.
  destruct (find _ args) as [a|] eqn:Ef.
  - assert (coerce_args_to_int args = Ok out →
            length out = length orig
            ∧ (forallb is_plain_text out = true ∨ forallb is_integer out = true)) as Hi.
    { intros [H1 H2]%coerce_args_to_int_ok. split; [congruence | now right]. }
    destruct a; try exact Hi. intros [= <-]. rewrite length_map. split; [exact Hl|].
    left. now apply coerce_texts_plain.
  - intros [= <-]. rewrite length_map. split; [exact Hl|]. right.
    apply zeros_integers.
Qed.

(** X12.  [coerce_args] is idempotent: a list that it returns is returned
    as it is by a second call. *)
Theorem coerce_args_idempotent (orig out : list value) :
  coerce_args orig = Ok out → coerce_args out = Ok out.
Proof.
  rewrite coerce_args_cases.
  pose proof (none_to_null_not_none orig) as Hn.
  pose proof (none_to_null_idem orig) as Hid.
  set (args := map none_to_null orig) in *.
  destruct (existsb is_other args) eqn:Ho.
  - intros [= <-]. now rewrite coerce_args_cases, Hid, Ho.
  - destruct (find _ args) as [a|] eqn:Ef.
    + assert (coerce_args_to_int args = Ok out → coerce_args out = Ok out) as Hi.
      { intros [H1 _]%coerce_args_to_int_ok. now apply coerce_args_integers. }
      destruct a; try exact Hi. intros [= <-].
      now apply coerce_args_plain_texts, coerce_texts_plain.
    + intros [= <-]. apply coerce_args_integers, zeros_integers.
Qed.

Lemma coerce_to_int_raises (v : value) (x : exn) :
  is_other v = false → v ≠ VNone → coerce_to_int v = Raise x →
  x = ValueError ∧ ∃ s, v = VStr s ∧ s ≠ "NULL" ∧ PyStr.to_Z s = None.
Proof.
  intros Ho Hn. unfold coerce_to_int.
  destruct (py_eq v NULL) eqn:En; [now rewrite orb_true_r|].
  rewrite orb_false_r. rewrite bool_decide_eq_false_2 by exact Hn.
  unfold is_other, is_null in Ho. rewrite En in Ho. cbn [negb andb] in Ho.
  destruct v as [|b|z|s| |]; try discriminate Ho; try discriminate.
  cbn [py_int]. destruct (PyStr.to_Z s) eqn:Es; [discriminate|].
  intros [= <-]. split; [reflexivity|]. exists s. split; [reflexivity|].
  split; [|exact Es]. intros ->. discriminate En.
Qed.

Lemma coerce_args_to_int_raises (l : list value) (x : exn) :
  existsb is_other l = false → Forall (λ v, v ≠ VNone) l →
  coerce_args_to_int l = Raise x →
  x = ValueError ∧ ∃ s, VStr s ∈ l ∧ s ≠ "NULL" ∧ PyStr.to_Z s = None.
Proof.
  induction l as [|v l IH]; [discriminate|]. intros Ho Hn.
  cbn [existsb] in Ho. apply orb_false_elim in Ho as [Hv Hl].
  inversion Hn as [|? ? Hv' Hl']; subst. cbn [coerce_args_to_int].
  destruct (coerce_to_int v) as [w|y] eqn:Ev.
  - destruct (coerce_args_to_int l) as [ws|y]; [discriminate|].
    intros [= <-]. destruct (IH Hl Hl' eq_refl) as (-> & s & Hs & Hz).
    split; [reflexivity|]. exists s. split; [now right | exact Hz].
  - intros [= <-].
    destruct (coerce_to_int_raises v y Hv Hv' Ev) as (-> & s & -> & Hz).
    split; [reflexivity|]. exists s. split; [now left | exact Hz].
Qed.

(** X13.  [coerce_args] raises nothing but [ValueError], and only for a
    list that holds a text that [int] does not read: the list is coerced
    to integers because its first element other than ["NULL"] is an
    integer, and a later text is no number. *)
Theorem coerce_args_raises (orig : list value) (x : exn) :
  coerce_args orig = Raise x →
  x = ValueError
  ∧ (∃ s, VStr s ∈ orig ∧ PyStr.to_Z s = None)
  ∧ (∃ a, find (λ a, negb (is_null a)) (map none_to_null orig) = Some a
          ∧ is_text a = false).
Proof.
  rewrite coerce_args_cases.
  pose proof (none_to_null_not_none orig) as Hn.
  destruct (existsb is_other (map none_to_null orig)) eqn:Ho; [discriminate|].
  destruct (find _ (map none_to_null orig)) as [a|] eqn:Ef; [|discriminate].
  assert (coerce_args_to_int (map none_to_null orig) = Raise x →
          is_text a = false →
          x = ValueError
          ∧ (∃ s, VStr s ∈ orig ∧ PyStr.to_Z s = None)
          ∧ (∃ a', Some a = Some a' ∧ is_text a' = false)) as Hi.
  { intros Hr Ha.
    destruct (coerce_args_to_int_raises _ _ Ho Hn Hr) as (-> & s & Hs & Hne & Hz).
    split; [reflexivity|]. split; [|eauto].
    exists s. split; [|exact Hz].
    apply list_elem_of_fmap in Hs as (w & Hw & Hin). destruct w; try discriminate Hw.
    - inversion Hw; subst. congruence.
    - now inversion Hw; subst. }
  destruct a; try discriminate; intros Hr; now apply Hi.
Qed.

(** A text with a separator in front of its digits is no number for
    [int], so it makes the coercion to integers and [int_convert] raise. *)
Lemma separator_text_raises :
  coerce_args [VInt 1; VStr (String "031" "12")] = Raise ValueError
  ∧ int_convert (VStr (String "031" "3.9")) = Raise ValueError.
Proof. split; vm_compute; reflexivity. Qed.

(* ===================================================================== *)
(** * Further properties of the spreadsheet columns *)
(* ===================================================================== *)

Lemma string_snoc_list (l : list ascii) (a : ascii) :
  String.string_of_list_ascii (l ++ [a]) = String.string_of_list_ascii l +:+ String a "".
Proof.
  induction l as [|x l IH]; [reflexivity|].
  cbn [app String.string_of_list_ascii]. now rewrite IH.
Qed.

(** Induction on a text from its end. *)
Lemma string_rev_ind (P : string → Prop) :
  P "" → (∀ s a, P s → P (s +:+ String a "")) → ∀ s, P s.
Proof.
  intros H0 Hs s. rewrite <- (String.string_of_list_ascii_of_string s).
  induction (String.list_ascii_of_string s) as [|a l IH] using rev_ind; [exact H0|].
  rewrite string_snoc_list. now apply Hs.
Qed.

Lemma all_chars_app (p : ascii → bool) (x y : string) :
  all_chars p (x +:+ y) = all_chars p x && all_chars p y.
Proof.
  induction x as [|a x IH]; [reflexivity|].
  rewrite app_cons. cbn [all_chars]. now rewrite IH, andb_assoc.
Qed.

Lemma ord_inj (a b : ascii) : PyStr.ord a = PyStr.ord b → a = b.
Proof.
  unfold PyStr.ord. intros H%N2Z.inj.
  rewrite <- (ascii_N_embedding a), <- (ascii_N_embedding b). congruence.
Qed.

Lemma ord_chr (z : Z) : 0 ≤ z < 256 → PyStr.ord (PyStr.chr z) = z.
Proof.
  intros Hz. unfold PyStr.ord, PyStr.chr. rewrite N_ascii_embedding by lia. lia.
Qed.

Lemma is_upper_ord (a : ascii) : PyStr.is_upper a = true → 65 ≤ PyStr.ord a ≤ 90.
Proof. unfold PyStr.is_upper. intros [H1 H2]%andb_prop. lia. Qed.

(** The loop of [excel_col_letter_to_index] at a further letter. *)
Lemma column_snoc (x : string) (a : ascii) :
  reduce (λ s a, s * 26 + PyStr.ord a - PyStr.ord "A" + 1) (x +:+ String a "") 0
  = reduce (λ s a, s * 26 + PyStr.ord a - PyStr.ord "A" + 1) x 0 * 26
    + (PyStr.ord a - 65) + 1.
Proof. rewrite reduce_app. cbn [reduce]. change (PyStr.ord "A") with 65. lia. Qed.

Lemma column_nonneg (x : string) (init : Z) :
  all_chars PyStr.is_upper x = true → 0 ≤ init →
  0 ≤ reduce (λ s a, s * 26 + PyStr.ord a - PyStr.ord "A" + 1) x init.
Proof.
  revert init. induction x as [|a x IH]; intros init; [now cbn|].
  cbn [all_chars reduce]. intros [Ha Hx]%andb_prop Hi. apply (IH _ Hx).
  apply is_upper_ord in Ha. change (PyStr.ord "A") with 65. lia.
Qed.

(** X14.  Two columns written in capital letters have the same index only
    if they are the same column. *)
Theorem excel_col_letter_to_index_injective (x y : string) :
  all_chars PyStr.is_upper x = true → all_chars PyStr.is_upper y = true →
  excel_col_letter_to_index x = excel_col_letter_to_index y → x = y.
Proof.
  unfold excel_col_letter_to_index. revert y.
  induction x as [|x a IH] using string_rev_ind; intros y Hx Hy;
    induction y as [|y b _] using string_rev_ind.
  - reflexivity.
  - rewrite column_snoc. rewrite all_chars_app in Hy.
    apply andb_prop in Hy as [Hy Hb]. cbn [all_chars] in Hb.
    rewrite andb_true_r in Hb. apply is_upper_ord in Hb.
    pose proof (column_nonneg y 0 Hy). cbn [reduce]. lia.
  - rewrite column_snoc. rewrite all_chars_app in Hx.
    apply andb_prop in Hx as [Hx Ha]. cbn [all_chars] in Ha.
    rewrite andb_true_r in Ha. apply is_upper_ord in Ha.
    pose proof (column_nonneg x 0 Hx). cbn [reduce]. lia.
  - rewrite !column_snoc. rewrite all_chars_app in Hx, Hy.
    apply andb_prop in Hx as [Hx Ha]. apply andb_prop in Hy as [Hy Hb].
    cbn [all_chars] in Ha, Hb. rewrite andb_true_r in Ha, Hb.
    apply is_upper_ord in Ha, Hb. intros H.
    assert (PyStr.ord a = PyStr.ord b) as Hab by lia.
    apply ord_inj in Hab as ->. f_equal. apply (IH y Hx Hy). lia.
Qed.

(** X15.  The index depends on the case of the letters: a column whose last
    letter is written small is 32 columns further than the one written in
    capitals. *)
Theorem excel_col_letter_case (x : string) (a : ascii) :
  PyStr.is_upper a = true →
  excel_col_letter_to_index (x +:+ String (PyStr.lower_char a) "")
  = excel_col_letter_to_index (x +:+ String a "") + 32.
Proof.
  intros Ha. unfold excel_col_letter_to_index. rewrite !column_snoc.
  unfold PyStr.lower_char. rewrite Ha. apply is_upper_ord in Ha.
  rewrite ord_chr by lia. lia.
Qed.

(** X16.  The loop that splits a cell index keeps the order of the
    characters and not their places: the column is the letters of the
    index, the row its other characters, after what the two held. *)
Theorem split_cell_filters (cell_index col row : string) :
  split_cell cell_index col row
  = (col +:+ filter_str PyStr.isalpha cell_index,
     row +:+ filter_str (λ c, negb (PyStr.isalpha c)) cell_index).
Proof.
  revert col row. induction cell_index as [|c s IH]; intros col row.
  - cbn [split_cell filter_str]. now rewrite !PyStrFacts.app_nil_r.
  - cbn [split_cell filter_str]. destruct (PyStr.isalpha c); cbn [negb];
      rewrite IH, PyStrFacts.app_assoc; reflexivity.
Qed.

(* ===================================================================== *)
(** * Further properties of the resolution of an argument *)
(* ===================================================================== *)

Lemma contains_first_none (p : ascii → bool) (s : string) (a : ascii) (r : string) :
  all_chars p s = true → p a = false → PyStr.contains s (String a r) = false.
Proof.
  intros Hs Ha. induction s as [|x s IH]; [reflexivity|].
  cbn [all_chars] in Hs. apply andb_prop in Hs as [Hx Hs].
  cbn [PyStr.contains]. rewrite startswith_eq.
  destruct (Ascii.eqb_spec a x) as [->|]; [congruence | exact (IH Hs)].
Qed.

Lemma endswith_first_none (p : ascii → bool) (s : string) (a : ascii) (r : string) :
  all_chars p s = true → p a = false → PyStr.endswith s (String a r) = false.
Proof.
  intros Hs Ha. induction s as [|x s IH]; [reflexivity|].
  cbn [all_chars] in Hs. apply andb_prop in Hs as [Hx Hs].
  rewrite endswith_eq.
  destruct (String.eqb_spec (String x s) (String a r)) as [[= -> ->]|];
    [congruence | exact (IH Hs)].
Qed.

Lemma lower_no_upper (s : string) :
  all_chars (λ a, negb (PyStr.is_upper a)) s = true → PyStr.lower s = s.
Proof.
  induction s as [|a s IH]; [reflexivity|]. cbn [all_chars PyStr.lower].
  intros [Ha Hs]%andb_prop. apply negb_true_iff in Ha.
  unfold PyStr.lower_char. now rewrite Ha, (IH Hs).
Qed.

Lemma sign_or_digit_no_letter (a : ascii) :
  PyStr.is_digit a || Ascii.eqb a "-" = true →
  PyStr.isalpha a || Ascii.eqb a "_" = false.
Proof.
  destruct a as [[] [] [] [] [] [] [] []]; try discriminate; reflexivity.
Qed.

Lemma sign_or_digit_no_upper (a : ascii) :
  PyStr.is_digit a || Ascii.eqb a "-" = true → negb (PyStr.is_upper a) = true.
Proof.
  intros H%sign_or_digit_no_letter. apply orb_false_elim in H as [H _].
  unfold PyStr.isalpha in H. apply orb_false_elim in H as [H _]. now rewrite H.
Qed.

Lemma of_Z_lower (z : Z) : PyStr.lower (PyStr.of_Z z) = PyStr.of_Z z.
Proof. apply lower_no_upper, of_Z_no, sign_or_digit_no_upper. Qed.

(** The text of an integer does not start like the name of a variable. *)
Lemma of_Z_no_var_name (z : Z) : re_match_var_name (PyStr.of_Z z) = None.
Proof.
  pose proof (of_Z_chars z) as H. unfold re_match_var_name.
  destruct (PyStr.of_Z z) as [|a r]; [reflexivity|].
  cbn [all_chars] in H. apply andb_prop in H as [Ha _].
  now rewrite (sign_or_digit_no_letter a Ha).
Qed.

(** A text that is no read of a workbook. *)
Lemma _read_from_excel_other (arg : value) (c : Context) :
  PyStr.contains (PyStr.lower (py_str arg)) "thisworkbook." = false →
  _read_from_excel arg c = Ok None.
Proof. intros H. unfold _read_from_excel. now rewrite H. Qed.

Section Evaluation.
Context (LIB : gmap string value) (b64decode : string → option string)
  (meta : option (gmap string value))
  (object_eval : pyobject → heap → Context → result value)
  (member_access_text : pyobject → heap → Context → result value).

(** X17.  An integer evaluates to itself, with or without
    [treat_as_var_name], as long as the limits hold. *)
Theorem eval_arg_integer (fuel : nat) (e : limits) (h : heap) (c : Context)
    (z : Z) (treat_as_var_name : bool) :
  limits_exceeded e false = Ok false →
  eval_arg LIB b64decode meta object_eval member_access_text (S fuel) e h c
    (VInt z) treat_as_var_name
  = Some (Ok (VInt z)).
Proof.
  intros Hl. cbn [eval_arg]. rewrite Hl.
  rewrite _read_from_excel_other.
  2:{ cbn [py_str]. rewrite of_Z_lower.
      apply (contains_first_none _ _ _ _ (of_Z_chars z)). reflexivity. }
  unfold _read_from_object_text. cbn [py_str].
  rewrite !(endswith_first_none _ _ _ _ (of_Z_chars z)) by reflexivity.
  cbn [orb]. unfold unresolved. cbn [py_str]. rewrite of_Z_no_var_name.
  rewrite bool_decide_eq_false_2 by (intros [? [=]]).
  now rewrite andb_false_r.
Qed.

(** X18.  A text that names a variable evaluates to the value of the
    variable: after [set(name, v)], [eval_arg] of the name, whatever the
    case of its letters, is [v], unless the text reads like a cell of
    the workbook. *)
Theorem set_then_eval_arg (fuel : nat) (e : limits) (h : heap) (c : Context)
    (name name' : string) (v : value) (t : option value)
    (treat_as_var_name : bool) :
  PyStr.lower name' = PyStr.lower name →
  limits_exceeded e false = Ok false →
  PyStr.contains (PyStr.lower name') "thisworkbook." = false →
  ∃ h' c', set LIB b64decode h c name v t true = Some (h', c')
    ∧ eval_arg LIB b64decode meta object_eval member_access_text (S fuel) e h' c'
        (VStr name') treat_as_var_name
      = Some (Ok v).
Proof.
  intros E Hl Hx.
  destruct (set_returns LIB b64decode h c name v t true) as [[h' c'] H].
  exists h', c'. split; [exact H|].
  cbn [eval_arg]. rewrite Hl, (_read_from_excel_other (VStr name') _ Hx).
  rewrite _read_from_object_text_str.
  now rewrite (get_lower_eq LIB _ _ _ _ E), (set_get _ _ _ _ _ _ _ _ _ _ H).
Qed.

(** X19.  A read of [.nodeTypedValue] that finds the [.text] of the node
    returns what is stored there as it is: the base64 decoding that the
    code tries next never succeeds, since the decoded value is [bytes] and
    its [replace] is given [str] arguments. *)
Theorem eval_arg_nodetypedvalue (fuel : nat) (e : limits) (h : heap) (c : Context)
    (s : string) (val : value) (treat_as_var_name : bool) :
  limits_exceeded e false = Ok false →
  PyStr.contains (PyStr.lower s) "thisworkbook." = false →
  get LIB h c s = Raise KeyError →
  PyStr.contains (PyStr.lower s) ".nodetypedvalue" = true →
  get LIB h c (PyStr.replace (PyStr.lower s) ".nodetypedvalue" ".text") = Ok val →
  eval_arg LIB b64decode meta object_eval member_access_text (S fuel) e h c
    (VStr s) treat_as_var_name
  = Some (Ok val).
Proof.
  intros Hl Hx Hg Hn Ht. cbn [eval_arg].
  rewrite Hl, (_read_from_excel_other (VStr s) _ Hx), _read_from_object_text_str.
  rewrite Hg, Hn, Ht. destruct val as [| | |t'| |]; try reflexivity.
  now destruct (b64decode t').
Qed.

(** X20.  [eval_arg] returns: the calls that it makes on the value of a
    function name are one frame deeper each, and a call beyond three
    quarters of the recursion limit raises at once, so the depth of the
    calls is bounded by what is left of the recursion limit. *)
Theorem eval_arg_returns (fuel : nat) (e : limits) (h : heap) (c : Context)
    (arg : value) (treat_as_var_name : bool) :
  0 ≤ recursionlimit e →
  (Z.to_nat (recursionlimit e - level e + 1) < fuel)%nat →
  is_Some (eval_arg LIB b64decode meta object_eval member_access_text fuel e h c
             arg treat_as_var_name).
Proof.
  revert e arg treat_as_var_name.
  induction fuel as [|fuel IH]; intros e arg t Hlim Hfuel; [lia|].
  cbn [eval_arg]. rewrite limits_exceeded_peek.
  destruct (recursion_exceeded e) eqn:Er; cbn [orb]; [eauto|].
  destruct (time_exceeded e); [eauto|].
  assert (∀ func, is_Some (eval_arg LIB b64decode meta object_eval
                             member_access_text fuel (deeper e) h c func true))
    as Hrec.
  { intros func. apply IH; [exact Hlim|].
    apply not_true_iff_false in Er. rewrite recursion_exceeded_iff in Er.
    cbn [deeper level recursionlimit]. lia. }
  cbv zeta.
  repeat case_match; eauto; try congruence;
    match goal with
    | H : eval_arg _ _ _ _ _ _ _ _ _ ?func _ = None |- _ =>
        destruct (Hrec func) as [? Hr]; congruence
    end.
Qed.

End Evaluation.

(* ===================================================================== *)
(** * The case of the letters of a name *)
(* ===================================================================== *)

Section NameCase.
Context (LIB : gmap string value) (b64decode : string → option string).

(** The keys that [set_] writes are lowercased. *)
Lemma keys_lower (fuel : nat) (p name : string) (d : bool) (k : string) :
  k ∈ keys_ fuel p name d → PyStr.lower k = k.
Proof.
  revert name d. induction fuel as [|fuel IH]; intros name d Hk;
    [now apply elem_of_nil in Hk|].
  rewrite keys_S in Hk. apply elem_of_cons in Hk as [->|Hk]; [apply lower_idem|].
  apply elem_of_app in Hk as [Hk|Hk].
  - destruct (d && _); [exact (IH _ _ Hk) | now apply elem_of_nil in Hk].
  - destruct (PyStr.endswith _ _); [exact (IH _ _ Hk) | now apply elem_of_nil in Hk].
Qed.

(** X21.  [contains_user_defined] looks a name up as it is written, while
    [set] and [contains] lowercase it: after [set] of a name with a capital
    letter, [contains] finds the name and [contains_user_defined] finds its
    lowercased form, but for the name as written [contains_user_defined]
    answers what it answered before the call. *)
Theorem set_case_contains (h : heap) (c : Context) (name : string) (v : value)
    (t : option value) (d : bool) (h' : heap) (c' : Context) :
  set LIB b64decode h c name v t d = Some (h', c') →
  PyStr.lower name ≠ name →
  contains LIB h' c' name false = true
  ∧ contains_user_defined h' c' (PyStr.lower name) = true
  ∧ contains_user_defined h' c' name = contains_user_defined h c name.
Proof.
  unfold set. intros H Hn.
  pose proof (set_lookup _ _ _ _ _ _ _ _ _ _ _ H) as Hu.
  split; [|split].
  - unfold contains, get.
    destruct (_get LIB h' c' (with_prefix c' +:+ name)) as [?|x] eqn:E1;
      [reflexivity|].
    apply _get_raises in E1 as ->. now rewrite (_get_user LIB _ _ _ _ Hu).
  - unfold contains_user_defined. unfold user_lookup in Hu.
    destruct (locals c' !! PyStr.lower name) as [w|].
    + rewrite bool_decide_eq_true_2 by eauto. reflexivity.
    + rewrite Hu, (bool_decide_eq_true_2 (is_Some (Some v))) by eauto.
      apply orb_true_r.
  - assert (name ∉ keys_ 4 (with_prefix c) name d) as Hk.
    { intros Hk%keys_lower. contradiction. }
    unfold contains_user_defined.
    destruct (set_frame _ _ _ _ _ _ _ _ _ _ _ _ H Hk) as [-> ->]. reflexivity.
Qed.

End NameCase.

(* ===================================================================== *)
(** * Errors of the resolution of a text *)
(* ===================================================================== *)

Lemma index_none (s sub : string) :
  PyStr.contains s sub = false → PyStr.index s sub = None.
Proof.
  induction s as [|x s IH]; cbn [PyStr.contains PyStr.index].
  - now destruct (PyStr.startswith "" sub).
  - destruct (PyStr.startswith (String x s) sub); [discriminate|].
    intros H. now rewrite (IH H).
Qed.

Lemma contains_drop (n : nat) (s sub : string) :
  PyStr.contains s sub = false → PyStr.contains (PyStr.drop n s) sub = false.
Proof.
  revert s. induction n as [|n IH]; intros s H; [now destruct s|].
  destruct s as [|x s]; [exact H|]. cbn [PyStr.drop]. apply IH.
  cbn [PyStr.contains] in H.
  now destruct (PyStr.startswith (String x s) sub).
Qed.

(** Without a closing parenthesis the extraction of a name fails. *)
Lemma between_unclosed (arg_str opener : string) :
  PyStr.contains (PyStr.lower arg_str) ")" = false →
  between arg_str opener = Raise ValueError.
Proof.
  intros H. unfold between.
  destruct (PyStr.index (PyStr.lower arg_str) opener) as [i|]; [|reflexivity].
  now rewrite (index_none _ _ (contains_drop _ _ _ H)).
Qed.

Section Errors.
Context (LIB : gmap string value) (b64decode : string → option string)
  (meta : option (gmap string value))
  (object_eval : pyobject → heap → Context → result value)
  (member_access_text : pyobject → heap → Context → result value).

(** X22.  A text that reads like a cell of the workbook and has no closing
    parenthesis makes [eval_arg] raise a [ValueError]: the failure of
    [str.index] in [_read_from_excel] is outside its [try] block and
    [eval_arg] does not catch it, whatever the context holds. *)
Theorem eval_arg_unclosed_cell (fuel : nat) (e : limits) (h : heap) (c : Context)
    (arg : value) (treat_as_var_name : bool) :
  limits_exceeded e false = Ok false →
  PyStr.contains (PyStr.lower (py_str arg)) "thisworkbook." = true →
  PyStr.contains (PyStr.lower (py_str arg)) "sheets(" = true →
  PyStr.contains (PyStr.lower (py_str arg)) "range(" = true →
  PyStr.contains (PyStr.lower (py_str arg)) ")" = false →
  eval_arg LIB b64decode meta object_eval member_access_text (S fuel) e h c
    arg treat_as_var_name
  = Some (Raise ValueError).
Proof.
  intros Hl H1 H2 H3 H4. cbn [eval_arg]. rewrite Hl.
  unfold _read_from_excel. rewrite H1, H2, H3. cbn [andb].
  now rewrite (between_unclosed _ _ H4).
Qed.

(** X23.  What [eval_arg] raises on a text: the [RuntimeError] of the
    limits, the [ValueError] of a cell reference that cannot be cut out, or
    the [RecursionError] of a chain of document variables.  A failed
    lookup ([KeyError]) never leaves it, and neither does an error of the
    nested call on a function name. *)
Theorem eval_arg_text_raises (fuel : nat) (e : limits) (h : heap) (c : Context)
    (s : string) (treat_as_var_name : bool) (x : exn) :
  eval_arg LIB b64decode meta object_eval member_access_text fuel e h c
    (VStr s) treat_as_var_name
  = Some (Raise x) →
  x = RuntimeError "The ViperMonkey recursion depth will be exceeded or emulation time limit was exceeded. Aborting."
  ∨ x = ValueError ∨ x = RecursionError.
Proof.
  destruct fuel as [|fuel]; [discriminate|]. cbn [eval_arg].
  rewrite limits_exceeded_peek, _read_from_object_text_str.
  unfold unresolved. cbv zeta. intros H.
  repeat case_match; simplify_eq; eauto;
    repeat match goal with
    | H : _read_from_excel _ _ = Raise _ |- _ =>
        apply _read_from_excel_raises in H as ->
    | H : get_doc_var _ _ _ _ _ = Raise _ |- _ =>
        apply get_doc_var_raises in H as ->
    end; eauto.
Qed.

End Errors.

(* ===================================================================== *)
(** * A child context of a child context *)
(* ===================================================================== *)

Lemma assignments_keys (l : list (string * value)) (k : string) :
  foldl assign ∅ l !! k = None ↔ k ∉ map (λ kv, PyStr.lower kv.1) l.
Proof.
  induction l as [|[a b] l IH] using rev_ind.
  - cbn. rewrite lookup_empty. split; [intros _; apply not_elem_of_nil | done].
  - rewrite foldl_app, map_app, not_elem_of_app. cbn [foldl map].
    unfold assign at 1; cbn [fst snd].
    destruct (decide (PyStr.lower a = k)) as [->|Hne].
    + rewrite lookup_insert_eq. split; [discriminate|].
      intros [_ H]. exfalso. apply H. now left.
    + rewrite lookup_insert_ne, IH by done. split.
      * intros H. split; [exact H|]. intros [->|H']%elem_of_cons; [done|].
        now apply elem_of_nil in H'.
      * now intros [H _].
Qed.

(** The names of the table do not depend on the time. *)
Lemma seed_names (now1 now2 : value) :
  map (λ kv, PyStr.lower kv.1) (BUILTIN_GLOBALS now1)
  = map (λ kv, PyStr.lower kv.1) (BUILTIN_GLOBALS now2).
Proof. vm_compute. reflexivity. Qed.

(** What was seeded is seeded over. *)
Lemma seed_globals_twice (now1 now2 : value) (g : gmap string value) :
  seed_globals now2 (seed_globals now1 g) = seed_globals now2 g.
Proof.
  apply map_eq. intros k.
  rewrite (seed_globals_lookup now2 (seed_globals now1 g)).
  rewrite (seed_globals_lookup now2 g).
  destruct (seed_globals now2 ∅ !! k) as [v|] eqn:E; [reflexivity|].
  rewrite (seed_globals_lookup now1 g).
  unfold seed_globals in E |- *. apply assignments_keys in E.
  rewrite (seed_names now2 now1) in E. apply assignments_keys in E.
  now rewrite E.
Qed.

(** X24.  A child context of a child context: the dictionaries after the
    two constructions are the ones after the second construction alone,
    made from the first parent, and the grandchild refers to the [globals]
    of that parent. *)
Theorem child_context_twice (h : heap) (p : Context)
    (l1 l2 : option (gmap string value)) (e1 e2 : option (list action))
    (d1 d2 : option (gmap string value)) (x1 x2 : option workbook)
    (now1 now2 : value) :
  let s1 := Context_init h None l1 (Some p) e1 d1 x1 now1 in
  let s2 := Context_init s1.1 None l2 (Some s1.2) e2 d2 x2 now2 in
  s2.1 = (Context_init h None l2 (Some p) e2 d2 x2 now2).1
  ∧ globals s2.2 = globals p.
Proof.
  intros s1 s2.
  destruct (child_globals h p l1 e1 d1 x1 now1) as [E1 G1]. fold s1 in E1, G1.
  destruct (child_globals s1.1 s1.2 l2 e2 d2 x2 now2) as [E2 G2]. fold s2 in E2, G2.
  destruct (child_globals h p l2 e2 d2 x2 now2) as [E3 _].
  split; [|congruence].
  rewrite E2, E3. cbn [fst]. rewrite G1, E1. cbn [fst].
  rewrite lookup_total_insert_eq, insert_insert_eq.
  now rewrite seed_globals_twice.
Qed.

(* ===================================================================== *)
(** * Instances of the further properties *)
(* ===================================================================== *)

Lemma set_then_get_witness :
  PyStr.lower "FOO" = PyStr.lower "Foo"
  ∧ ∃ h' c',
      set ∅ B64.b64decode Examples.fresh.1 Examples.fresh.2 "Foo" (VInt 5)
        None true = Some (h', c')
      ∧ get ∅ h' c' "FOO" = Ok (VInt 5).
Proof.
  assert (PyStr.lower "FOO" = PyStr.lower "Foo") as E by reflexivity.
  split; [exact E|].
  exact (set_then_get ∅ B64.b64decode Examples.fresh.1 Examples.fresh.2
           "Foo" "FOO" (VInt 5) None E).
Defined.

Lemma set_keeps_every_procedure_witness :
  (globals_of Examples.heap_with_sub Examples.fresh.2 !! "foo" = Some Examples.a_sub
   ∧ is_procedure Examples.a_sub = true)
  ∧ ∃ h' c',
      set ∅ B64.b64decode Examples.heap_with_sub Examples.fresh.2 "bar.text"
        (VStr "aGk=") None true = Some (h', c')
      ∧ globals_of h' c' !! "foo" = Some Examples.a_sub.
Proof.
  assert (globals_of Examples.heap_with_sub Examples.fresh.2 !! "foo"
          = Some Examples.a_sub) as Hg by (vm_compute; reflexivity).
  assert (is_procedure Examples.a_sub = true) as Hp by reflexivity.
  split; [split; assumption|].
  exact (set_keeps_every_procedure ∅ B64.b64decode Examples.heap_with_sub
           Examples.fresh.2 "bar.text" (VStr "aGk=") None true "foo"
           Examples.a_sub Hg Hp).
Defined.

Lemma get_doc_var_self_reference_witness :
  (doc_vars Examples.self_named !! PyStr.lower "x" = None
   ∧ get ∅ Examples.fresh.1 Examples.self_named (PyStr.lower "x") = Ok (VStr "X")
   ∧ PyStr.lower "X" = PyStr.lower "x")
  ∧ get_doc_var ∅ 10 Examples.fresh.1 Examples.self_named (VStr "x")
    = Raise RecursionError.
Proof.
  assert (doc_vars Examples.self_named !! PyStr.lower "x" = None) as Hd
    by (vm_compute; reflexivity).
  assert (get ∅ Examples.fresh.1 Examples.self_named (PyStr.lower "x")
          = Ok (VStr "X")) as Hg by (vm_compute; reflexivity).
  assert (PyStr.lower "X" = PyStr.lower "x") as Hw by reflexivity.
  split; [split_and!; assumption|].
  exact (get_doc_var_self_reference ∅ 10 Examples.fresh.1 Examples.self_named
           "x" "X" Hd Hg Hw).
Defined.

Lemma dump_file_fails_after_moving_witness :
  open_files Examples.unreported !! "#1"
  = Some {| file_name := "#1"; file_contents := [104; 105] |}
  ∧ (dump_file (λ _, "digest") Examples.unreported "#1").2 = Raise AttributeError
  ∧ closed_files (dump_file (λ _, "digest") Examples.unreported "#1").1 !! "1"
    = Some [104; 105].
Proof.
  assert (open_files Examples.unreported !! "#1"
          = Some {| file_name := "#1"; file_contents := [104; 105] |}) as Ho
    by (vm_compute; reflexivity).
  split; [exact Ho|].
  pose proof (dump_file_fails_after_moving (λ _, "digest") Examples.unreported
                "#1" _ Ho) as H.
  cbv zeta in H. destruct H as (_ & H & Hc & _).
  rewrite (H eq_refl eq_refl). split; [reflexivity | exact Hc].
Defined.

Lemma open_then_dump_witness :
  engine Examples.writing = Some []
  ∧ (dump_file (λ _, "digest") (open_file Examples.writing "#2") "#2").2 = Ok tt
  ∧ closed_files (dump_file (λ _, "digest") (open_file Examples.writing "#2") "#2").1
      !! PyStr.replace "#2" "#" ""
    = Some [].
Proof.
  assert (engine Examples.writing = Some []) as He by reflexivity.
  split; [exact He|].
  pose proof (open_then_dump (λ _, "digest") Examples.writing "#2" [] He) as H.
  cbv zeta in H. destruct H as (H1 & H2 & _). split; [exact H1 | exact H2].
Defined.

Lemma int_convert_truncates_witness :
  PyStr.contains "-3" "." = false
  ∧ int_convert (VStr ("-3" +:+ "." +:+ "9")) = Ok (-3).
Proof.
  assert (PyStr.contains "-3" "." = false) as H by reflexivity.
  split; [exact H|]. exact (int_convert_truncates "-3" "9" H).
Defined.

Lemma coerce_args_uniform_witness :
  (existsb is_other (map none_to_null [VNone; VInt 3; VStr "4"]) = false
   ∧ coerce_args [VNone; VInt 3; VStr "4"] = Ok [VInt 0; VInt 3; VInt 4])
  ∧ length [VInt 0; VInt 3; VInt 4] = length [VNone; VInt 3; VStr "4"]
  ∧ (forallb is_plain_text [VInt 0; VInt 3; VInt 4] = true
     ∨ forallb is_integer [VInt 0; VInt 3; VInt 4] = true).
Proof.
  assert (existsb is_other (map none_to_null [VNone; VInt 3; VStr "4"]) = false)
    as Ho by reflexivity.
  assert (coerce_args [VNone; VInt 3; VStr "4"] = Ok [VInt 0; VInt 3; VInt 4])
    as Hc by (vm_compute; reflexivity).
  split; [split; assumption|].
  exact (coerce_args_uniform _ _ Ho Hc).
Defined.

Lemma coerce_args_idempotent_witness :
  coerce_args [VStr "x"; VNone; VInt 1] = Ok [VStr "x"; VStr ""; VStr "1"]
  ∧ coerce_args [VStr "x"; VStr ""; VStr "1"] = Ok [VStr "x"; VStr ""; VStr "1"].
Proof.
  assert (coerce_args [VStr "x"; VNone; VInt 1] = Ok [VStr "x"; VStr ""; VStr "1"])
    as Hc by (vm_compute; reflexivity).
  split; [exact Hc|]. exact (coerce_args_idempotent _ _ Hc).
Defined.

Lemma coerce_args_raises_witness :
  coerce_args [VInt 1; VStr "a"] = Raise ValueError
  ∧ ∃ s, VStr s ∈ [VInt 1; VStr "a"] ∧ PyStr.to_Z s = None.
Proof.
  assert (coerce_args [VInt 1; VStr "a"] = Raise ValueError) as Hc
    by (vm_compute; reflexivity).
  split; [exact Hc|].
  destruct (coerce_args_raises _ _ Hc) as (_ & H & _). exact H.
Defined.

Lemma excel_col_letter_to_index_injective_witness :
  (all_chars PyStr.is_upper "AB" = true
   ∧ excel_col_letter_to_index "AB" = excel_col_letter_to_index "AB")
  ∧ "AB" = "AB".
Proof.
  assert (all_chars PyStr.is_upper "AB" = true) as Hu by reflexivity.
  assert (excel_col_letter_to_index "AB" = excel_col_letter_to_index "AB") as He
    by reflexivity.
  split; [split; assumption|].
  exact (excel_col_letter_to_index_injective "AB" "AB" Hu Hu He).
Defined.

Lemma excel_col_letter_case_witness :
  PyStr.is_upper "B" = true
  ∧ excel_col_letter_to_index "Ab" = excel_col_letter_to_index "AB" + 32.
Proof.
  assert (PyStr.is_upper "B" = true) as Hu by reflexivity.
  split; [exact Hu|]. exact (excel_col_letter_case "A" "B" Hu).
Defined.

Lemma eval_arg_integer_witness :
  limits_exceeded Examples.calm false = Ok false
  ∧ eval_arg ∅ B64.b64decode None (λ _ _ _, Ok VNone) (λ _ _ _, Ok VNone) 1
      Examples.calm Examples.fresh.1 Examples.fresh.2 (VInt (-42)) true
    = Some (Ok (VInt (-42))).
Proof.
  assert (limits_exceeded Examples.calm false = Ok false) as Hl
    by (vm_compute; reflexivity).
  split; [exact Hl|].
  exact (eval_arg_integer ∅ B64.b64decode None (λ _ _ _, Ok VNone)
           (λ _ _ _, Ok VNone) 0 Examples.calm Examples.fresh.1 Examples.fresh.2
           (-42) true Hl).
Defined.

Lemma set_then_eval_arg_witness :
  (PyStr.lower "FOO" = PyStr.lower "Foo"
   ∧ limits_exceeded Examples.calm false = Ok false
   ∧ PyStr.contains (PyStr.lower "FOO") "thisworkbook." = false)
  ∧ ∃ h' c',
      set ∅ B64.b64decode Examples.fresh.1 Examples.fresh.2 "Foo" (VInt 5)
        None true = Some (h', c')
      ∧ eval_arg ∅ B64.b64decode None (λ _ _ _, Ok VNone) (λ _ _ _, Ok VNone) 1
          Examples.calm h' c' (VStr "FOO") false
        = Some (Ok (VInt 5)).
Proof.
  assert (PyStr.lower "FOO" = PyStr.lower "Foo") as E by reflexivity.
  assert (limits_exceeded Examples.calm false = Ok false) as Hl
    by (vm_compute; reflexivity).
  assert (PyStr.contains (PyStr.lower "FOO") "thisworkbook." = false) as Hx
    by reflexivity.
  split; [split_and!; assumption|].
  exact (set_then_eval_arg ∅ B64.b64decode None (λ _ _ _, Ok VNone)
           (λ _ _ _, Ok VNone) 0 Examples.calm Examples.fresh.1 Examples.fresh.2
           "Foo" "FOO" (VInt 5) None false E Hl Hx).
Defined.

Lemma eval_arg_nodetypedvalue_witness :
  (limits_exceeded Examples.calm false = Ok false
   ∧ PyStr.contains (PyStr.lower "x.nodeTypedValue") "thisworkbook." = false
   ∧ get ∅ Examples.fresh.1 Examples.with_text "x.nodeTypedValue" = Raise KeyError
   ∧ PyStr.contains (PyStr.lower "x.nodeTypedValue") ".nodetypedvalue" = true
   ∧ get ∅ Examples.fresh.1 Examples.with_text
       (PyStr.replace (PyStr.lower "x.nodeTypedValue") ".nodetypedvalue" ".text")
     = Ok (VStr "aGk="))
  ∧ eval_arg ∅ B64.b64decode None (λ _ _ _, Ok VNone) (λ _ _ _, Ok VNone) 1
      Examples.calm Examples.fresh.1 Examples.with_text (VStr "x.nodeTypedValue")
      false
    = Some (Ok (VStr "aGk=")).
Proof.
  assert (limits_exceeded Examples.calm false = Ok false) as Hl
    by (vm_compute; reflexivity).
  assert (PyStr.contains (PyStr.lower "x.nodeTypedValue") "thisworkbook." = false)
    as Hx by reflexivity.
  assert (get ∅ Examples.fresh.1 Examples.with_text "x.nodeTypedValue"
          = Raise KeyError) as Hg by (vm_compute; reflexivity).
  assert (PyStr.contains (PyStr.lower "x.nodeTypedValue") ".nodetypedvalue" = true)
    as Hn by reflexivity.
  assert (get ∅ Examples.fresh.1 Examples.with_text
            (PyStr.replace (PyStr.lower "x.nodeTypedValue") ".nodetypedvalue" ".text")
          = Ok (VStr "aGk=")) as Ht by (vm_compute; reflexivity).
  split; [split_and!; assumption|].
  exact (eval_arg_nodetypedvalue ∅ B64.b64decode None (λ _ _ _, Ok VNone)
           (λ _ _ _, Ok VNone) 0 Examples.calm Examples.fresh.1 Examples.with_text
           "x.nodeTypedValue" (VStr "aGk=") false Hl Hx Hg Hn Ht).
Defined.

Lemma eval_arg_returns_witness :
  (0 ≤ recursionlimit Examples.calm
   ∧ (Z.to_nat (recursionlimit Examples.calm - level Examples.calm + 1) < 52)%nat)
  ∧ is_Some (eval_arg ∅ B64.b64decode None (λ _ _ _, Ok VNone) (λ _ _ _, Ok VNone)
               52 Examples.calm Examples.fresh.1 Examples.fresh.2 (VStr "a.b")
               true).
Proof.
  assert (0 ≤ recursionlimit Examples.calm) as H0 by (cbn; lia).
  assert (Z.to_nat (recursionlimit Examples.calm - level Examples.calm + 1) < 52)%nat
    as Hf by (cbn; lia).
  split; [split; assumption|].
  exact (eval_arg_returns ∅ B64.b64decode None (λ _ _ _, Ok VNone)
           (λ _ _ _, Ok VNone) 52 Examples.calm Examples.fresh.1 Examples.fresh.2
           (VStr "a.b") true H0 Hf).
Defined.

Lemma set_case_contains_witness :
  PyStr.lower "Foo" ≠ "Foo"
  ∧ ∃ h' c',
      set ∅ B64.b64decode Examples.fresh.1 Examples.fresh.2 "Foo" (VInt 5)
        None true = Some (h', c')
      ∧ contains ∅ h' c' "Foo" false = true
      ∧ contains_user_defined h' c' "Foo"
        = contains_user_defined Examples.fresh.1 Examples.fresh.2 "Foo".
Proof.
  assert (PyStr.lower "Foo" ≠ "Foo") as Hn by (intros H; vm_compute in H; discriminate H).
  split; [exact Hn|].
  destruct (set_returns ∅ B64.b64decode Examples.fresh.1 Examples.fresh.2
              "Foo" (VInt 5) None true) as [[h' c'] H].
  exists h', c'. split; [exact H|].
  destruct (set_case_contains ∅ B64.b64decode _ _ _ _ _ _ _ _ H Hn) as (H1 & _ & H3).
  split; [exact H1 | exact H3].
Defined.

Lemma eval_arg_unclosed_cell_witness :
  (limits_exceeded Examples.calm false = Ok false
   ∧ PyStr.contains (PyStr.lower "ThisWorkbook.Sheets(1.Range(A1") "thisworkbook." = true
   ∧ PyStr.contains (PyStr.lower "ThisWorkbook.Sheets(1.Range(A1") "sheets(" = true
   ∧ PyStr.contains (PyStr.lower "ThisWorkbook.Sheets(1.Range(A1") "range(" = true
   ∧ PyStr.contains (PyStr.lower "ThisWorkbook.Sheets(1.Range(A1") ")" = false)
  ∧ eval_arg ∅ B64.b64decode None (λ _ _ _, Ok VNone) (λ _ _ _, Ok VNone) 1
      Examples.calm Examples.fresh.1 Examples.with_sheet
      (VStr "ThisWorkbook.Sheets(1.Range(A1") false
    = Some (Raise ValueError).
Proof.
  assert (limits_exceeded Examples.calm false = Ok false) as Hl
    by (vm_compute; reflexivity).
  assert (PyStr.contains (PyStr.lower "ThisWorkbook.Sheets(1.Range(A1")
            "thisworkbook." = true) as H1 by reflexivity.
  assert (PyStr.contains (PyStr.lower "ThisWorkbook.Sheets(1.Range(A1")
            "sheets(" = true) as H2 by reflexivity.
  assert (PyStr.contains (PyStr.lower "ThisWorkbook.Sheets(1.Range(A1")
            "range(" = true) as H3 by reflexivity.
  assert (PyStr.contains (PyStr.lower "ThisWorkbook.Sheets(1.Range(A1")
            ")" = false) as H4 by reflexivity.
  split; [split_and!; assumption|].
  exact (eval_arg_unclosed_cell ∅ B64.b64decode None (λ _ _ _, Ok VNone)
           (λ _ _ _, Ok VNone) 0 Examples.calm Examples.fresh.1 Examples.with_sheet
           (VStr "ThisWorkbook.Sheets(1.Range(A1") false Hl H1 H2 H3 H4).
Defined.

Lemma eval_arg_text_raises_witness :
  eval_arg ∅ B64.b64decode None (λ _ _ _, Ok VNone) (λ _ _ _, Ok VNone) 1
    Examples.calm Examples.fresh.1 Examples.with_sheet
    (VStr "ThisWorkbook.Sheets(1.Range(A1") false
  = Some (Raise ValueError)
  ∧ (ValueError
     = RuntimeError "The ViperMonkey recursion depth will be exceeded or emulation time limit was exceeded. Aborting."
     ∨ ValueError = ValueError ∨ ValueError = RecursionError).
Proof.
  assert (eval_arg ∅ B64.b64decode None (λ _ _ _, Ok VNone) (λ _ _ _, Ok VNone) 1
            Examples.calm Examples.fresh.1 Examples.with_sheet
            (VStr "ThisWorkbook.Sheets(1.Range(A1") false
          = Some (Raise ValueError)) as H by (vm_compute; reflexivity).
  split; [exact H|].
  exact (eval_arg_text_raises ∅ B64.b64decode None (λ _ _ _, Ok VNone)
           (λ _ _ _, Ok VNone) 1 Examples.calm Examples.fresh.1 Examples.with_sheet
           "ThisWorkbook.Sheets(1.Range(A1" false ValueError H).
Defined.
